(** * whatsapp-server/src/server.ts: connection lifecycle and message pipeline

    A shallow embedding of the connection manager ([safeReconnect],
    [initializeWhatsAppClient], [restartWhatsAppClient], [isClientHealthy]),
    of the driver event handlers registered by
    [setupEnhancedClientEventHandlers], of the ingestion functions
    [processIncomingMessage] / [processOutgoingMessage] and of the API
    handlers that talk to the driver.

    The handlers that only read or edit the stores (chats, contacts, read
    status, avatar cache), the upload endpoint and the handlers of
    [setupClientEventHandlers], which is never called, are not part of the
    model: they neither read nor write the variables of the connection
    manager and set no timer.

    JavaScript runs every handler to completion up to its next [await]; an
    [async] function is therefore cut at its [await]s into segments, each a
    function on the server state.  A segment that stops at an [await] leaves
    a continuation in [inflight]; the event that settles the awaited promise
    runs the next segment.  The handlers of [message] and [message_create]
    are cut after their tests on entry: what they await ([downloadMedia], the
    upload, [addMessage]) completes in a later event, with other events in
    between, and the handler in progress is kept in [processing].  The other
    driver handlers and the API handlers are run in one piece, the results
    of the awaited external operations being part of the event. *)

From Stdlib Require Import Ascii.
From stdpp Require Import base gmap list strings pretty.

Local Open Scope string_scope.
Local Open Scope list_scope.
Local Open Scope Z_scope.

(** ** Values coming from outside *)

(** How an awaited promise settles; of an error only [error.message] is ever
    inspected by the code. *)
Inductive Outcome (A : Type) : Type :=
| Resolved (a : A)
| Rejected (message : string).
Arguments Resolved {A} a.
Arguments Rejected {A} message.

(** [x || d] on a possibly undefined string: the empty string is falsy. *)
Definition or_else (x : option string) (d : string) : string :=
  match x with
  | Some s => if decide (s = "") then d else s
  | None => d
  end.

(** Truthiness of a possibly undefined string. *)
Definition truthy (x : option string) : bool :=
  match x with
  | Some s => bool_decide (s ≠ "")
  | None => false
  end.

(** [hay.includes(needle)] *)
Fixpoint includes (hay needle : string) : bool :=
  String.prefix needle hay ||
  match hay with
  | EmptyString => false
  | String _ rest => includes rest needle
  end.

Definition is_digit (c : ascii) : bool :=
  let n := Ascii.N_of_ascii c in (48 <=? n)%N && (n <=? 57)%N.

(** [s.replace(/[^\d]/g, '')] *)
Fixpoint only_digits (s : string) : string :=
  match s with
  | EmptyString => EmptyString
  | String c rest =>
      if is_digit c then String c (only_digits rest) else only_digits rest
  end.

Definition is_slash (c : ascii) : bool := bool_decide (c = "/"%char).

Fixpoint until_slash (s : string) : string :=
  match s with
  | EmptyString => EmptyString
  | String c rest => if is_slash c then EmptyString else String c (until_slash rest)
  end.

Fixpoint after_slash (s : string) : option string :=
  match s with
  | EmptyString => None
  | String c rest => if is_slash c then Some rest else after_slash rest
  end.

(** [s.split('/')[1]], undefined when [s] has no slash. *)
Definition split_slash_1 (s : string) : option string :=
  until_slash <$> after_slash s.

(** A template literal prints an undefined value as the word. *)
Definition interpolate (x : option string) : string :=
  match x with
  | Some s => s
  | None => "undefined"
  end.

(** ** The driver's objects (whatsapp-web.js), as far as the code reads them *)

Module Wid.
Record t := { user : string; _serialized : string }.
End Wid.

Module ClientInfo.
Record t := { wid : option Wid.t; pushname : option string }.
End ClientInfo.

Module Client.
Record t := { info : option ClientInfo.t }.
End Client.

(** [new Client({...})]: no identity before the driver reports one. *)
Definition new_Client : Client.t := {| Client.info := None |}.

Module MessageId.
Record t := { id : string; _serialized : string }.
End MessageId.

Module Message.
Record t := {
  id : MessageId.t;
  type : string;
  body : string;
  from : string;
  to : string;
  fromMe : bool;
  hasMedia : bool;
  ack : option Z
}.
End Message.

Module MessageMedia.
Record t := { mimetype : string; data : string; filename : option string }.
End MessageMedia.

(** ** Records of the chat store (types/chat), fields as server.ts uses them *)

Module ChatMessage.
Record t := {
  id : string;
  body : string;
  from : string;
  to : string;
  timestamp : string;
  fromMe : bool;
  hasMedia : bool;
  mediaUrl : option string;
  mediaType : option string;
  fileName : option string;
  fileSize : option Z;
  isVoiceMessage : option bool;
  duration : option Z;
  ack : option Z
}.
End ChatMessage.

Module Chat.
Record t := {
  phoneNumber : string;
  messages : list ChatMessage.t;
  unreadCount : Z;
  avatarUrl : option string
}.
End Chat.

(** The chats cache is an object keyed by phone number. *)
Abbreviation Chats := (gmap string Chat.t).

(** ** Module-level variables *)

Record AccountInfo := {
  phoneNumber : option string;
  name : option string;
  profilePicUrl : option string;
  isReady : bool;
  connectedAt : option string
}.

Definition MAX_RECONNECT_ATTEMPTS : Z := 5.
Definition RECONNECT_DELAY : Z := 5000.

(** What is sent to the clients *)

Inductive Details :=
| no_details
| text (s : string)
| attempt (reason : string) (n : Z)
| account (phone name : option string).

Inductive Emit :=
| connection_state (state : string) (details : Details) (isReady : bool) (reconnectAttempts : Z)
| connection_failed (message : string)
| qr (code : string)
| ready
| account_connected (a : AccountInfo)
| disconnected (reason : string)
| account_disconnected (reason : string)
| auth_failure (error : string)
| account_auth_failed (error : string)
| whatsapp_message (m : ChatMessage.t)
| chat_updated (c : Chat.t)
| message_ack_updated (messageId : string) (ack : Z) (chatId : string)
| chats_event (cs : Chats)
| restarting (message : string)
| account_logout (message : string)
| account_reset (message : string)
| error_event (message : string).

(** Calls out of the process: the driver, the blob store, the avatar cache. *)
Inductive Call :=
| client_destroy
| client_initialize
| client_sendMessage (to : string) (body : string) (withMedia : bool)
| client_getProfilePicUrl (contactId : string)
| client_logout
| msg_downloadMedia (messageId : string)
| uploadMediaToSupabase (fileName mimeType : string)
| axios_get (url : string)
| getContactAvatar (contactId : string)
| getMultipleContactAvatars (contactIds : list string)
| saveChats.

(** The argument of [socket.emit('message-sent', ...)]. *)
Inductive MessageSent :=
| sent_ok (m : ChatMessage.t) (c : Chat.t)
| sent_not_ready (error details status : string)
| sent_error (error : string).

Inductive Body :=
| body_not_ready (error status : string)
| body_bad_request (error : string)
| body_error (error message : string)
| body_avatar (contactId : string) (avatarUrl : option string)
| body_avatars (avatars : gmap string (option string))
| body_refreshed (totalChats updatedChats : Z)
| body_success (message : string)
| body_status (isReady hasQr : bool) (status : string) (accountInfo : option AccountInfo).

Inductive Effect :=
| io_emit (e : Emit)
| socket_emit (m : MessageSent)
| res_json (status : Z) (b : Body)
| sleep (ms : Z)
| call (c : Call).

(** Callbacks handed to [setTimeout]. *)
Inductive Callback :=
| cb_safeReconnect (reason : string)
| cb_restartWhatsAppClient
| cb_resolve.

(** Who awaits [initializeWhatsAppClient()]. *)
Inductive Owner := by_startup | by_reconnect.

(** Continuations of the async functions stopped at an [await]. *)
Inductive Task :=
| reconnect_awaits_destroy
| reconnect_awaits_delay
| initialize_awaits (owner : Owner) (initAttempts : Z)
| restart_awaits_destroy
| restart_awaits_initialize.

(** The two message handlers: [message] and [message_create]. *)
Inductive Direction := inbound | outbound.

Record Server := {
  client : option Client.t;
  currentAccountInfo : AccountInfo;
  qrCode : option string;
  isInitializing : bool;
  isClientReady : bool;
  isReconnecting : bool;
  reconnectAttempts : Z;
  chats : Chats;
  timers : list (Z * Callback);
  inflight : list Task;
  processing : list (Direction * Message.t);
  trace : list Effect;
  console : list string;
  exited : bool
}.

(** Assignments to the module-level variables. *)

Definition set_client (v : option Client.t) (st : Server) : Server :=
  {| client := v; currentAccountInfo := currentAccountInfo st;
     qrCode := qrCode st; isInitializing := isInitializing st;
     isClientReady := isClientReady st; isReconnecting := isReconnecting st;
     reconnectAttempts := reconnectAttempts st; chats := chats st;
     timers := timers st; inflight := inflight st;
     processing := processing st; trace := trace st;
     console := console st; exited := exited st |}.

Definition set_currentAccountInfo (v : AccountInfo) (st : Server) : Server :=
  {| client := client st; currentAccountInfo := v; qrCode := qrCode st;
     isInitializing := isInitializing st; isClientReady := isClientReady st;
     isReconnecting := isReconnecting st;
     reconnectAttempts := reconnectAttempts st; chats := chats st;
     timers := timers st; inflight := inflight st;
     processing := processing st; trace := trace st;
     console := console st; exited := exited st |}.

Definition set_qrCode (v : option string) (st : Server) : Server :=
  {| client := client st; currentAccountInfo := currentAccountInfo st;
     qrCode := v; isInitializing := isInitializing st;
     isClientReady := isClientReady st; isReconnecting := isReconnecting st;
     reconnectAttempts := reconnectAttempts st; chats := chats st;
     timers := timers st; inflight := inflight st;
     processing := processing st; trace := trace st;
     console := console st; exited := exited st |}.

Definition set_isInitializing (v : bool) (st : Server) : Server :=
  {| client := client st; currentAccountInfo := currentAccountInfo st;
     qrCode := qrCode st; isInitializing := v;
     isClientReady := isClientReady st; isReconnecting := isReconnecting st;
     reconnectAttempts := reconnectAttempts st; chats := chats st;
     timers := timers st; inflight := inflight st;
     processing := processing st; trace := trace st;
     console := console st; exited := exited st |}.

Definition set_isClientReady (v : bool) (st : Server) : Server :=
  {| client := client st; currentAccountInfo := currentAccountInfo st;
     qrCode := qrCode st; isInitializing := isInitializing st;
     isClientReady := v; isReconnecting := isReconnecting st;
     reconnectAttempts := reconnectAttempts st; chats := chats st;
     timers := timers st; inflight := inflight st;
     processing := processing st; trace := trace st;
     console := console st; exited := exited st |}.

Definition set_isReconnecting (v : bool) (st : Server) : Server :=
  {| client := client st; currentAccountInfo := currentAccountInfo st;
     qrCode := qrCode st; isInitializing := isInitializing st;
     isClientReady := isClientReady st; isReconnecting := v;
     reconnectAttempts := reconnectAttempts st; chats := chats st;
     timers := timers st; inflight := inflight st;
     processing := processing st; trace := trace st;
     console := console st; exited := exited st |}.

Definition set_reconnectAttempts (v : Z) (st : Server) : Server :=
  {| client := client st; currentAccountInfo := currentAccountInfo st;
     qrCode := qrCode st; isInitializing := isInitializing st;
     isClientReady := isClientReady st; isReconnecting := isReconnecting st;
     reconnectAttempts := v; chats := chats st; timers := timers st;
     inflight := inflight st;
     processing := processing st; trace := trace st; console := console st;
     exited := exited st |}.

Definition set_chats (v : Chats) (st : Server) : Server :=
  {| client := client st; currentAccountInfo := currentAccountInfo st;
     qrCode := qrCode st; isInitializing := isInitializing st;
     isClientReady := isClientReady st; isReconnecting := isReconnecting st;
     reconnectAttempts := reconnectAttempts st; chats := v;
     timers := timers st; inflight := inflight st;
     processing := processing st; trace := trace st;
     console := console st; exited := exited st |}.

Definition set_timers (v : list (Z * Callback)) (st : Server) : Server :=
  {| client := client st; currentAccountInfo := currentAccountInfo st;
     qrCode := qrCode st; isInitializing := isInitializing st;
     isClientReady := isClientReady st; isReconnecting := isReconnecting st;
     reconnectAttempts := reconnectAttempts st; chats := chats st;
     timers := v; inflight := inflight st;
     processing := processing st; trace := trace st;
     console := console st; exited := exited st |}.

Definition set_inflight (v : list Task) (st : Server) : Server :=
  {| client := client st; currentAccountInfo := currentAccountInfo st;
     qrCode := qrCode st; isInitializing := isInitializing st;
     isClientReady := isClientReady st; isReconnecting := isReconnecting st;
     reconnectAttempts := reconnectAttempts st; chats := chats st;
     timers := timers st; inflight := v;
     processing := processing st; trace := trace st;
     console := console st; exited := exited st |}.

Definition set_processing (v : list (Direction * Message.t)) (st : Server) : Server :=
  {| client := client st; currentAccountInfo := currentAccountInfo st;
     qrCode := qrCode st; isInitializing := isInitializing st;
     isClientReady := isClientReady st; isReconnecting := isReconnecting st;
     reconnectAttempts := reconnectAttempts st; chats := chats st;
     timers := timers st; inflight := inflight st;
     processing := v; trace := trace st;
     console := console st; exited := exited st |}.

Definition set_trace (v : list Effect) (st : Server) : Server :=
  {| client := client st; currentAccountInfo := currentAccountInfo st;
     qrCode := qrCode st; isInitializing := isInitializing st;
     isClientReady := isClientReady st; isReconnecting := isReconnecting st;
     reconnectAttempts := reconnectAttempts st; chats := chats st;
     timers := timers st; inflight := inflight st;
     processing := processing st; trace := v;
     console := console st; exited := exited st |}.

Definition set_console (v : list string) (st : Server) : Server :=
  {| client := client st; currentAccountInfo := currentAccountInfo st;
     qrCode := qrCode st; isInitializing := isInitializing st;
     isClientReady := isClientReady st; isReconnecting := isReconnecting st;
     reconnectAttempts := reconnectAttempts st; chats := chats st;
     timers := timers st; inflight := inflight st;
     processing := processing st; trace := trace st;
     console := v; exited := exited st |}.

Definition set_exited (v : bool) (st : Server) : Server :=
  {| client := client st; currentAccountInfo := currentAccountInfo st;
     qrCode := qrCode st; isInitializing := isInitializing st;
     isClientReady := isClientReady st; isReconnecting := isReconnecting st;
     reconnectAttempts := reconnectAttempts st; chats := chats st;
     timers := timers st; inflight := inflight st;
     processing := processing st; trace := trace st;
     console := console st; exited := v |}.

(** ** Primitives *)

(** The trace and the console hold the most recent entry first. *)
Definition effect (e : Effect) (st : Server) : Server :=
  set_trace (e :: trace st) st.

Definition emit (e : Emit) : Server -> Server := effect (io_emit e).

Definition console_log (line : string) (st : Server) : Server :=
  set_console (line :: console st) st.

Definition setTimeout (cb : Callback) (ms : Z) (st : Server) : Server :=
  set_timers (timers st ++ [(ms, cb)]) st.

(** The running function stops at an [await] and leaves its continuation. *)
Definition await (t : Task) (st : Server) : Server :=
  set_inflight (t :: inflight st) st.

(** [currentAccountInfo = { isReady: false }] *)
Definition no_account : AccountInfo :=
  {| phoneNumber := None; name := None; profilePicUrl := None;
     isReady := false; connectedAt := None |}.

(** [currentAccountInfo.isReady = b] *)
Definition set_account_isReady (b : bool) (st : Server) : Server :=
  let a := currentAccountInfo st in
  set_currentAccountInfo
    {| phoneNumber := phoneNumber a; name := name a;
       profilePicUrl := profilePicUrl a; isReady := b;
       connectedAt := connectedAt a |} st.

Definition logConnectionState (state : string) (details : Details) (st : Server) : Server :=
  emit (connection_state state details (isClientReady st) (reconnectAttempts st))
    (console_log state st).

(** [!!(client && client.info && client.info.wid && isClientReady)] *)
Definition isClientHealthy (st : Server) : bool :=
  match client st with
  | Some c =>
      match Client.info c with
      | Some i =>
          match ClientInfo.wid i with
          | Some _ => isClientReady st
          | None => false
          end
      | None => false
      end
  | None => false
  end.

(** ** initializeWhatsAppClient *)

(** An async function either returned before any [await] or is suspended. *)
Inductive Async :=
| Returned (st : Server)
| Pending (st : Server).

Definition maxInitAttempts : Z := 5.

(** [Math.min(RECONNECT_DELAY * 3, 30000)] *)
Definition escalatedDelay : Z := Z.min (RECONNECT_DELAY * 3) 30000.

(** [Math.min(initAttempts * 15000, 60000)] *)
Definition retry_delay (initAttempts : Z) : Z := Z.min (initAttempts * 15000) 60000.

(** The loop body from [initAttempts++] to [await client.initialize()].
    The wait before a retry, [await new Promise(resolve => setTimeout(resolve,
    delay))], is entered in the trace as [sleep delay] and is over when the
    step ends: the function is suspended next at [client.initialize()], and
    what other handlers do during the wait is not followed. *)
Definition initialize_try (owner : Owner) (initAttempts : Z) (st : Server) : Server :=
  let initAttempts := initAttempts + 1 in
  let st :=
    if 1 <? initAttempts
    then effect (sleep (retry_delay initAttempts)) st
    else st in
  await (initialize_awaits owner initAttempts) (effect (call client_initialize) st).

Definition initializeWhatsAppClient (owner : Owner) (st : Server) : Async :=
  if isInitializing st then
    Returned (console_log "Client initialization already in progress" st)
  else
    let st := set_isInitializing true st in
    let st := set_isClientReady false st in
    let st := set_account_isReady false st in
    let st := logConnectionState "INITIALIZING" no_details st in
    let st := set_client (Some new_Client) st in
    Pending (initialize_try owner 0 st).

(** [client.initialize()] settled as [r]; [cleanup] is how the
    [client.destroy()] of a failed instance settles.  The result says
    whether [initializeWhatsAppClient] has returned ([Some]) or waits for
    the next [client.initialize()].  The five seconds waited after
    [client.destroy()] are entered as [sleep 5000], like the wait of
    [initialize_try]. *)
Definition initialize_settled (owner : Owner) (initAttempts : Z)
    (r cleanup : Outcome unit) (st : Server) : Server * option (Outcome unit) :=
  match r with
  | Resolved _ =>
      let st := logConnectionState "INITIALIZATION_COMPLETE" no_details st in
      (set_isInitializing false st, Some (Resolved ()))
  | Rejected e =>
      if initAttempts <? maxInitAttempts then
        let st :=
          match client st with
          | Some _ =>
              let st := effect (call client_destroy) st in
              match cleanup with
              | Resolved _ => effect (sleep 5000) st
              | Rejected _ => console_log "Warning: Error destroying failed client" st
              end
          | None => st
          end in
        let st := set_client (Some new_Client) st in
        (initialize_try owner initAttempts st, None)
      else
        let e := "WhatsApp client initialization failed after 5 attempts: " +:+ e in
        let st := logConnectionState "INITIALIZATION_FAILED" (text e) st in
        let st := set_isClientReady false st in
        let st := set_account_isReady false st in
        let st := setTimeout (cb_safeReconnect "Extreme initialization failed")
                    escalatedDelay st in
        (set_isInitializing false st, Some (Rejected e))
  end.

(** ** safeReconnect *)

Definition safeReconnect_finally (st : Server) : Server :=
  set_isReconnecting false st.

Definition safeReconnect_catch (e : string) (st : Server) : Server :=
  let st := console_log "Error during reconnection" st in
  let st := logConnectionState "RECONNECT_FAILED" (text e) st in
  let st := setTimeout (cb_safeReconnect ("Previous attempt failed: Error: " +:+ e))
              (RECONNECT_DELAY * 2) st in
  safeReconnect_finally st.

(** From [reconnectAttempts++] to the wait before the new client. *)
Definition safeReconnect_attempt (st : Server) : Server :=
  let st := set_reconnectAttempts (reconnectAttempts st + 1) st in
  if MAX_RECONNECT_ATTEMPTS <? reconnectAttempts st then
    let st := logConnectionState "MAX_RECONNECT_ATTEMPTS_REACHED" no_details st in
    let st := emit (connection_failed "Максимальное количество попыток переподключения достигнуто") st in
    safeReconnect_finally st
  else
    await reconnect_awaits_delay (setTimeout cb_resolve RECONNECT_DELAY st).

Definition safeReconnect (reason : string) (st : Server) : Server :=
  if isReconnecting st || isInitializing st then
    console_log "Reconnection already in progress, skipping..." st
  else
    let st := set_isReconnecting true st in
    let st := set_isClientReady false st in
    let st := set_account_isReady false st in
    let st := logConnectionState "RECONNECTING"
                (attempt reason (reconnectAttempts st + 1)) st in
    match client st with
    | Some _ => await reconnect_awaits_destroy (effect (call client_destroy) st)
    | None => safeReconnect_attempt st
    end.

(** [await client.destroy()] settled. *)
Definition safeReconnect_destroyed (r : Outcome unit) (st : Server) : Server :=
  let st :=
    match r with
    | Resolved _ => logConnectionState "CLIENT_DESTROYED" no_details st
    | Rejected _ => console_log "Error destroying client" st
    end in
  safeReconnect_attempt st.

(** The wait is over: [await initializeWhatsAppClient()]. *)
Definition safeReconnect_delayed (st : Server) : Server :=
  match initializeWhatsAppClient by_reconnect st with
  | Returned st => safeReconnect_finally st
  | Pending st => st
  end.

(** [initializeWhatsAppClient()] returned or threw, to whoever awaited it:
    [safeReconnect], or the start-up code, which exits the process. *)
Definition initialize_returned (owner : Owner) (r : Outcome unit) (st : Server) : Server :=
  match owner, r with
  | by_reconnect, Resolved _ => safeReconnect_finally st
  | by_reconnect, Rejected e => safeReconnect_catch e st
  | by_startup, Resolved _ => console_log "WhatsApp client initialized with enhanced stability" st
  | by_startup, Rejected _ => set_exited true (console_log "Fatal error starting server" st)
  end.

(** ** restartWhatsAppClient *)

Definition restart_create (st : Server) : Server :=
  let st := set_client (Some new_Client) st in
  await restart_awaits_initialize (effect (call client_initialize) st).

Definition restart_catch (st : Server) : Server :=
  emit (error_event "Failed to restart WhatsApp client")
    (console_log "Error restarting WhatsApp client" st).

Definition restartWhatsAppClient (st : Server) : Server :=
  if isInitializing st then
    console_log "Client is already initializing, skipping restart" st
  else
    let st := set_isInitializing true st in
    let st := console_log "Restarting WhatsApp client..." st in
    match client st with
    | Some _ => await restart_awaits_destroy (effect (call client_destroy) st)
    | None => restart_create st
    end.

Definition restart_destroyed (r : Outcome unit) (st : Server) : Server :=
  match r with
  | Resolved _ => restart_create (console_log "Current client destroyed" st)
  | Rejected _ => set_isInitializing false (restart_catch st)
  end.

Definition restart_initialized (r : Outcome unit) (st : Server) : Server :=
  set_isInitializing false
    match r with
    | Resolved _ => console_log "New WhatsApp client initialized" st
    | Rejected _ => restart_catch st
    end.

(** ** Message pipeline and handlers *)

(** What a message event brings along: how the awaited external operations
    settle, and the clock. *)
Record MediaIO := {
  downloaded : Outcome (option MessageMedia.t);
  uploaded : Outcome string;
  measured : Outcome Z;
  now : string;
  now_ms : Z
}.

Module SendData.
Record t := {
  phoneNumber : string;
  message : string;
  mediaUrl : option string;
  fileName : option string;
  fileSize : option Z;
  mediaType : option string;
  isVoiceMessage : option bool;
  duration : option Z
}.
End SendData.

Record SendIO := {
  fetched : Outcome string;
  sent : Outcome Message.t;
  sent_at : string
}.

(** Where [clearAccountData] stopped when it threw: inside [clearAllChats],
    which then leaves the cache as [cache], or in one of the two steps after
    it, [clearAllReadStatuses] and [clearAvatarCache]. *)
Inductive ClearFailure :=
| in_clearAllChats (cache : Chats)
| after_clearAllChats.

(** The local variables [mediaUrl], [mediaType], [fileName], [fileSize] and
    [duration] of the two process functions. *)
Record MediaFields := {
  mf_mediaUrl : string;
  mf_mediaType : string;
  mf_fileName : string;
  mf_fileSize : Z;
  mf_duration : Z
}.

Definition no_media : MediaFields :=
  {| mf_mediaUrl := ""; mf_mediaType := ""; mf_fileName := "";
     mf_fileSize := 0; mf_duration := 0 |}.

(** [getAudioDuration] catches every error and answers 0; [r] is the rounded
    result of the measurement. *)
Definition getAudioDuration (r : Outcome Z) : Z :=
  match r with
  | Resolved d => d
  | Rejected _ => 0
  end.

(** utils/chatStorage and Buffer are not among the sources: [addMessage]
    takes the message and the cache and gives the new cache and either the
    updated chat or an error; [clearAllChats] gives the cache after a reset;
    [base64_length data] is [Buffer.from(data, 'base64').length]. *)
Class Imports := {
  addMessage : ChatMessage.t -> Chats -> Chats * Outcome Chat.t;
  clearAllChats : Chats -> Chats;
  base64_length : string -> Z
}.

Section Pipeline.
Context `{Imports}.

(** The media part of [processIncomingMessage] and [processOutgoingMessage],
    the same text in both. *)
Definition process_media (msg : Message.t) (io : MediaIO) (st : Server)
  : Server * Outcome MediaFields :=
  let isVoiceMessage := bool_decide (Message.type msg = "ptt") in
  if Message.hasMedia msg then
    let st := effect (call (msg_downloadMedia (MessageId.id (Message.id msg)))) st in
    match downloaded io with
    | Rejected e => (st, Rejected e)
    | Resolved None => (st, Resolved no_media)
    | Resolved (Some media) =>
        let extension :=
          if isVoiceMessage then "ogg"
          else interpolate (split_slash_1 (MessageMedia.mimetype media)) in
        let defaultFileName :=
          Message.type msg +:+ "_" +:+ pretty (now_ms io) +:+ "." +:+ extension in
        let mimeType :=
          if isVoiceMessage then "audio/ogg" else MessageMedia.mimetype media in
        let fileName := or_else (MessageMedia.filename media) defaultFileName in
        let st := effect (call (uploadMediaToSupabase fileName mimeType)) st in
        match uploaded io with
        | Rejected e => (console_log "Error processing media" st, Rejected e)
        | Resolved url =>
            (st, Resolved
               {| mf_mediaUrl := url;
                  mf_mediaType := mimeType;
                  mf_fileName := fileName;
                  mf_fileSize := base64_length (MessageMedia.data media);
                  mf_duration :=
                    if isVoiceMessage then getAudioDuration (measured io) else 0 |})
        end
    end
  else (st, Resolved no_media).

(** The object literal [message] of [processIncomingMessage]. *)
Definition incoming_message (msg : Message.t) (mf : MediaFields) (timestamp : string)
  : ChatMessage.t :=
  {| ChatMessage.id := MessageId.id (Message.id msg);
     ChatMessage.body := Message.body msg;
     ChatMessage.from := Message.from msg;
     ChatMessage.to := Message.to msg;
     ChatMessage.timestamp := timestamp;
     ChatMessage.fromMe := false;
     ChatMessage.hasMedia := Message.hasMedia msg;
     ChatMessage.mediaUrl := Some (mf_mediaUrl mf);
     ChatMessage.mediaType := Some (mf_mediaType mf);
     ChatMessage.fileName := Some (mf_fileName mf);
     ChatMessage.fileSize := Some (mf_fileSize mf);
     ChatMessage.isVoiceMessage := Some (bool_decide (Message.type msg = "ptt"));
     ChatMessage.duration := Some (mf_duration mf);
     ChatMessage.ack := Some 3 |}.

(** The object literal [message] of [processOutgoingMessage]; [msg.ack || 0]. *)
Definition outgoing_message (msg : Message.t) (mf : MediaFields) (timestamp : string)
  : ChatMessage.t :=
  {| ChatMessage.id := MessageId.id (Message.id msg);
     ChatMessage.body := Message.body msg;
     ChatMessage.from := Message.from msg;
     ChatMessage.to := Message.to msg;
     ChatMessage.timestamp := timestamp;
     ChatMessage.fromMe := true;
     ChatMessage.hasMedia := Message.hasMedia msg;
     ChatMessage.mediaUrl := Some (mf_mediaUrl mf);
     ChatMessage.mediaType := Some (mf_mediaType mf);
     ChatMessage.fileName := Some (mf_fileName mf);
     ChatMessage.fileSize := Some (mf_fileSize mf);
     ChatMessage.isVoiceMessage := Some (bool_decide (Message.type msg = "ptt"));
     ChatMessage.duration := Some (mf_duration mf);
     ChatMessage.ack := Some (default 0 (Message.ack msg)) |}.

(** [const chat = await addMessage(message)] and the two broadcasts. *)
Definition save_and_announce (message : ChatMessage.t) (st : Server)
  : Server * Outcome unit :=
  match addMessage message (chats st) with
  | (cs, Rejected e) => (set_chats cs st, Rejected e)
  | (cs, Resolved chat) =>
      let st := set_chats cs st in
      let st := emit (whatsapp_message message) st in
      (emit (chat_updated chat) st, Resolved ())
  end.

Definition processIncomingMessage (msg : Message.t) (io : MediaIO) (st : Server)
  : Server * Outcome unit :=
  match process_media msg io st with
  | (st, Rejected e) => (st, Rejected e)
  | (st, Resolved mf) =>
      let message := incoming_message msg mf (now io) in
      let st := console_log "Saving INCOMING message" st in
      save_and_announce message st
  end.

Definition processOutgoingMessage (msg : Message.t) (io : MediaIO) (st : Server)
  : Server * Outcome unit :=
  match process_media msg io st with
  | (st, Rejected e) => (st, Rejected e)
  | (st, Resolved mf) =>
      let message := outgoing_message msg mf (now io) in
      let st := console_log "Saving OUTGOING message" st in
      save_and_announce message st
  end.

(** [currentAccountInfo.isReady && x === currentAccountInfo.phoneNumber] *)
Definition for_current_account (x : string) (st : Server) : bool :=
  isReady (currentAccountInfo st) &&
  bool_decide (phoneNumber (currentAccountInfo st) = Some x).

(** *** Handlers of [setupEnhancedClientEventHandlers] *)

Definition on_qr (dataUrl : Outcome string) (st : Server) : Server :=
  let st := logConnectionState "QR_GENERATED" no_details st in
  match dataUrl with
  | Resolved url =>
      let st := set_qrCode (Some url) st in
      let st := emit (qr url) st in
      set_reconnectAttempts 0 st
  | Rejected e =>
      let st := console_log "Error generating QR code" st in
      logConnectionState "QR_ERROR" (text e) st
  end.

Definition updateAccountInfo (pic : Outcome (option string)) (timestamp : string)
    (st : Server) : Server :=
  match client st with
  | Some c =>
      match Client.info c with
      | Some info =>
          match ClientInfo.wid info with
          | Some wid =>
              let st :=
                set_currentAccountInfo
                  {| phoneNumber := Some (Wid.user wid +:+ "@c.us");
                     name := Some (or_else (ClientInfo.pushname info) "Пользователь");
                     profilePicUrl := None;
                     isReady := true;
                     connectedAt := Some timestamp |} st in
              let st := effect (call (client_getProfilePicUrl (Wid._serialized wid))) st in
              let st :=
                match pic with
                | Resolved url =>
                    let a := currentAccountInfo st in
                    set_currentAccountInfo
                      {| phoneNumber := phoneNumber a; name := name a;
                         profilePicUrl := url; isReady := isReady a;
                         connectedAt := connectedAt a |} st
                | Rejected _ => console_log "No profile picture available" st
                end in
              console_log "Account info updated" st
          | None => console_log "Error updating account info" st
          end
      | None => st
      end
  | None => st
  end.

Definition on_ready (pic : Outcome (option string)) (timestamp : string)
    (st : Server) : Server :=
  let st := set_isClientReady true st in
  let st := set_reconnectAttempts 0 st in
  let st := logConnectionState "READY" no_details st in
  let st := updateAccountInfo pic timestamp st in
  let st := emit ready st in
  let st := emit (account_connected (currentAccountInfo st)) st in
  let st := set_qrCode None st in
  logConnectionState "ACCOUNT_CONNECTED"
    (account (phoneNumber (currentAccountInfo st)) (name (currentAccountInfo st))) st.

Definition on_authenticated (st : Server) : Server :=
  logConnectionState "AUTHENTICATED" no_details st.

Definition on_loading_screen (percent message : string) (st : Server) : Server :=
  logConnectionState "LOADING" (text (percent +:+ "% - " +:+ message)) st.

Definition on_change_state (state : string) (st : Server) : Server :=
  logConnectionState "STATE_CHANGED" (text state) st.

Definition on_disconnected (reason : string) (st : Server) : Server :=
  let st := set_isClientReady false st in
  let st := set_account_isReady false st in
  let st := logConnectionState "DISCONNECTED" (text reason) st in
  let st := emit (disconnected reason) st in
  let st := emit (account_disconnected reason) st in
  let st := set_qrCode None st in
  if negb (isReconnecting st) then
    setTimeout (cb_safeReconnect ("Disconnected: " +:+ reason)) 1000 st
  else st.

Definition on_auth_failure (error : string) (st : Server) : Server :=
  let st := set_isClientReady false st in
  let st := set_account_isReady false st in
  let st := logConnectionState "AUTH_FAILURE" (text error) st in
  let st := emit (auth_failure error) st in
  let st := emit (account_auth_failed error) st in
  if negb (isReconnecting st) then
    setTimeout (cb_safeReconnect ("Auth failure: " +:+ error)) 2000 st
  else st.

(** The [message] handler when nothing else happens before what it awaits
    has completed: the tests on entry, then [processIncomingMessage]. *)
Definition on_message (msg : Message.t) (io : MediaIO) (st : Server) : Server :=
  if negb (isClientReady st) then
    console_log "Received message but client not ready, ignoring" st
  else if negb (Message.fromMe msg) then
    if for_current_account (Message.to msg) st then
      match processIncomingMessage msg io st with
      | (st, Resolved _) => st
      | (st, Rejected _) => console_log "Error processing incoming message" st
      end
    else console_log "Message not for current account, ignoring" st
  else st.

(** The [message_create] handler, likewise. *)
Definition on_message_create (msg : Message.t) (io : MediaIO) (st : Server) : Server :=
  if negb (isClientReady st) then
    console_log "Received message_create but client not ready, ignoring" st
  else if Message.fromMe msg then
    if for_current_account (Message.from msg) st then
      match processOutgoingMessage msg io st with
      | (st, Resolved _) => st
      | (st, Rejected _) => console_log "Error processing outgoing message" st
      end
    else console_log "Outgoing message not from current account, ignoring" st
  else st.

(** The same two handlers with other events in between.  The [message]
    handler up to [await processIncomingMessage(msg)]: the tests on entry; a
    message that passes them is noted as in progress. *)
Definition on_message_entry (msg : Message.t) (st : Server) : Server :=
  if negb (isClientReady st) then
    console_log "Received message but client not ready, ignoring" st
  else if negb (Message.fromMe msg) then
    if for_current_account (Message.to msg) st then
      set_processing (processing st ++ [(inbound, msg)]) st
    else console_log "Message not for current account, ignoring" st
  else st.

(** The [message_create] handler up to [await processOutgoingMessage(msg)]. *)
Definition on_message_create_entry (msg : Message.t) (st : Server) : Server :=
  if negb (isClientReady st) then
    console_log "Received message_create but client not ready, ignoring" st
  else if Message.fromMe msg then
    if for_current_account (Message.from msg) st then
      set_processing (processing st ++ [(outbound, msg)]) st
    else console_log "Outgoing message not from current account, ignoring" st
  else st.

(** [await processIncomingMessage(msg)], or [await
    processOutgoingMessage(msg)], is over: the function has run in the state
    the server has by then (it reads none of the variables tested on entry),
    and the handler's [catch] logs what it threw.  The calls of the media
    step are entered in the trace at this point, and [addMessage] acts on the
    cache at this point. *)
Definition on_processed (d : Direction) (msg : Message.t) (io : MediaIO)
    (st : Server) : Server :=
  match d with
  | inbound =>
      match processIncomingMessage msg io st with
      | (st, Resolved _) => st
      | (st, Rejected _) => console_log "Error processing incoming message" st
      end
  | outbound =>
      match processOutgoingMessage msg io st with
      | (st, Resolved _) => st
      | (st, Rejected _) => console_log "Error processing outgoing message" st
      end
  end.

Definition on_error (error : string) (st : Server) : Server :=
  let st := console_log "WhatsApp client error" st in
  logConnectionState "CLIENT_ERROR" (text error) st.

Definition on_message_ack (msg : Message.t) (ack : Z) (st : Server) : Server :=
  let st := console_log "Message ACK received" st in
  if Message.fromMe msg && isReady (currentAccountInfo st) then
    emit (message_ack_updated (MessageId._serialized (Message.id msg)) ack
            (Message.to msg)) st
  else st.

(** *** API handlers that reach the driver *)

Definition connection_word (st : Server) : string :=
  if isClientReady st then "connected" else "disconnected".

(** [socket.on('send_message', ...)] *)
Definition send_message (data : SendData.t) (io : SendIO) (st : Server) : Server :=
  let st := console_log "Received message data" st in
  if negb (isClientHealthy st) then
    let st := console_log "Cannot send message - client not ready" st in
    effect (socket_emit
              (sent_not_ready
                 "WhatsApp client is not ready. Please wait for connection to be established."
                 "Client is not connected or authenticated"
                 (connection_word st))) st
  else
    let phoneNumber := SendData.phoneNumber data in
    let message := SendData.message data in
    let formattedNumber :=
      if includes phoneNumber "@c.us" then phoneNumber
      else only_digits phoneNumber +:+ "@c.us" in
    let '(st, delivered) :=
      if truthy (SendData.mediaUrl data) then
        let st := effect (call (axios_get (default "" (SendData.mediaUrl data)))) st in
        match fetched io with
        | Rejected e => (st, Rejected ("Failed to send media message: " +:+ e))
        | Resolved _ =>
            let st := effect (call (client_sendMessage formattedNumber message true)) st in
            match sent io with
            | Rejected e => (st, Rejected ("Failed to send media message: " +:+ e))
            | Resolved whatsappMessage => (st, Resolved whatsappMessage)
            end
        end
      else
        (effect (call (client_sendMessage formattedNumber message false)) st, sent io) in
    let '(st, done) :=
      match delivered with
      | Rejected e => (st, Rejected e)
      | Resolved whatsappMessage =>
          let chatMessage :=
            {| ChatMessage.id := MessageId._serialized (Message.id whatsappMessage);
               ChatMessage.body := message;
               ChatMessage.from := Message.from whatsappMessage;
               ChatMessage.to := formattedNumber;
               ChatMessage.timestamp := sent_at io;
               ChatMessage.fromMe := true;
               ChatMessage.hasMedia := truthy (SendData.mediaUrl data);
               ChatMessage.mediaUrl := SendData.mediaUrl data;
               ChatMessage.mediaType := SendData.mediaType data;
               ChatMessage.fileName := SendData.fileName data;
               ChatMessage.fileSize := SendData.fileSize data;
               ChatMessage.isVoiceMessage := SendData.isVoiceMessage data;
               ChatMessage.duration := SendData.duration data;
               ChatMessage.ack := None |} in
          match addMessage chatMessage (chats st) with
          | (cs, Rejected e) => (set_chats cs st, Rejected e)
          | (cs, Resolved updatedChat) =>
              let st := set_chats cs st in
              let st := effect (socket_emit (sent_ok chatMessage updatedChat)) st in
              let st := emit (whatsapp_message chatMessage) st in
              (emit (chat_updated updatedChat) st, Resolved ())
          end
      end in
    match done with
    | Resolved _ => st
    | Rejected e =>
        let st := console_log "Error sending message" st in
        let st := effect (socket_emit (sent_error (or_else (Some e) "Unknown error"))) st in
        if includes e "Evaluation failed" || includes e "Session closed"
           || includes e "Target closed" then
          let st := console_log "Connection error detected, triggering reconnection" st in
          let st := set_isClientReady false st in
          if negb (isReconnecting st) then
            setTimeout (cb_safeReconnect "Message sending failed due to connection error")
              1000 st
          else st
        else st
    end.

Definition not_ready_503 (st : Server) : Server :=
  effect (res_json 503
            (body_not_ready "WhatsApp клиент не готов. Ожидайте подключения."
               (connection_word st))) st.

(** [GET /avatar/:contactId] *)
Definition get_avatar (contactId : string) (r : Outcome (option string))
    (st : Server) : Server :=
  if negb (isClientHealthy st) then not_ready_503 st
  else
    let st := effect (call (getContactAvatar contactId)) st in
    match r with
    | Resolved avatarUrl => effect (res_json 200 (body_avatar contactId avatarUrl)) st
    | Rejected e =>
        effect (res_json 500
                  (body_error "Не удалось получить аватарку"
                     (or_else (Some e) "Неизвестная ошибка"))) st
    end.

(** [POST /avatars/batch]; [contactIds] is [None] when the body holds no array. *)
Definition post_avatars_batch (contactIds : option (list string))
    (r : Outcome (gmap string (option string))) (st : Server) : Server :=
  match contactIds with
  | None | Some [] =>
      effect (res_json 400 (body_bad_request "Необходимо передать массив contactIds")) st
  | Some ids =>
      if negb (isClientHealthy st) then not_ready_503 st
      else
        let st := effect (call (getMultipleContactAvatars ids)) st in
        match r with
        | Resolved avatars => effect (res_json 200 (body_avatars avatars)) st
        | Rejected e =>
            effect (res_json 500
                      (body_error "Не удалось получить аватарки"
                         (or_else (Some e) "Неизвестная ошибка"))) st
        end
  end.

(** [chat.avatarUrl !== avatarUrl] for [avatarUrl = avatars[phoneNumber]]: a
    missing key is undefined, a [None] value is null. *)
Definition avatar_differs (avatars : gmap string (option string)) (k : string)
    (c : Chat.t) : bool :=
  bool_decide (avatars !! k ≠ Some <$> Chat.avatarUrl c).

(** [chat.avatarUrl = avatarUrl || undefined] *)
Definition refreshed_chat (avatars : gmap string (option string)) (k : string)
    (c : Chat.t) : Chat.t :=
  if avatar_differs avatars k c then
    {| Chat.phoneNumber := Chat.phoneNumber c;
       Chat.messages := Chat.messages c;
       Chat.unreadCount := Chat.unreadCount c;
       Chat.avatarUrl :=
         match avatars !! k with
         | Some (Some url) => if decide (url = "") then None else Some url
         | _ => None
         end |}
  else c.

(** [POST /avatars/refresh]; [saveChats()] takes no argument: the loop
    writes into the cache that [loadChats()] handed out. *)
Definition post_avatars_refresh (r : Outcome (gmap string (option string)))
    (saved : Outcome unit) (st : Server) : Server :=
  if negb (isClientHealthy st) then not_ready_503 st
  else
    let contactIds := (map_to_list (chats st)).*1 in
    let st := effect (call (getMultipleContactAvatars contactIds)) st in
    match r with
    | Rejected e =>
        effect (res_json 500
                  (body_error "Не удалось обновить аватарки"
                     (or_else (Some e) "Неизвестная ошибка"))) st
    | Resolved avatars =>
        let updatedCount :=
          Z.of_nat (size (filter (λ kc, avatar_differs avatars kc.1 kc.2 = true) (chats st))) in
        let st := set_chats (map_imap (λ k c, Some (refreshed_chat avatars k c)) (chats st)) st in
        let st := effect (call saveChats) st in
        match saved with
        | Rejected e =>
            effect (res_json 500
                      (body_error "Не удалось обновить аватарки"
                         (or_else (Some e) "Неизвестная ошибка"))) st
        | Resolved _ =>
            let st := effect (res_json 200
                                (body_refreshed (Z.of_nat (length contactIds)) updatedCount)) st in
            emit (chats_event (chats st)) st
        end
    end.

(** [const isReady = client && client.info] of [GET /whatsapp/status] *)
Definition status_isReady (st : Server) : bool :=
  match client st with
  | Some c => bool_decide (is_Some (Client.info c))
  | None => false
  end.

Definition whatsapp_status (st : Server) : string :=
  if status_isReady st then "ready"
  else if truthy (qrCode st) then "qr_pending" else "disconnected".

(** [GET /whatsapp/status] *)
Definition get_status (st : Server) : Server :=
  effect (res_json 200
            (body_status (status_isReady st) (truthy (qrCode st)) (whatsapp_status st)
               (if status_isReady st then Some (currentAccountInfo st) else None))) st.

(** [POST /whatsapp/logout]; [r] is how [client.logout()] settles. *)
Definition post_logout (r : Outcome unit) (st : Server) : Server :=
  let st := console_log "Logout request received" st in
  let '(st, r) :=
    match client st with
    | Some _ => (effect (call client_logout) st, r)
    | None => (st, Resolved ())
    end in
  match r with
  | Rejected e =>
      effect (res_json 500
                (body_error "Failed to logout WhatsApp client"
                   (or_else (Some e) "Unknown error"))) st
  | Resolved _ =>
      let st := emit (restarting "Перезапуск WhatsApp клиента...") st in
      let st := setTimeout cb_restartWhatsAppClient 2000 st in
      effect (res_json 200 (body_success "WhatsApp client logged out and restarting")) st
  end.

(** [POST /whatsapp/soft-logout] *)
Definition post_soft_logout (r : Outcome unit) (st : Server) : Server :=
  let st := console_log "Soft logout requested" st in
  let '(st, r) :=
    match client st with
    | Some _ => (effect (call client_logout) st, r)
    | None => (st, Resolved ())
    end in
  match r with
  | Rejected e =>
      effect (res_json 500 (body_error "Failed to logout" (or_else (Some e) "Unknown error"))) st
  | Resolved _ =>
      let st := set_currentAccountInfo no_account st in
      let st := emit (account_logout "Выход из аккаунта WhatsApp") st in
      let st := effect (res_json 200 (body_success "Logged out successfully. Data preserved.")) st in
      setTimeout cb_restartWhatsAppClient 2000 st
  end.

(** [POST /whatsapp/reset]; [destroyed] is how [client.destroy()] settles,
    [cleared] how [clearAccountData()] does, and [failure] where it stopped
    if it threw.  [clearAccountData] sets [currentAccountInfo] last, so a
    throw leaves the account as it was; [clearAuthFiles] catches what its two
    removals throw. *)
Definition post_reset (destroyed cleared : Outcome unit) (failure : ClearFailure)
    (st : Server) : Server :=
  let st := console_log "Full WhatsApp reset requested" st in
  let st :=
    match client st with
    | Some _ =>
        let st := effect (call client_destroy) st in
        match destroyed with
        | Resolved _ => console_log "Client destroyed" st
        | Rejected _ => console_log "Error destroying client" st
        end
    | None => st
    end in
  match cleared with
  | Rejected e =>
      let st :=
        match failure with
        | in_clearAllChats cache => set_chats cache st
        | after_clearAllChats => set_chats (clearAllChats (chats st)) st
        end in
      effect (res_json 500
                (body_error "Failed to reset WhatsApp account"
                   (or_else (Some e) "Unknown error"))) st
  | Resolved _ =>
      let st := set_chats (clearAllChats (chats st)) st in
      let st := set_currentAccountInfo no_account st in
      let st := emit (account_reset "Аккаунт сброшен, требуется новая аутентификация") st in
      let st := effect (res_json 200
                          (body_success
                             "WhatsApp account reset completed. Please scan new QR code.")) st in
      setTimeout cb_restartWhatsAppClient 2000 st
  end.

(** ** The event loop *)

Inductive Event :=
| ev_driver_info (i : option ClientInfo.t)
| ev_qr (dataUrl : Outcome string)
| ev_ready (pic : Outcome (option string)) (timestamp : string)
| ev_authenticated
| ev_loading_screen (percent message : string)
| ev_change_state (state : string)
| ev_disconnected (reason : string)
| ev_auth_failure (error : string)
| ev_message (msg : Message.t)
| ev_message_create (msg : Message.t)
| ev_processed (k : nat) (io : MediaIO)
| ev_error (error : string)
| ev_message_ack (msg : Message.t) (ack : Z)
| ev_timer (n : nat)
| ev_settled (k : nat) (r cleanup : Outcome unit)
| ev_send_message (data : SendData.t) (io : SendIO)
| ev_get_avatar (contactId : string) (r : Outcome (option string))
| ev_post_avatars_batch (contactIds : option (list string))
    (r : Outcome (gmap string (option string)))
| ev_post_avatars_refresh (r : Outcome (gmap string (option string)))
    (saved : Outcome unit)
| ev_get_status
| ev_post_logout (r : Outcome unit)
| ev_post_soft_logout (r : Outcome unit)
| ev_post_reset (destroyed cleared : Outcome unit) (failure : ClearFailure).

#[global] Instance Owner_eq_dec : EqDecision Owner.
Proof. solve_decision. Defined.

#[global] Instance Task_eq_dec : EqDecision Task.
Proof. solve_decision. Defined.

(** Take the first continuation equal to [t] out of the list. *)
Fixpoint take_task (t : Task) (l : list Task) : option (list Task) :=
  match l with
  | [] => None
  | t' :: l => if decide (t' = t) then Some l else cons t' <$> take_task t l
  end.

(** A timer went off. *)
Definition fire (cb : Callback) (st : Server) : option Server :=
  match cb with
  | cb_safeReconnect reason => Some (safeReconnect reason st)
  | cb_restartWhatsAppClient => Some (restartWhatsAppClient st)
  | cb_resolve =>
      l ← take_task reconnect_awaits_delay (inflight st);
      Some (safeReconnect_delayed (set_inflight l st))
  end.

(** The promise a continuation waits for settled. *)
Definition settle (t : Task) (r cleanup : Outcome unit) (st : Server) : option Server :=
  match t with
  | reconnect_awaits_destroy => Some (safeReconnect_destroyed r st)
  | reconnect_awaits_delay => None
  | initialize_awaits owner initAttempts =>
      match initialize_settled owner initAttempts r cleanup st with
      | (st, Some o) => Some (initialize_returned owner o st)
      | (st, None) => Some st
      end
  | restart_awaits_destroy => Some (restart_destroyed r st)
  | restart_awaits_initialize => Some (restart_initialized r st)
  end.

(** One turn of the event loop; [None] when the event cannot happen in this
    state (no such timer, no such continuation, the process has exited). *)
Definition step (ev : Event) (st : Server) : option Server :=
  if exited st then None else
  match ev with
  | ev_driver_info i =>
      match client st with
      | Some _ => Some (set_client (Some {| Client.info := i |}) st)
      | None => None
      end
  | ev_qr dataUrl => Some (on_qr dataUrl st)
  | ev_ready pic timestamp => Some (on_ready pic timestamp st)
  | ev_authenticated => Some (on_authenticated st)
  | ev_loading_screen percent message => Some (on_loading_screen percent message st)
  | ev_change_state state => Some (on_change_state state st)
  | ev_disconnected reason => Some (on_disconnected reason st)
  | ev_auth_failure error => Some (on_auth_failure error st)
  | ev_message msg => Some (on_message_entry msg st)
  | ev_message_create msg => Some (on_message_create_entry msg st)
  | ev_processed k io =>
      '(d, msg) ← processing st !! k;
      Some (on_processed d msg io (set_processing (delete k (processing st)) st))
  | ev_error error => Some (on_error error st)
  | ev_message_ack msg ack => Some (on_message_ack msg ack st)
  | ev_timer n =>
      '(_, cb) ← timers st !! n;
      fire cb (set_timers (delete n (timers st)) st)
  | ev_settled k r cleanup =>
      t ← inflight st !! k;
      settle t r cleanup (set_inflight (delete k (inflight st)) st)
  | ev_send_message data io => Some (send_message data io st)
  | ev_get_avatar contactId r => Some (get_avatar contactId r st)
  | ev_post_avatars_batch contactIds r => Some (post_avatars_batch contactIds r st)
  | ev_post_avatars_refresh r saved => Some (post_avatars_refresh r saved st)
  | ev_get_status => Some (get_status st)
  | ev_post_logout r => Some (post_logout r st)
  | ev_post_soft_logout r => Some (post_soft_logout r st)
  | ev_post_reset destroyed cleared failure => Some (post_reset destroyed cleared failure st)
  end.

Fixpoint run (evs : list Event) (st : Server) : option Server :=
  match evs with
  | [] => Some st
  | ev :: evs => st ← step ev st; run evs st
  end.

(** The module-level initial values, with the chats [initializeChatsCache]
    loaded. *)
Definition fresh (cs : Chats) : Server :=
  {| client := None; currentAccountInfo := no_account; qrCode := None;
     isInitializing := false; isClientReady := false; isReconnecting := false;
     reconnectAttempts := 0; chats := cs; timers := []; inflight := [];
     processing := [];
     trace := []; console := []; exited := false |}.

(** The start-up code has reached [await initializeWhatsAppClient()]. *)
Definition boot (cs : Chats) : Server :=
  match initializeWhatsAppClient by_startup (fresh cs) with
  | Returned st | Pending st => st
  end.

Definition reachable (st : Server) : Prop :=
  ∃ cs evs, run evs (boot cs) = Some st.

End Pipeline.

(** ** What a handler did, read off the state before and after *)

(** The effects added to the trace, most recent first. *)
Definition new_effects (st st' : Server) : list Effect :=
  take (length (trace st') - length (trace st))%nat (trace st').

Definition emits_of (l : list Effect) : list Emit :=
  omap (λ e, match e with io_emit x => Some x | _ => None end) l.

Definition calls_of (l : list Effect) : list Call :=
  omap (λ e, match e with call c => Some c | _ => None end) l.

(** The timers set. *)
Definition scheduled (st st' : Server) : list (Z * Callback) :=
  drop (length (timers st)) (timers st').

(** Nothing but the console differs. *)
Definition untouched (st st' : Server) : Prop :=
  st' = set_console (console st') st.

(** Nothing is stored and nothing is broadcast. *)
Definition dropped (st st' : Server) : Prop :=
  chats st' = chats st /\ emits_of (new_effects st st') = [].

(** The record [m] was handed to [addMessage]: the cache is what [addMessage]
    made of it, and the record and the chat were broadcast, unless
    [addMessage] threw, when nothing was. *)
Definition stored_as `{Imports} (m : ChatMessage.t) (st st' : Server) : Prop :=
  chats st' = (addMessage m (chats st)).1 /\
  emits_of (new_effects st st') =
    match (addMessage m (chats st)).2 with
    | Resolved chat => [chat_updated chat; whatsapp_message m]
    | Rejected _ => []
    end.


(** Continuations of [safeReconnect]. *)
Definition is_reconnect_task (t : Task) : bool :=
  match t with
  | reconnect_awaits_destroy | reconnect_awaits_delay
  | initialize_awaits by_reconnect _ => true
  | _ => false
  end.

(** Continuations that hold [isInitializing]. *)
Definition is_initialize_task (t : Task) : bool :=
  match t with
  | initialize_awaits _ _ | restart_awaits_destroy | restart_awaits_initialize => true
  | _ => false
  end.

Fixpoint count_if {A : Type} (P : A -> bool) (l : list A) : nat :=
  match l with
  | [] => 0
  | x :: l => ((if P x then 1 else 0) + count_if P l)%nat
  end.

Definition reconnects_in_flight (st : Server) : nat :=
  count_if is_reconnect_task (inflight st).

Definition initializations_in_flight (st : Server) : nat :=
  count_if is_initialize_task (inflight st).

(** The single-flight discipline: a flag is up exactly while one
    continuation of its kind is suspended. *)
Definition single_flight (st : Server) : Prop :=
  reconnects_in_flight st = (if isReconnecting st then 1 else 0)%nat /\
  initializations_in_flight st = (if isInitializing st then 1 else 0)%nat.

(** [initializeWhatsAppClient] announces itself with this state. *)
Definition is_INITIALIZING (e : Effect) : bool :=
  match e with
  | io_emit (connection_state state _ _ _) => String.eqb state "INITIALIZING"
  | _ => false
  end.

Definition initializations_announced (st : Server) : nat :=
  count_if is_INITIALIZING (trace st).

(** Past [reconnectAttempts++]: [safeReconnect] waits to create the client
    or waits for [initializeWhatsAppClient]. *)
Definition is_attempt_task (t : Task) : bool :=
  match t with
  | reconnect_awaits_delay | initialize_awaits by_reconnect _ => true
  | _ => false
  end.

(** The cap is exceeded and no attempt is under way. *)
Definition exhausted (st : Server) : Prop :=
  MAX_RECONNECT_ATTEMPTS < reconnectAttempts st /\
  count_if is_attempt_task (inflight st) = 0%nat.

(** What a step keeps of an exhausted state. *)
Definition stays_exhausted (st st' : Server) : Prop :=
  exhausted st' /\ initializations_announced st' = initializations_announced st.








(** What a handler outside the connection manager may do to the variables
    of the connection manager: set timers, nothing else. *)
Record passive (st st' : Server) : Prop := {
  passive_inflight : inflight st' = inflight st;
  passive_isReconnecting : isReconnecting st' = isReconnecting st;
  passive_isInitializing : isInitializing st' = isInitializing st;
  passive_exited : exited st' = exited st;
  passive_announced : initializations_announced st' = initializations_announced st;
  passive_timers :
    exists l, timers st' = timers st ++ l /\
      Forall (λ t : Z * Callback, 0 < t.1 <= 2000) l
}.

(** The two broadcasts of [safeReconnect] when the cap is exceeded. *)
Definition is_exhaustion_notice (e : Effect) : bool :=
  match e with
  | io_emit (connection_failed _) => true
  | io_emit (connection_state state _ _ _) =>
      String.eqb state "MAX_RECONNECT_ATTEMPTS_REACHED"
  | _ => false
  end.

(** Events that run a segment of the connection manager. *)
Definition is_manager_event (ev : Event) : bool :=
  match ev with
  | ev_timer _ | ev_settled _ _ _ => true
  | _ => false
  end.

(** Events that set [reconnectAttempts] back to 0. *)
Definition resets_counter (ev : Event) : bool :=
  match ev with
  | ev_qr _ | ev_ready _ _ => true
  | _ => false
  end.

Definition is_ready_event (ev : Event) : bool :=
  match ev with
  | ev_ready _ _ => true
  | _ => false
  end.

Definition is_ack_event (ev : Event) : bool :=
  match ev with
  | ev_message_ack _ _ => true
  | _ => false
  end.

(** The same driver message with another acknowledgment level. *)
Definition with_ack (a : option Z) (msg : Message.t) : Message.t :=
  {| Message.id := Message.id msg; Message.type := Message.type msg;
     Message.body := Message.body msg; Message.from := Message.from msg;
     Message.to := Message.to msg; Message.fromMe := Message.fromMe msg;
     Message.hasMedia := Message.hasMedia msg; Message.ack := a |}.

(** ** An instance to run the handlers on examples *)

(** Modelled from the spec: utils/chatStorage.addMessage is not among the
    sources.  The conversation is keyed by the counterparty, its log is
    append-only in arrival order, and a message whose id is already in the
    log is not appended again. *)
Definition append_message (m : ChatMessage.t) (cs : Chats) : Chats * Outcome Chat.t :=
  let key := if ChatMessage.fromMe m then ChatMessage.to m else ChatMessage.from m in
  let c :=
    default {| Chat.phoneNumber := key; Chat.messages := [];
               Chat.unreadCount := 0; Chat.avatarUrl := None |} (cs !! key) in
  let c' :=
    if bool_decide (ChatMessage.id m ∈ ChatMessage.id <$> Chat.messages c) then c
    else
      {| Chat.phoneNumber := Chat.phoneNumber c;
         Chat.messages := Chat.messages c ++ [m];
         Chat.unreadCount :=
           if ChatMessage.fromMe m then Chat.unreadCount c else Chat.unreadCount c + 1;
         Chat.avatarUrl := Chat.avatarUrl c |} in
  (<[key := c']> cs, Resolved c').

Definition sample_imports : Imports :=
  {| addMessage := append_message;
     clearAllChats := λ _, ∅;
     base64_length := λ data, Z.of_nat (String.length data) * 3 / 4 |}.

Definition sample_info : ClientInfo.t :=
  {| ClientInfo.wid := Some {| Wid.user := "77001112233"; Wid._serialized := "77001112233@c.us" |};
     ClientInfo.pushname := Some "Office" |}.

(** Start-up succeeds, the driver reports the identity and [ready]. *)
Definition to_ready : list Event :=
  [ ev_settled 0 (Resolved ()) (Resolved ());
    ev_driver_info (Some sample_info);
    ev_ready (Resolved None) "2024-01-01T00:00:00.000Z" ].

(** One reconnect that succeeds without [ready] or [qr]: the driver
    disconnects, the timer starts [safeReconnect], the old client is
    destroyed, the wait passes, the new client initializes. *)
Definition reconnect_cycle : list Event :=
  [ ev_disconnected "NAVIGATION";
    ev_timer 0;
    ev_settled 0 (Resolved ()) (Resolved ());
    ev_timer 0;
    ev_settled 0 (Resolved ()) (Resolved ()) ].

(** A disconnect whose reconnect has reached [await client.destroy()]. *)
Definition to_reconnecting : list Event :=
  to_ready ++ [ ev_disconnected "NAVIGATION"; ev_timer 0 ].

(** Four reconnects done, the fifth past [reconnectAttempts++]. *)
Definition to_fifth_attempt : list Event :=
  to_ready ++ mjoin (replicate 4 reconnect_cycle) ++
  [ ev_disconnected "NAVIGATION"; ev_timer 0; ev_settled 0 (Resolved ()) (Resolved ()) ].

(** The fifth attempt goes through and the driver reports [ready]. *)
Definition to_recovered : list Event :=
  to_fifth_attempt ++
  [ ev_timer 0;
    ev_settled 0 (Resolved ()) (Resolved ());
    ev_driver_info (Some sample_info);
    ev_ready (Resolved None) "2024-01-01T00:05:00.000Z" ].

(** Five reconnects done, the sixth past [client.destroy()]. *)
Definition to_sixth_request : list Event :=
  to_ready ++ mjoin (replicate 5 reconnect_cycle) ++
  [ ev_disconnected "NAVIGATION"; ev_timer 0; ev_settled 0 (Resolved ()) (Resolved ()) ].

Definition state_after (evs : list Event) : Server :=
  default (fresh ∅) (run (H := sample_imports) evs (boot ∅)).

Definition sample_inbound (hasMedia : bool) : Message.t :=
  {| Message.id := {| MessageId.id := "m1"; MessageId._serialized := "false_A@c.us_m1" |};
     Message.type := if hasMedia then "image" else "chat";
     Message.body := "hi";
     Message.from := "A@c.us";
     Message.to := "77001112233@c.us";
     Message.fromMe := false;
     Message.hasMedia := hasMedia;
     Message.ack := Some 1 |}.

(** An inbound message addressed to another account. *)
Definition sample_stale : Message.t :=
  {| Message.id := {| MessageId.id := "m0"; MessageId._serialized := "false_B@c.us_m0" |};
     Message.type := "chat";
     Message.body := "old";
     Message.from := "B@c.us";
     Message.to := "70000000000@c.us";
     Message.fromMe := false;
     Message.hasMedia := false;
     Message.ack := Some 1 |}.

Definition sample_echo (ack : Z) : Message.t :=
  {| Message.id := {| MessageId.id := "m2"; MessageId._serialized := "true_A@c.us_m2" |};
     Message.type := "chat";
     Message.body := "hello";
     Message.from := "77001112233@c.us";
     Message.to := "A@c.us";
     Message.fromMe := true;
     Message.hasMedia := false;
     Message.ack := Some ack |}.

Definition sample_media : MessageMedia.t :=
  {| MessageMedia.mimetype := "image/png"; MessageMedia.data := "aGVsbG8=";
     MessageMedia.filename := None |}.

Definition sample_io (downloaded : Outcome (option MessageMedia.t))
    (uploaded : Outcome string) : MediaIO :=
  {| downloaded := downloaded; uploaded := uploaded; measured := Resolved 0;
     now := "2024-01-01T00:00:05.000Z"; now_ms := 1704067205000 |}.

Definition sample_send : SendData.t :=
  {| SendData.phoneNumber := "+7 (700) 555-44-33"; SendData.message := "hello";
     SendData.mediaUrl := None; SendData.fileName := None; SendData.fileSize := None;
     SendData.mediaType := None; SendData.isVoiceMessage := None;
     SendData.duration := None |}.

Definition sample_send_io : SendIO :=
  {| fetched := Resolved ""; sent := Resolved (sample_echo 0);
     sent_at := "2024-01-01T00:00:07.000Z" |}.

Definition st_ready : Server := state_after to_ready.

(** An inbound image whose upload to the blob store fails. *)
Definition st_upload_failed : Server :=
  on_message (H := sample_imports) (sample_inbound true)
    (sample_io (Resolved (Some sample_media)) (Rejected "upload failed")) st_ready.

(** The same with a download that throws. *)
Definition st_download_failed : Server :=
  on_message (H := sample_imports) (sample_inbound true)
    (sample_io (Rejected "download failed") (Resolved "https://x/y.png")) st_ready.

Definition st_reconnecting : Server := state_after to_reconnecting.

(** An inbound text message for the active account, and a message sent
    from a client. *)
Definition st_inbound : Server :=
  on_message (H := sample_imports) (sample_inbound false)
    (sample_io (Resolved None) (Resolved "")) st_ready.

Definition st_sent : Server :=
  send_message (H := sample_imports) sample_send sample_send_io st_ready.

(** An acknowledgment for a message the store has never seen, and a lower
    one for the same message after it. *)
Definition st_ack_unknown : Server := on_message_ack (sample_echo 0) 3 st_ready.

Definition st_ack_regressed : Server := on_message_ack (sample_echo 0) 1 st_ack_unknown.

(** An inbound image passes the tests of the [message] handler, and the
    driver disconnects before its media is there. *)
Definition to_cut_off : list Event :=
  to_ready ++ [ ev_message (sample_inbound true); ev_disconnected "logout" ].

Definition st_cut_off : Server := state_after to_cut_off.

(** The download and the upload of that image complete after the
    disconnect. *)
Definition st_stored_late : Server :=
  default (fresh ∅)
    (step (H := sample_imports)
       (ev_processed 0 (sample_io (Resolved (Some sample_media)) (Resolved "https://x/y.png")))
       st_cut_off).



(** ** Further parts of server.ts and of the WhatsApp page *)

(** [formattedNumber] of the [send_message] handler. *)
Definition formattedNumber (phoneNumber : string) : string :=
  if includes phoneNumber "@c.us" then phoneNumber
  else only_digits phoneNumber +:+ "@c.us".

(** The test of the [send_message] handler for a lost connection. *)
Definition is_connection_error (e : string) : bool :=
  includes e "Evaluation failed" || includes e "Session closed"
  || includes e "Target closed".

(** The object literal [chatMessage] of the [send_message] handler;
    [whatsappMessage] is what [client.sendMessage] resolved to. *)
Definition sent_chat_message (data : SendData.t) (io : SendIO)
    (whatsappMessage : Message.t) : ChatMessage.t :=
  {| ChatMessage.id := MessageId._serialized (Message.id whatsappMessage);
     ChatMessage.body := SendData.message data;
     ChatMessage.from := Message.from whatsappMessage;
     ChatMessage.to := formattedNumber (SendData.phoneNumber data);
     ChatMessage.timestamp := sent_at io;
     ChatMessage.fromMe := true;
     ChatMessage.hasMedia := truthy (SendData.mediaUrl data);
     ChatMessage.mediaUrl := SendData.mediaUrl data;
     ChatMessage.mediaType := SendData.mediaType data;
     ChatMessage.fileName := SendData.fileName data;
     ChatMessage.fileSize := SendData.fileSize data;
     ChatMessage.isVoiceMessage := SendData.isVoiceMessage data;
     ChatMessage.duration := SendData.duration data;
     ChatMessage.ack := None |}.

Fixpoint all_digits (s : string) : bool :=
  match s with
  | EmptyString => true
  | String c rest => is_digit c && all_digits rest
  end.

(** [safeReconnect] stopped at its wait. *)
Definition is_delay_task (t : Task) : bool :=
  match t with
  | reconnect_awaits_delay => true
  | _ => false
  end.

(** How many more attempts the counter lets through. *)
Definition attempts_left (st : Server) : nat :=
  Z.to_nat (MAX_RECONNECT_ATTEMPTS - reconnectAttempts st).

(** Initializations announced so far, plus those that can still come
    without a reset of the counter. *)
Definition attempt_budget (st : Server) : nat :=
  (initializations_announced st + count_if is_delay_task (inflight st)
   + attempts_left st)%nat.

(** The try number of a suspended [initializeWhatsAppClient]. *)
Definition try_in_range (t : Task) : Prop :=
  match t with
  | initialize_awaits _ initAttempts => 1 <= initAttempts <= maxInitAttempts
  | _ => True
  end.

(** An account marked ready is a full record. *)
Definition account_coherent (st : Server) : Prop :=
  isReady (currentAccountInfo st) = true ->
  (exists user, phoneNumber (currentAccountInfo st) = Some (user +:+ "@c.us")) /\
  (exists n, name (currentAccountInfo st) = Some n /\ n <> "") /\
  is_Some (connectedAt (currentAccountInfo st)).

(** *** getAllowedOrigins and the OPTIONS handler *)

Definition defaultDomains : list string :=
  [ "https://2wix.ru"; "http://localhost:3000"; "http://localhost:5173";
    "http://localhost:3001"; "http://127.0.0.1:5173" ].

(** [if (!origins.includes(x)) origins.push(x)] *)
Definition push_new (origins : list string) (x : string) : list string :=
  if bool_decide (x ∈ origins) then origins else origins ++ [x].

Fixpoint skip (n : nat) (s : string) : string :=
  match n, s with
  | S n, String _ rest => skip n rest
  | _, _ => s
  end.

(** [s.replace(pattern, replacement)] for a string pattern: the first
    occurrence only. *)
Fixpoint replace_first (pattern replacement s : string) : string :=
  if String.prefix pattern s then replacement +:+ skip (String.length pattern) s
  else
    match s with
    | EmptyString => EmptyString
    | String c rest => String c (replace_first pattern replacement rest)
    end.

(** [FRONTEND_URL] is [process.env.FRONTEND_URL || 'http://localhost:5173'];
    [ALLOWED_ORIGINS] is the list that [split(',').map(trim)] makes of the
    variable when it is set; [production] says whether [NODE_ENV] is
    'production'. *)
Definition getAllowedOrigins (FRONTEND_URL : string)
    (ALLOWED_ORIGINS : option (list string)) (production : bool) : list string :=
  let origins := [FRONTEND_URL] in
  let origins := foldl push_new origins defaultDomains in
  let origins :=
    match ALLOWED_ORIGINS with
    | Some additionalOrigins => origins ++ additionalOrigins
    | None => origins
    end in
  if production then
    let wwwDomain := replace_first "https://" "https://www." FRONTEND_URL in
    let nonWwwDomain := replace_first "https://www." "https://" FRONTEND_URL in
    push_new (push_new origins wwwDomain) nonWwwDomain
  else origins.

(** The value of Access-Control-Allow-Origin in [app.options('*', ...)];
    [requestOrigin] is [req.get('origin')]. *)
Definition options_allow_origin (allowedOrigins : list string)
    (requestOrigin : option string) : option string :=
  if bool_decide (default "" requestOrigin ∈ allowedOrigins) then requestOrigin
  else allowedOrigins !! 0%nat.

(** *** GET /health and GET /whatsapp/chats-summary *)

Module Health.
Record account := {
  phoneNumber : option string;
  name : option string;
  connectedAt : option string
}.
Record whatsapp := {
  ready : bool;
  connected : bool;
  authenticated : bool;
  reconnectAttempts : Z;
  accountInfo : option account
}.
Record t := {
  status : string;
  server_ready : bool;
  whatsapp_part : whatsapp;
  database_connected : bool;
  message : option string
}.
End Health.

(** The status code and the body; the time stamp and the uptime are left
    out. *)
Definition get_health (st : Server) : Z * Health.t :=
  let healthData :=
    {| Health.status := "ok";
       Health.server_ready := true;
       Health.whatsapp_part :=
         {| Health.ready := isClientHealthy st;
            Health.connected := isClientReady st;
            Health.authenticated := isReady (currentAccountInfo st);
            Health.reconnectAttempts := reconnectAttempts st;
            Health.accountInfo :=
              if isReady (currentAccountInfo st) then
                Some {| Health.phoneNumber := phoneNumber (currentAccountInfo st);
                        Health.name := name (currentAccountInfo st);
                        Health.connectedAt := connectedAt (currentAccountInfo st) |}
              else None |};
       Health.database_connected := true;
       Health.message := None |} in
  let overallHealthy :=
    Health.server_ready healthData && Health.database_connected healthData in
  if overallHealthy then (200, healthData)
  else
    (503,
     {| Health.status := "degraded";
        Health.server_ready := Health.server_ready healthData;
        Health.whatsapp_part := Health.whatsapp_part healthData;
        Health.database_connected := Health.database_connected healthData;
        Health.message := Some "Some services are not available" |}).

Module Summary.
Record t := {
  totalChats : Z;
  totalMessages : Z;
  totalUnreadChats : Z;
  currentAccount : option string;
  hasMultipleAccountData : bool;
  readStatusEntries : Z
}.
End Summary.

(** The [summary] of [GET /whatsapp/chats-summary]; [chats] is what
    [loadChats()] resolves to, [readStatuses] the number of keys of
    [getAllReadStatuses()]. *)
Definition chats_summary (chats : Chats) (readStatuses : nat) (st : Server) : Summary.t :=
  {| Summary.totalChats := Z.of_nat (size chats);
     Summary.totalMessages :=
       map_fold (λ _ chat total, total + Z.of_nat (length (Chat.messages chat))) 0
         chats;
     Summary.totalUnreadChats :=
       Z.of_nat (size (filter (λ kc, 0 < Chat.unreadCount kc.2) chats));
     Summary.currentAccount :=
       if isReady (currentAccountInfo st) then phoneNumber (currentAccountInfo st)
       else None;
     Summary.hasMultipleAccountData := false;
     Summary.readStatusEntries := Z.of_nat readStatuses |}.

(** *** The WhatsApp page (WhatsAppContent) *)

Definition getStatusText (whatsappStatus : string) : string :=
  if String.eqb whatsappStatus "ready" then "WhatsApp подключен"
  else if String.eqb whatsappStatus "qr_pending" then "Ожидается сканирование QR-кода"
  else if String.eqb whatsappStatus "restarting" then "Перезапуск WhatsApp клиента..."
  else "WhatsApp не подключен".

Definition getStatusColor (whatsappStatus : string) : string :=
  if String.eqb whatsappStatus "ready" then "bg-green-500"
  else if String.eqb whatsappStatus "qr_pending" then "bg-yellow-500"
  else if String.eqb whatsappStatus "restarting" then "bg-blue-500"
  else "bg-red-500".

(** What [handleLogout] does, in the order it does it. *)
Inductive UiAction :=
| toast_error (text : string)
| toast_loading (text : string)
| toast_success (text : string)
| toast_dismiss
| window_confirm
| setIsLoggingOut (b : bool)
| logoutWhatsApp
| console_error.

(** [confirmLogout] is the answer to [window.confirm], [r] how
    [logoutWhatsApp()] settles. *)
Definition handleLogout (isAdmin confirmLogout : bool) (r : Outcome bool) : list UiAction :=
  if negb isAdmin then [toast_error "У вас нет прав для выполнения этого действия"]
  else
    [window_confirm] ++
    if negb confirmLogout then []
    else
      [setIsLoggingOut true; toast_loading "Отключение от WhatsApp..."; logoutWhatsApp] ++
      match r with
      | Resolved true =>
          [toast_dismiss;
           toast_success "WhatsApp отключен. Ожидаем сканирования нового QR-кода."]
      | Resolved false => [toast_dismiss; toast_error "Ошибка при отключении от WhatsApp"]
      | Rejected _ =>
          [console_error; toast_dismiss; toast_error "Произошла ошибка при отключении"]
      end ++
      [setIsLoggingOut false].

(** * Properties *)

(** ** Reading the trace *)

Lemma new_effects_app (st st' : Server) (l : list Effect) :
  trace st' = l ++ trace st -> new_effects st st' = l.
Proof.
  intros E. unfold new_effects. rewrite E, length_app.
  replace (length l + length (trace st) - length (trace st))%nat
    with (length l) by lia.
  apply take_app_length.
Qed.

(** Rewrites [new_effects st st'] into the entries that [st'] has on top of
    the trace of [st]. *)
Ltac prefix_of t base :=
  lazymatch t with
  | base => constr:(@nil Effect)
  | ?e :: ?t' => let l := prefix_of t' base in constr:(e :: l)
  end.

Ltac trace_diff :=
  repeat lazymatch goal with
  | |- context [new_effects ?st ?st'] =>
      let t := eval cbn in (trace st') in
      let b := eval cbn in (trace st) in
      let l := prefix_of t b in
      rewrite (new_effects_app st st' l) by reflexivity
  end.

Ltac exists_new st st' :=
  let t := eval cbn in (trace st') in
  let b := eval cbn in (trace st) in
  let l := prefix_of t b in
  exists l.

Lemma new_effects_trans (st st1 st' : Server) (l1 l2 : list Effect) :
  trace st1 = l1 ++ trace st -> trace st' = l2 ++ trace st1 ->
  new_effects st st' = l2 ++ l1.
Proof.
  intros E1 E2. apply new_effects_app. rewrite E2, E1. apply app_assoc.
Qed.

Lemma new_effects_same (st st' : Server) :
  trace st' = trace st -> new_effects st st' = [].
Proof. intros E. apply (new_effects_app st st' []). exact E. Qed.

Lemma scheduled_app (st st' : Server) (l : list (Z * Callback)) :
  timers st' = timers st ++ l -> scheduled st st' = l.
Proof. intros E. unfold scheduled. rewrite E. apply drop_app_length. Qed.

Lemma elem_of_emits_of (x : Emit) (l : list Effect) :
  io_emit x ∈ l -> x ∈ emits_of l.
Proof.
  intros I. unfold emits_of. apply list_elem_of_omap.
  exists (io_emit x). split; [exact I | reflexivity].
Qed.

Lemma untouched_refl (st : Server) : untouched st st.
Proof. destruct st; reflexivity. Qed.

Lemma untouched_console_log (line : string) (st : Server) :
  untouched st (console_log line st).
Proof. reflexivity. Qed.

Lemma untouched_chats (st st' : Server) : untouched st st' -> chats st' = chats st.
Proof. intros ->. reflexivity. Qed.

Lemma untouched_trace (st st' : Server) : untouched st st' -> trace st' = trace st.
Proof. intros ->. reflexivity. Qed.

(** ** The health check and the operations behind it *)

Lemma isClientHealthy_true (st : Server) :
  isClientHealthy st = true <->
  isClientReady st = true /\
  exists c i w, client st = Some c /\ Client.info c = Some i /\ ClientInfo.wid i = Some w.
Proof.
  unfold isClientHealthy. split.
  - destruct (client st) as [c|]; [|discriminate].
    destruct (Client.info c) as [i|] eqn:Ei; [|discriminate].
    destruct (ClientInfo.wid i) as [w|] eqn:Ew; [|discriminate].
    intros R. split; [exact R|]. exists c, i, w. auto.
  - intros (R & c & i & w & -> & -> & ->). exact R.
Qed.





(** ** Direction routing *)

Lemma for_current_account_true (x : string) (st : Server) :
  for_current_account x st = true <->
  isReady (currentAccountInfo st) = true /\ phoneNumber (currentAccountInfo st) = Some x.
Proof.
  unfold for_current_account. rewrite andb_true_iff, bool_decide_eq_true. tauto.
Qed.

(** C6. An inbound message event that is not addressed to the currently
    active account ([currentAccountInfo.isReady] and [msg.to] equal to its
    phone number), and an outbound echo that does not come from it, leave
    everything but the console as it was: nothing is persisted, nothing is
    broadcast, no call is made. *)
Theorem direction_routing `{Imports} (msg : Message.t) (io : MediaIO) (st : Server) :
  (~ (isReady (currentAccountInfo st) = true /\
      phoneNumber (currentAccountInfo st) = Some (Message.to msg)) ->
   let st' := on_message msg io st in
   untouched st st' /\ chats st' = chats st /\ new_effects st st' = []) /\
  (~ (isReady (currentAccountInfo st) = true /\
      phoneNumber (currentAccountInfo st) = Some (Message.from msg)) ->
   let st' := on_message_create msg io st in
   untouched st st' /\ chats st' = chats st /\ new_effects st st' = []).
Proof.
  assert (U : forall st', untouched st st' ->
            untouched st st' /\ chats st' = chats st /\ new_effects st st' = []).
  { intros st' U. split; [exact U|]. split; [exact (untouched_chats _ _ U)|].
    apply new_effects_same, untouched_trace, U. }
  split; intros N st'; subst st'; apply U.
  - unfold on_message.
    destruct (isClientReady st); [|apply untouched_console_log].
    destruct (Message.fromMe msg); [apply untouched_refl|].
    destruct (for_current_account (Message.to msg) st) eqn:E.
    + apply for_current_account_true in E. contradiction.
    + apply untouched_console_log.
  - unfold on_message_create.
    destruct (isClientReady st); [|apply untouched_console_log].
    destruct (Message.fromMe msg); [|apply untouched_refl].
    destruct (for_current_account (Message.from msg) st) eqn:E.
    + apply for_current_account_true in E. contradiction.
    + apply untouched_console_log.
Qed.

(** An inbound text message for the active account is handed to
    [addMessage] and announced. *)
Lemma on_message_ingests `{Imports} (msg : Message.t) (io : MediaIO) (st : Server)
    (cs : Chats) (chat : Chat.t) :
  isClientReady st = true ->
  Message.fromMe msg = false ->
  Message.hasMedia msg = false ->
  isReady (currentAccountInfo st) = true ->
  phoneNumber (currentAccountInfo st) = Some (Message.to msg) ->
  addMessage (incoming_message msg no_media (now io)) (chats st) = (cs, Resolved chat) ->
  chats (on_message msg io st) = cs /\
  new_effects st (on_message msg io st) =
    [io_emit (chat_updated chat);
     io_emit (whatsapp_message (incoming_message msg no_media (now io)))].
Proof.
  intros R F M A P S. unfold on_message. rewrite R, F. cbn [negb].
  rewrite (proj2 (for_current_account_true _ _) (conj A P)).
  unfold processIncomingMessage, process_media. rewrite M.
  unfold save_and_announce. cbn [chats console_log set_console]. rewrite S.
  split; [reflexivity|]. trace_diff. reflexivity.
Qed.

(** The inbound message "hi" from A, arriving while the session is ready:
    the conversation of A gets its one message and counts it unread, and
    the message and the chat are broadcast. *)
Lemma inbound_message_sample :
  (λ c, ChatMessage.body <$> Chat.messages c) <$> chats st_inbound !! "A@c.us"
    = Some ["hi"] /\
  Chat.unreadCount <$> chats st_inbound !! "A@c.us" = Some 1 /\
  length (emits_of (new_effects st_ready st_inbound)) = 2%nat /\
  calls_of (new_effects st_ready st_inbound) = [].
Proof. vm_compute. repeat split. Qed.

(** A text sent from a client while the session is ready: the number is
    reduced to its digits, the driver is called once, the message is stored
    under the addressee. *)
Lemma send_message_sample :
  calls_of (new_effects st_ready st_sent) =
    [client_sendMessage "77005554433@c.us" "hello" false] /\
  (λ c, ChatMessage.body <$> Chat.messages c) <$> chats st_sent !! "77005554433@c.us"
    = Some ["hello"] /\
  isClientReady st_sent = true.
Proof. vm_compute. repeat split. Qed.

(** ** The media step and the record of a message *)

(** The media step only makes calls: it neither touches the chats nor
    broadcasts. *)
Lemma process_media_quiet `{Imports} (msg : Message.t) (io : MediaIO) (st : Server) :
  chats (process_media msg io st).1 = chats st /\
  exists l, trace (process_media msg io st).1 = l ++ trace st /\ emits_of l = [].
Proof.
  unfold process_media.
  destruct (Message.hasMedia msg); [|split; [reflexivity | exists []; split; reflexivity]].
  destruct (downloaded io) as [[media|]|e].
  - destruct (uploaded io) as [url|e]; (split; [reflexivity|]).
    + match goal with |- context [trace ?x.1 = _] => exists_new st (x.1) end.
      split; reflexivity.
    + match goal with |- context [trace ?x.1 = _] => exists_new st (x.1) end.
      split; reflexivity.
  - split; [reflexivity|].
    match goal with |- context [trace ?x.1 = _] => exists_new st (x.1) end.
    split; reflexivity.
  - split; [reflexivity|].
    match goal with |- context [trace ?x.1 = _] => exists_new st (x.1) end.
    split; reflexivity.
Qed.

(** [save_and_announce] either stores and broadcasts the record it was
    given, or, when [addMessage] throws, broadcasts nothing. *)
Lemma save_and_announce_cases `{Imports} (m : ChatMessage.t) (st : Server) :
  chats (save_and_announce m st).1 = (addMessage m (chats st)).1 /\
  exists l, trace (save_and_announce m st).1 = l ++ trace st /\
    (l = [] /\ (exists e, (addMessage m (chats st)).2 = Rejected e) \/
     exists chat, l = [io_emit (chat_updated chat); io_emit (whatsapp_message m)]).
Proof.
  unfold save_and_announce.
  destruct (addMessage m (chats st)) as [cs [chat|e]]; (split; [reflexivity|]).
  - exists [io_emit (chat_updated chat); io_emit (whatsapp_message m)].
    split; [reflexivity|]. right. by exists chat.
  - exists []. split; [reflexivity|]. left. split; [reflexivity|]. by exists e.
Qed.

(** What the two process functions do with the record they build, by the
    outcome of the media step. *)
Lemma processIncomingMessage_result `{Imports} (msg : Message.t) (io : MediaIO)
    (st : Server) :
  match (process_media msg io st).2 with
  | Rejected e =>
      (processIncomingMessage msg io st).2 = Rejected e /\
      dropped st (processIncomingMessage msg io st).1
  | Resolved mf =>
      stored_as (incoming_message msg mf (now io)) st (processIncomingMessage msg io st).1
  end.
Proof.
  destruct (process_media_quiet msg io st) as (C1 & l1 & T1 & Q1).
  unfold processIncomingMessage.
  destruct (process_media msg io st) as [st1 [mf|e]]; cbn [fst snd] in *.
  - unfold stored_as, save_and_announce.
    cbn [chats console_log set_console]. rewrite C1.
    destruct (addMessage _ (chats st)) as [cs [chat|e]]; cbn [fst snd];
      (split; [reflexivity|]).
    + rewrite (new_effects_app st _ ([io_emit (chat_updated chat);
        io_emit (whatsapp_message (incoming_message msg mf (now io)))] ++ l1))
        by (cbn; by rewrite T1).
      unfold emits_of in *. rewrite omap_app, Q1. reflexivity.
    + by rewrite (new_effects_app st _ l1) by exact T1.
  - split; [reflexivity|]. split; [exact C1|].
    by rewrite (new_effects_app st _ l1) by exact T1.
Qed.

Lemma processOutgoingMessage_result `{Imports} (msg : Message.t) (io : MediaIO)
    (st : Server) :
  match (process_media msg io st).2 with
  | Rejected e =>
      (processOutgoingMessage msg io st).2 = Rejected e /\
      dropped st (processOutgoingMessage msg io st).1
  | Resolved mf =>
      stored_as (outgoing_message msg mf (now io)) st (processOutgoingMessage msg io st).1
  end.
Proof.
  destruct (process_media_quiet msg io st) as (C1 & l1 & T1 & Q1).
  unfold processOutgoingMessage.
  destruct (process_media msg io st) as [st1 [mf|e]]; cbn [fst snd] in *.
  - unfold stored_as, save_and_announce.
    cbn [chats console_log set_console]. rewrite C1.
    destruct (addMessage _ (chats st)) as [cs [chat|e]]; cbn [fst snd];
      (split; [reflexivity|]).
    + rewrite (new_effects_app st _ ([io_emit (chat_updated chat);
        io_emit (whatsapp_message (outgoing_message msg mf (now io)))] ++ l1))
        by (cbn; by rewrite T1).
      unfold emits_of in *. rewrite omap_app, Q1. reflexivity.
    + by rewrite (new_effects_app st _ l1) by exact T1.
  - split; [reflexivity|]. split; [exact C1|].
    by rewrite (new_effects_app st _ l1) by exact T1.
Qed.

(** The handler's [catch] only writes to the console. *)
Lemma on_processed_observed `{Imports} (d : Direction) (msg : Message.t) (io : MediaIO)
    (st : Server) :
  let st' :=
    match d with
    | inbound => (processIncomingMessage msg io st).1
    | outbound => (processOutgoingMessage msg io st).1
    end in
  chats (on_processed d msg io st) = chats st' /\
  new_effects st (on_processed d msg io st) = new_effects st st'.
Proof.
  unfold on_processed. destruct d.
  - by destruct (processIncomingMessage msg io st) as [st1 [[]|e]].
  - by destruct (processOutgoingMessage msg io st) as [st1 [[]|e]].
Qed.

(** ** The record of an inbound message *)

(** The handler run in one piece is its tests on entry followed by
    [on_processed]. *)
Lemma on_message_admitted `{Imports} (msg : Message.t) (io : MediaIO) (st : Server) :
  isClientReady st = true -> Message.fromMe msg = false ->
  for_current_account (Message.to msg) st = true ->
  on_message msg io st = on_processed inbound msg io st.
Proof. intros R F A. unfold on_message, on_processed. by rewrite R, F, A. Qed.

Lemma on_message_create_admitted `{Imports} (msg : Message.t) (io : MediaIO)
    (st : Server) :
  isClientReady st = true -> Message.fromMe msg = true ->
  for_current_account (Message.from msg) st = true ->
  on_message_create msg io st = on_processed outbound msg io st.
Proof. intros R F A. unfold on_message_create, on_processed. by rewrite R, F, A. Qed.

(** C10. Once the media step of [processIncomingMessage] is over without an
    error, the record built from the event is handed to [addMessage] and,
    unless [addMessage] throws, broadcast as [whatsapp-message]: it has the
    event's id, [fromMe = false] and [ack = 3].  The same holds of the
    [message] handler, in one piece or completed later.  Whatever is
    broadcast as [whatsapp-message] has these two flags, and the
    acknowledgment level of the driver's event plays no part in the result.
    When the media step throws, nothing is stored or broadcast. *)
Theorem inbound_record_flags `{Imports} (msg : Message.t) (io : MediaIO) (st : Server) :
  let st' := (processIncomingMessage msg io st).1 in
  (forall m, io_emit (whatsapp_message m) ∈ new_effects st st' ->
     ChatMessage.fromMe m = false /\ ChatMessage.ack m = Some 3) /\
  match (process_media msg io st).2 with
  | Rejected _ => dropped st st'
  | Resolved mf =>
      let m := incoming_message msg mf (now io) in
      stored_as m st st' /\
      stored_as m st (on_processed inbound msg io st) /\
      (isClientReady st = true -> Message.fromMe msg = false ->
       for_current_account (Message.to msg) st = true ->
       stored_as m st (on_message msg io st)) /\
      ChatMessage.fromMe m = false /\ ChatMessage.ack m = Some 3 /\
      ChatMessage.id m = MessageId.id (Message.id msg)
  end /\
  (forall a, processIncomingMessage (with_ack a msg) io st = processIncomingMessage msg io st).
Proof.
  cbv zeta. apply and_assoc. split; [|reflexivity].
  pose proof (processIncomingMessage_result msg io st) as P.
  destruct (on_processed_observed inbound msg io st) as [Oc Oe].
  destruct ((process_media msg io st).2) as [mf|e].
  - assert (O : stored_as (incoming_message msg mf (now io)) st
                  (on_processed inbound msg io st)).
    { destruct P as [Pc Pe]. split; [by rewrite Oc | by rewrite Oe]. }
    split.
    + intros m' I. destruct P as [_ Pe]. apply elem_of_emits_of in I. rewrite Pe in I.
      destruct ((addMessage _ (chats st)).2); [|by apply elem_of_nil in I].
      apply elem_of_cons in I as [I|I]; [discriminate|].
      apply list_elem_of_singleton in I. injection I as ->. by split.
    + split; [exact P|]. split; [exact O|]. split; [|by repeat split].
      intros R F A. by rewrite on_message_admitted.
  - destruct P as [_ [Pc Pe]]. split; [|by split].
    intros m I. apply elem_of_emits_of in I. rewrite Pe in I. by apply elem_of_nil in I.
Qed.

(** ** A message whose media cannot be processed *)

Lemma untouched_dropped (st st' : Server) : untouched st st' -> dropped st st'.
Proof.
  intros U. split; [exact (untouched_chats _ _ U)|].
  by rewrite (new_effects_same st st' (untouched_trace _ _ U)).
Qed.

Lemma on_processed_stored `{Imports} (d : Direction) (msg : Message.t) (io : MediaIO)
    (st : Server) (m : ChatMessage.t) :
  stored_as m st
    match d with
    | inbound => (processIncomingMessage msg io st).1
    | outbound => (processOutgoingMessage msg io st).1
    end ->
  stored_as m st (on_processed d msg io st).
Proof.
  intros [C E]. destruct (on_processed_observed d msg io st) as [Oc Oe].
  split; [by rewrite Oc | by rewrite Oe].
Qed.

Lemma on_processed_dropped `{Imports} (d : Direction) (msg : Message.t) (io : MediaIO)
    (st : Server) :
  dropped st
    match d with
    | inbound => (processIncomingMessage msg io st).1
    | outbound => (processOutgoingMessage msg io st).1
    end ->
  dropped st (on_processed d msg io st).
Proof.
  intros [C E]. destruct (on_processed_observed d msg io st) as [Oc Oe].
  split; [by rewrite Oc | by rewrite Oe].
Qed.

(** C1, as the code has it.  For an event that carries media, in both
    directions.  When the download throws, or gives the media and the upload
    throws, both process functions end with that error and nothing is stored
    or broadcast, by the functions or by the handlers [message] and
    [message_create], in one piece or completed later; the handler's [catch]
    writes the error to the console.  When the download gives no media object, the record is handed
    to [addMessage] with empty media fields.  When the download and the
    upload succeed, the record handed to [addMessage] carries the uploaded
    URL and, for a voice note, the measured duration, or 0 when the
    measurement failed; for any other type the duration is 0. *)
Theorem media_failure_drops_message `{Imports} (msg : Message.t) (io : MediaIO)
    (st : Server) :
  Message.hasMedia msg = true ->
  let inc := processIncomingMessage msg io st in
  let out := processOutgoingMessage msg io st in
  ((exists e, downloaded io = Rejected e) \/
   (exists media e, downloaded io = Resolved (Some media) /\ uploaded io = Rejected e) ->
   (exists e, inc.2 = Rejected e /\ out.2 = Rejected e) /\
   head (console (on_processed inbound msg io st)) =
     Some "Error processing incoming message" /\
   head (console (on_processed outbound msg io st)) =
     Some "Error processing outgoing message" /\
   (forall st',
      st' = inc.1 \/ st' = out.1 \/
      st' = on_message msg io st \/ st' = on_message_create msg io st \/
      (exists d, st' = on_processed d msg io st) ->
      dropped st st')) /\
  (downloaded io = Resolved None ->
   stored_as (incoming_message msg no_media (now io)) st inc.1 /\
   stored_as (outgoing_message msg no_media (now io)) st out.1 /\
   stored_as (incoming_message msg no_media (now io)) st
     (on_processed inbound msg io st) /\
   stored_as (outgoing_message msg no_media (now io)) st
     (on_processed outbound msg io st) /\
   ChatMessage.mediaUrl (incoming_message msg no_media (now io)) = Some "" /\
   ChatMessage.mediaUrl (outgoing_message msg no_media (now io)) = Some "") /\
  (forall media url,
     downloaded io = Resolved (Some media) -> uploaded io = Resolved url ->
     exists mf,
       (process_media msg io st).2 = Resolved mf /\
       mf_mediaUrl mf = url /\
       mf_duration mf =
         (if bool_decide (Message.type msg = "ptt")
          then match measured io with Resolved d => d | Rejected _ => 0 end
          else 0) /\
       stored_as (incoming_message msg mf (now io)) st inc.1 /\
       stored_as (outgoing_message msg mf (now io)) st out.1 /\
       stored_as (incoming_message msg mf (now io)) st
         (on_processed inbound msg io st) /\
       stored_as (outgoing_message msg mf (now io)) st
         (on_processed outbound msg io st) /\
       ChatMessage.mediaUrl (incoming_message msg mf (now io)) = Some url /\
       ChatMessage.duration (incoming_message msg mf (now io)) = Some (mf_duration mf) /\
       ChatMessage.mediaUrl (outgoing_message msg mf (now io)) = Some url /\
       ChatMessage.duration (outgoing_message msg mf (now io)) = Some (mf_duration mf)).
Proof.
  intros M. cbv zeta.
  pose proof (processIncomingMessage_result msg io st) as PI.
  pose proof (processOutgoingMessage_result msg io st) as PO.
  split; [|split].
  - intros F.
    assert (P : exists e, (process_media msg io st).2 = Rejected e).
    { unfold process_media. rewrite M.
      destruct F as [[e ->]|(media & e & -> & ->)]; by exists e. }
    destruct P as [e P]. rewrite P in PI, PO.
    destruct PI as [RI DI], PO as [RO DO].
    split; [by exists e|].
    split; [unfold on_processed; by destruct (processIncomingMessage msg io st) as [? [|]]|].
    split; [unfold on_processed; by destruct (processOutgoingMessage msg io st) as [? [|]]|].
    assert (GI : dropped st (on_processed inbound msg io st))
      by exact (on_processed_dropped inbound msg io st DI).
    assert (GO : dropped st (on_processed outbound msg io st))
      by exact (on_processed_dropped outbound msg io st DO).
    intros st' [-> | [-> | [-> | [-> | [[|] ->]]]]]; try assumption.
    + unfold on_message.
      destruct (isClientReady st) eqn:R; cbn [negb];
        [|apply untouched_dropped, untouched_console_log].
      destruct (Message.fromMe msg) eqn:Fm; cbn [negb];
        [apply untouched_dropped, untouched_refl|].
      destruct (for_current_account (Message.to msg) st) eqn:A;
        [|apply untouched_dropped, untouched_console_log].
      exact GI.
    + unfold on_message_create.
      destruct (isClientReady st) eqn:R; cbn [negb];
        [|apply untouched_dropped, untouched_console_log].
      destruct (Message.fromMe msg) eqn:Fm;
        [|apply untouched_dropped, untouched_refl].
      destruct (for_current_account (Message.from msg) st) eqn:A;
        [|apply untouched_dropped, untouched_console_log].
      exact GO.
  - intros D.
    assert (P : (process_media msg io st).2 = Resolved no_media)
      by (unfold process_media; by rewrite M, D).
    rewrite P in PI, PO.
    split; [exact PI|]. split; [exact PO|].
    split; [exact (on_processed_stored inbound msg io st _ PI)|].
    split; [exact (on_processed_stored outbound msg io st _ PO)|].
    by split.
  - intros media url D U.
    assert (P : exists mf, (process_media msg io st).2 = Resolved mf /\
                  mf_mediaUrl mf = url /\
                  mf_duration mf =
                    (if bool_decide (Message.type msg = "ptt")
                     then match measured io with Resolved d => d | Rejected _ => 0 end
                     else 0)).
    { unfold process_media. rewrite M, D, U. eexists. by repeat split. }
    destruct P as (mf & P & Pu & Pd). exists mf. rewrite P in PI, PO.
    split; [exact P|]. split; [exact Pu|]. split; [exact Pd|].
    split; [exact PI|]. split; [exact PO|].
    split; [exact (on_processed_stored inbound msg io st _ PI)|].
    split; [exact (on_processed_stored outbound msg io st _ PO)|].
    cbn. by rewrite Pu.
Qed.

(** C1 does not hold as stated: for an inbound image addressed to the active
    account whose upload (or download) throws, nothing is stored under the
    sender and nothing at all is broadcast. *)
Lemma upload_failure_message_lost :
  isClientReady st_ready = true /\
  for_current_account (Message.to (sample_inbound true)) st_ready = true /\
  chats st_upload_failed = chats st_ready /\
  chats st_upload_failed !! "A@c.us" = None /\
  emits_of (new_effects st_ready st_upload_failed) = [] /\
  chats st_download_failed !! "A@c.us" = None /\
  emits_of (new_effects st_ready st_download_failed) = [].
Proof. vm_compute. repeat split. Qed.

(** ** Acknowledgment updates *)

Lemma on_message_ack_frame (msg : Message.t) (ack : Z) (st : Server) :
  on_message_ack msg ack st =
    set_trace (trace (on_message_ack msg ack st))
      (set_console (console (on_message_ack msg ack st)) st).
Proof.
  unfold on_message_ack.
  destruct (Message.fromMe msg && isReady (currentAccountInfo _)); destruct st; reflexivity.
Qed.

(** C2, as the code has it.  An acknowledgment event changes nothing but
    the trace and the console: the chats, and with them the stored level of
    every message, stay as they are over any sequence of such events, which
    never fails.  The level is broadcast as [message-ack-updated] exactly
    when the message is the account's own and the account is ready, with no
    look at the store or at earlier levels. *)
Theorem ack_event_leaves_store `{Imports} (st : Server) :
  (forall msg ack,
     let st' := on_message_ack msg ack st in
     st' = set_trace (trace st') (set_console (console st') st) /\
     chats st' = chats st /\
     emits_of (new_effects st st') =
       if Message.fromMe msg && isReady (currentAccountInfo st)
       then [message_ack_updated (MessageId._serialized (Message.id msg)) ack (Message.to msg)]
       else []) /\
  (forall evs,
     Forall (λ ev, is_ack_event ev = true) evs -> exited st = false ->
     exists st', run evs st = Some st' /\ chats st' = chats st /\ exited st' = false).
Proof.
  split.
  - intros msg ack st'. subst st'. split; [apply on_message_ack_frame|].
    unfold on_message_ack.
    change (isReady (currentAccountInfo (console_log "Message ACK received" st)))
      with (isReady (currentAccountInfo st)).
    destruct (Message.fromMe msg && isReady (currentAccountInfo st));
      (split; [reflexivity|]); trace_diff; reflexivity.
  - intros evs. revert st. induction evs as [|ev evs IH]; intros st F X.
    + exists st. by repeat split.
    + apply Forall_cons in F as [A F].
      destruct ev; try discriminate A.
      cbn [run]. unfold step. rewrite X. cbn [mbind option_bind].
      destruct (IH (on_message_ack msg ack st) F) as (st' & R & C & X').
      { rewrite on_message_ack_frame. exact X. }
      exists st'. split; [exact R|]. split; [|exact X'].
      rewrite C. rewrite on_message_ack_frame. reflexivity.
Qed.

(** C2 does not hold as stated: with the account ready and no chat stored,
    an acknowledgment for an unknown message id is broadcast to the clients,
    and so is a lower level that arrives after a higher one. *)
Lemma ack_for_unknown_id_is_broadcast :
  chats st_ready = ∅ /\
  emits_of (new_effects st_ready st_ack_unknown) =
    [message_ack_updated "true_A@c.us_m2" 3 "A@c.us"] /\
  emits_of (new_effects st_ack_unknown st_ack_regressed) =
    [message_ack_updated "true_A@c.us_m2" 1 "A@c.us"].
Proof. vm_compute. repeat split. Qed.

(** ** Counting continuations *)

Lemma count_if_delete (P : Task -> bool) (l : list Task) (k : nat) (t : Task) :
  l !! k = Some t ->
  count_if P l = ((if P t then 1 else 0) + count_if P (delete k l))%nat.
Proof.
  revert k. induction l as [|x l IH]; intros [|k] E; try discriminate.
  - injection E as ->. reflexivity.
  - cbn in E. cbn [count_if delete list_delete]. rewrite (IH k E).
    by destruct (P x), (P t).
Qed.

Lemma count_if_take (P : Task -> bool) (t : Task) (l l' : list Task) :
  take_task t l = Some l' ->
  count_if P l = ((if P t then 1 else 0) + count_if P l')%nat.
Proof.
  revert l'. induction l as [|x l IH]; intros l' E; [discriminate|].
  cbn in E. destruct (decide (x = t)) as [->|N].
  - injection E as ->. reflexivity.
  - destruct (take_task t l) as [l0|]; [|discriminate].
    injection E as <-. cbn [count_if]. rewrite (IH l0 eq_refl).
    by destruct (P x), (P t).
Qed.

(** ** Handlers outside the connection manager *)

Ltac no_timer := exists []; split; [symmetry; apply app_nil_r | constructor].

Ltac one_timer :=
  eexists [_]; split; [reflexivity | repeat constructor; cbn; lia].

(** The handler in progress that [ev_processed] completes. *)
Ltac processed_case :=
  match goal with
  | S : (let '(_, _) := ?p in _) = Some _ |- _ =>
      destruct p as [[] ?]; injection S as <-
  end.

Ltac passive_handler :=
  repeat case_match; simplify_eq;
  constructor; try reflexivity; first [no_timer | one_timer].

Ltac calm_handler :=
  repeat case_match; simplify_eq;
  (split; [first [discriminate | intros R; exact R]
          | intros Q; first [discriminate Q | reflexivity]]).

Lemma updateAccountInfo_passive (pic : Outcome (option string)) (ts : string) (st : Server) :
  passive st (updateAccountInfo pic ts st).
Proof. unfold updateAccountInfo. passive_handler. Qed.

Lemma passive_handlers `{Imports} (ev : Event) (st st' : Server) :
  is_manager_event ev = false ->
  step ev st = Some st' -> passive st st'.
Proof.
  intros K S. unfold step in S. destruct (exited st); [discriminate|].
  destruct ev; try discriminate K; simplify_option_eq.
  - passive_handler.
  - unfold on_qr. passive_handler.
  - unfold on_ready.
    match goal with |- context [updateAccountInfo ?p ?t ?s] =>
      destruct (updateAccountInfo_passive p t s) as [? ? ? ? ? [l [? ?]]] end.
    constructor; cbn; try assumption. exists l. by split.
  - unfold on_authenticated. passive_handler.
  - unfold on_loading_screen. passive_handler.
  - unfold on_change_state. passive_handler.
  - unfold on_disconnected. passive_handler.
  - unfold on_auth_failure. passive_handler.
  - unfold on_message_entry. passive_handler.
  - unfold on_message_create_entry. passive_handler.
  - processed_case;
      unfold on_processed, processIncomingMessage, processOutgoingMessage, process_media,
        save_and_announce;
    passive_handler.
  - unfold on_error. passive_handler.
  - unfold on_message_ack. passive_handler.
  - unfold send_message. passive_handler.
  - unfold get_avatar, not_ready_503. passive_handler.
  - unfold post_avatars_batch, not_ready_503. passive_handler.
  - unfold post_avatars_refresh, not_ready_503. passive_handler.
  - unfold get_status. passive_handler.
  - unfold post_logout. passive_handler.
  - unfold post_soft_logout. passive_handler.
  - unfold post_reset. passive_handler.
Qed.

(** A handler outside the connection manager other than [ready] never
    raises the ready flag, and only [qr] touches the attempt counter. *)
Lemma calm_handlers `{Imports} (ev : Event) (st st' : Server) :
  is_manager_event ev = false -> is_ready_event ev = false ->
  step ev st = Some st' ->
  (isClientReady st' = true -> isClientReady st = true) /\
  (resets_counter ev = false -> reconnectAttempts st' = reconnectAttempts st).
Proof.
  intros K Q S. unfold step in S. destruct (exited st); [discriminate|].
  destruct ev; try discriminate K; try discriminate Q; clear K Q; simplify_option_eq.
  - calm_handler.
  - unfold on_qr. calm_handler.
  - unfold on_authenticated. calm_handler.
  - unfold on_loading_screen. calm_handler.
  - unfold on_change_state. calm_handler.
  - unfold on_disconnected. calm_handler.
  - unfold on_auth_failure. calm_handler.
  - unfold on_message_entry. calm_handler.
  - unfold on_message_create_entry. calm_handler.
  - processed_case;
      unfold on_processed, processIncomingMessage, processOutgoingMessage, process_media,
        save_and_announce;
    calm_handler.
  - unfold on_error. calm_handler.
  - unfold on_message_ack. calm_handler.
  - unfold send_message. calm_handler.
  - unfold get_avatar, not_ready_503. calm_handler.
  - unfold post_avatars_batch, not_ready_503. calm_handler.
  - unfold post_avatars_refresh, not_ready_503. calm_handler.
  - unfold get_status. calm_handler.
  - unfold post_logout. calm_handler.
  - unfold post_soft_logout. calm_handler.
  - unfold post_reset. calm_handler.
Qed.

(** ** The two manager events *)

Lemma step_timer_inv `{Imports} (n : nat) (st st' : Server) :
  step (ev_timer n) st = Some st' ->
  exited st = false /\
  exists d cb, timers st !! n = Some (d, cb) /\
    fire cb (set_timers (delete n (timers st)) st) = Some st'.
Proof.
  unfold step. destruct (exited st); [discriminate|]. intros S.
  split; [reflexivity|].
  destruct (timers st !! n) as [[d cb]|]; [|discriminate].
  exists d, cb. by split.
Qed.

Lemma step_settled_inv `{Imports} (k : nat) (r cleanup : Outcome unit) (st st' : Server) :
  step (ev_settled k r cleanup) st = Some st' ->
  exited st = false /\
  exists t, inflight st !! k = Some t /\
    settle t r cleanup (set_inflight (delete k (inflight st)) st) = Some st'.
Proof.
  unfold step. destruct (exited st); [discriminate|]. intros S.
  split; [reflexivity|].
  destruct (inflight st !! k) as [t|]; [|discriminate].
  exists t. by split.
Qed.

(** ** Single flight *)

Lemma fire_single_flight (cb : Callback) (st st' : Server) :
  single_flight st -> fire cb st = Some st' -> single_flight st'.
Proof.
  unfold single_flight, reconnects_in_flight, initializations_in_flight.
  intros [R I] F.
  destruct cb as [reason| |]; cbn [fire] in F; simplify_option_eq.
  - unfold safeReconnect, safeReconnect_attempt, safeReconnect_finally.
    destruct (isReconnecting st) eqn:Er, (isInitializing st) eqn:Ei; cbn [orb];
      try (cbn; by rewrite Er, Ei).
    repeat case_match; cbn in *; rewrite ?Er, ?Ei, ?R, ?I;
      first [congruence | by split].
  - unfold restartWhatsAppClient, restart_create.
    destruct (isInitializing st) eqn:Ei; [cbn; by rewrite Ei|].
    repeat case_match; cbn in *; rewrite ?Ei, ?R, ?I;
      first [congruence | by split].
  - match goal with E : take_task _ _ = Some _ |- _ => rename E into T end.
    rewrite (count_if_take is_reconnect_task _ _ _ T) in R.
    rewrite (count_if_take is_initialize_task _ _ _ T) in I. cbn in R, I.
    assert (Er : isReconnecting st = true) by (by destruct (isReconnecting st)).
    rewrite Er in R.
    match goal with |- context [set_inflight ?l st] =>
      assert (L0 : inflight (set_inflight l st) = l) by reflexivity;
      assert (Er0 : isReconnecting (set_inflight l st) = true) by exact Er;
      assert (Ei0 : isInitializing (set_inflight l st) = isInitializing st) by reflexivity;
      generalize dependent (set_inflight l st)
    end.
    intros st0 L0 Er0 Ei0. rewrite <- Ei0 in I. rewrite <- L0 in R, I.
    unfold safeReconnect_delayed, initializeWhatsAppClient, initialize_try,
      safeReconnect_finally.
    destruct (isInitializing st0) eqn:Ei; repeat case_match; cbn in *;
      rewrite ?Er0, ?Ei; cbn; first [congruence | split; lia].
Qed.

Ltac flight_step Er Ei := cbn; rewrite ?Er, ?Ei; cbn.

Ltac flight Er Ei :=
  flight_step Er Ei;
  repeat (case_match; simplify_eq; flight_step Er Ei);
  first [congruence | split; lia].

Lemma settle_single_flight (t : Task) (r cleanup : Outcome unit) (l : list Task)
    (st st' : Server) :
  reconnects_in_flight st = (if isReconnecting st then 1 else 0)%nat ->
  initializations_in_flight st = (if isInitializing st then 1 else 0)%nat ->
  inflight st = t :: l ->
  settle t r cleanup (set_inflight l st) = Some st' -> single_flight st'.
Proof.
  unfold single_flight, reconnects_in_flight, initializations_in_flight.
  intros R I L F. rewrite L in R, I. cbn in R, I.
  destruct (isReconnecting st) eqn:Er, (isInitializing st) eqn:Ei.
  all: destruct t as [| |[|] n| |]; try discriminate R; try discriminate I;
    cbn [settle] in F; simplify_option_eq.
  all: try (unfold safeReconnect_destroyed, safeReconnect_attempt, safeReconnect_finally,
    restart_destroyed, restart_initialized, restart_create, restart_catch;
    flight Er Ei).
  all: unfold initialize_settled in F;
    destruct r as [[]|e]; [|destruct (n <? maxInitAttempts)];
    injection F as <-;
    unfold initialize_try, safeReconnect_catch, safeReconnect_finally; flight Er Ei.
Qed.

Lemma step_single_flight `{Imports} (ev : Event) (st st' : Server) :
  single_flight st -> step ev st = Some st' -> single_flight st'.
Proof.
  intros [R I] S.
  destruct (is_manager_event ev) eqn:K; cycle 1.
  { destruct (passive_handlers ev st st' K S) as [Ei Er Ein _ _ _].
    unfold single_flight, reconnects_in_flight, initializations_in_flight.
    rewrite Ei, Er, Ein. by split. }
  destruct ev; try discriminate K; clear K.
  - apply step_timer_inv in S as (_ & d & cb & _ & F).
    exact (fire_single_flight cb (set_timers (delete n (timers st)) st) st' (conj R I) F).
  - apply step_settled_inv in S as (_ & t & L & F).
    unfold reconnects_in_flight, initializations_in_flight in R, I.
    rewrite (count_if_delete is_reconnect_task _ _ _ L) in R.
    rewrite (count_if_delete is_initialize_task _ _ _ L) in I.
    eapply (settle_single_flight t r cleanup (delete k (inflight st))
              (set_inflight (t :: delete k (inflight st)) st)); try eassumption.
    reflexivity.
Qed.

Lemma boot_single_flight `{Imports} (cs : Chats) : single_flight (boot cs).
Proof. split; reflexivity. Qed.

Lemma run_single_flight `{Imports} (evs : list Event) (st st' : Server) :
  single_flight st -> run evs st = Some st' -> single_flight st'.
Proof.
  revert st. induction evs as [|ev evs IH]; intros st I R; cbn in R.
  - by injection R as <-.
  - destruct (step ev st) as [st1|] eqn:S; [|discriminate].
    exact (IH st1 (step_single_flight ev st st1 I S) R).
Qed.

(** C4. In every reachable state at most one continuation of
    [safeReconnect] is suspended; and while one is, or while an
    initialization is, a call of [safeReconnect] does nothing but write its
    line to the console: no flag, timer or continuation changes, so the
    request is dropped, not queued. *)
Theorem reconnect_is_single_flight `{Imports} (st : Server) :
  reachable st ->
  (reconnects_in_flight st <= 1)%nat /\
  forall reason,
    (0 < reconnects_in_flight st)%nat \/ (0 < initializations_in_flight st)%nat ->
    safeReconnect reason st =
      console_log "Reconnection already in progress, skipping..." st /\
    timers (safeReconnect reason st) = timers st /\
    inflight (safeReconnect reason st) = inflight st /\
    new_effects st (safeReconnect reason st) = [].
Proof.
  intros (cs & evs & R).
  destruct (run_single_flight evs _ _ (boot_single_flight cs) R) as [Ir Ii].
  split; [rewrite Ir; destruct (isReconnecting st); lia|].
  intros reason B.
  assert (G : isReconnecting st || isInitializing st = true).
  { rewrite Ir, Ii in B.
    destruct (isReconnecting st), (isInitializing st); try reflexivity. lia. }
  assert (E : safeReconnect reason st =
              console_log "Reconnection already in progress, skipping..." st).
  { unfold safeReconnect. by rewrite G. }
  rewrite E. repeat split. by apply new_effects_same.
Qed.

Lemma reconnect_is_single_flight_witness :
  (reconnects_in_flight st_reconnecting <= 1)%nat /\
  forall reason,
    (0 < reconnects_in_flight st_reconnecting)%nat \/
    (0 < initializations_in_flight st_reconnecting)%nat ->
    safeReconnect reason st_reconnecting =
      console_log "Reconnection already in progress, skipping..." st_reconnecting /\
    timers (safeReconnect reason st_reconnecting) = timers st_reconnecting /\
    inflight (safeReconnect reason st_reconnecting) = inflight st_reconnecting /\
    new_effects st_reconnecting (safeReconnect reason st_reconnecting) = [].
Proof.
  apply (reconnect_is_single_flight (H := sample_imports)).
  exists ∅, to_reconnecting. vm_compute. reflexivity.
Defined.

(** ** After a disconnect *)

Lemma fire_keeps_unready (cb : Callback) (st st' : Server) :
  isClientReady st = false -> fire cb st = Some st' -> isClientReady st' = false.
Proof.
  intros U F. destruct cb as [reason| |]; cbn [fire] in F; simplify_option_eq.
  - unfold safeReconnect, safeReconnect_attempt, safeReconnect_finally.
    repeat case_match; cbn; first [reflexivity | exact U].
  - unfold restartWhatsAppClient, restart_create.
    repeat case_match; cbn; exact U.
  - unfold safeReconnect_delayed, initializeWhatsAppClient, initialize_try,
      safeReconnect_finally.
    repeat case_match; simplify_eq; cbn; first [reflexivity | exact U].
Qed.

Lemma settle_keeps_unready (t : Task) (r cleanup : Outcome unit) (st st' : Server) :
  isClientReady st = false -> settle t r cleanup st = Some st' ->
  isClientReady st' = false.
Proof.
  intros U F. destruct t as [| |owner n| |]; cbn [settle] in F; simplify_option_eq.
  - unfold safeReconnect_destroyed, safeReconnect_attempt, safeReconnect_finally.
    repeat case_match; cbn; exact U.
  - unfold initialize_settled in F.
    destruct r as [[]|e]; [|destruct (n <? maxInitAttempts)]; injection F as <-;
      unfold initialize_returned, initialize_try, safeReconnect_catch,
        safeReconnect_finally;
      repeat case_match; cbn; first [reflexivity | exact U].
  - unfold restart_destroyed, restart_create, restart_catch.
    repeat case_match; cbn; exact U.
  - unfold restart_initialized, restart_catch. repeat case_match; cbn; exact U.
Qed.

Lemma step_keeps_unready `{Imports} (ev : Event) (st st' : Server) :
  is_ready_event ev = false -> isClientReady st = false ->
  step ev st = Some st' -> isClientReady st' = false.
Proof.
  intros N U S. destruct (is_manager_event ev) eqn:K.
  - destruct ev; try discriminate K.
    + apply step_timer_inv in S as (_ & d & cb & _ & F).
      exact (fire_keeps_unready cb (set_timers (delete n (timers st)) st) st' U F).
    + apply step_settled_inv in S as (_ & t & _ & F).
      exact (settle_keeps_unready t r cleanup (set_inflight (delete k (inflight st)) st) st' U F).
  - destruct (calm_handlers ev st st' K N S) as [C _].
    destruct (isClientReady st') eqn:E; [|reflexivity].
    rewrite (C eq_refl) in U. discriminate U.
Qed.

Lemma run_keeps_unready `{Imports} (evs : list Event) (st st' : Server) :
  Forall (λ ev, is_ready_event ev = false) evs -> isClientReady st = false ->
  run evs st = Some st' -> isClientReady st' = false.
Proof.
  revert st. induction evs as [|ev evs IH]; intros st F U R; cbn in R.
  - by injection R as <-.
  - apply Forall_cons in F as [N F].
    destruct (step ev st) as [st1|] eqn:S; [|discriminate].
    exact (IH st1 F (step_keeps_unready ev st st1 N U S) R).
Qed.

(** The media step ends the same way in every state. *)
Lemma process_media_outcome `{Imports} (msg : Message.t) (io : MediaIO) (st st' : Server) :
  (process_media msg io st).2 = (process_media msg io st').2.
Proof. unfold process_media. by repeat case_match. Qed.

(** The rest of a handler writes neither the ready flag, nor the account,
    nor the handlers in progress. *)
Lemma on_processed_keeps `{Imports} (d : Direction) (msg : Message.t) (io : MediaIO)
    (st : Server) :
  isClientReady (on_processed d msg io st) = isClientReady st /\
  currentAccountInfo (on_processed d msg io st) = currentAccountInfo st /\
  processing (on_processed d msg io st) = processing st.
Proof.
  unfold on_processed, processIncomingMessage, processOutgoingMessage, process_media,
    save_and_announce.
  repeat case_match; simplify_eq; done.
Qed.

(** A handler in progress completes whatever has happened to the ready flag
    and the account since it passed its tests: the flag and the account are
    not read again. *)
Lemma processed_regardless `{Imports} (k : nat) (msg : Message.t) (io : MediaIO)
    (st st' : Server) :
  processing st !! k = Some (inbound, msg) ->
  step (ev_processed k io) st = Some st' ->
  isClientReady st' = isClientReady st /\
  currentAccountInfo st' = currentAccountInfo st /\
  processing st' = delete k (processing st) /\
  match (process_media msg io st).2 with
  | Rejected _ => dropped st st'
  | Resolved mf => stored_as (incoming_message msg mf (now io)) st st'
  end.
Proof.
  intros L S. unfold step in S. destruct (exited st); [discriminate|].
  rewrite L in S. cbn in S. injection S as <-.
  set (st0 := set_processing (delete k (processing st)) st).
  pose proof (processIncomingMessage_result msg io st0) as P.
  rewrite (process_media_outcome msg io st0 st) in P.
  destruct (on_processed_keeps inbound msg io st0) as (K1 & K2 & K3).
  split; [exact K1|]. split; [exact K2|]. split; [exact K3|].
  - destruct ((process_media msg io st).2) as [mf|e].
    + exact (on_processed_stored inbound msg io st0 _ P).
    + destruct P as [_ P]. exact (on_processed_dropped inbound msg io st0 P).
Qed.

(** The two events of a message run the handler: alone when the tests on
    entry fail, followed by its completion when they pass. *)
Lemma message_in_one_piece `{Imports} (msg : Message.t) (io : MediaIO) (st : Server) :
  exited st = false ->
  if isClientReady st && negb (Message.fromMe msg) &&
     for_current_account (Message.to msg) st
  then run [ev_message msg; ev_processed (length (processing st)) io] st
       = Some (on_message msg io st)
  else step (ev_message msg) st = Some (on_message msg io st).
Proof.
  intros X. unfold run, step. rewrite X. unfold on_message_entry, on_message.
  destruct (isClientReady st) eqn:R; cbn [negb andb]; [|reflexivity].
  destruct (Message.fromMe msg) eqn:F; cbn [negb andb]; [reflexivity|].
  destruct (for_current_account (Message.to msg) st) eqn:A; [|reflexivity].
  cbn [mbind option_bind exited set_processing processing]. rewrite X.
  rewrite list_lookup_middle by reflexivity. cbn [mbind option_bind].
  rewrite (delete_middle (processing st) []), app_nil_r.
  replace (set_processing (processing st) (set_processing (processing st ++ [(inbound, msg)]) st))
    with st by (by destruct st).
  unfold on_processed. reflexivity.
Qed.

(** C7, as the code has it.  The [disconnected] handler clears the ready
    flag and the account's [isReady], broadcasts the disconnect, and sets a
    timer of one second for [safeReconnect] unless a reconnect is already in
    flight, when it sets none.  From then on, as long as no [ready] event
    arrives, the flag stays down and every message event that the driver
    raises is dropped by the tests on entry: nothing is noted as in progress,
    stored or broadcast.  A message that had passed those tests before the
    disconnect is not stopped: when what it awaits completes, it is handed to
    [addMessage] and broadcast although the flag is down. *)
Theorem disconnect_stops_ingestion `{Imports} (reason : string) (st : Server) :
  let st1 := on_disconnected reason st in
  isClientReady st1 = false /\
  isReady (currentAccountInfo st1) = false /\
  emits_of (new_effects st st1) =
    [account_disconnected reason; disconnected reason;
     connection_state "DISCONNECTED" (text reason) false (reconnectAttempts st)] /\
  (isReconnecting st = false ->
   scheduled st st1 = [(1000, cb_safeReconnect ("Disconnected: " +:+ reason))]) /\
  (isReconnecting st = true -> scheduled st st1 = []) /\
  processing st1 = processing st /\
  forall evs st2,
    Forall (λ ev, is_ready_event ev = false) evs ->
    run evs st1 = Some st2 ->
    isClientReady st2 = false /\
    (forall msg,
       on_message_entry msg st2 =
         console_log "Received message but client not ready, ignoring" st2) /\
    (forall msg io,
       untouched st2 (on_message msg io st2) /\
       chats (on_message msg io st2) = chats st2 /\
       new_effects st2 (on_message msg io st2) = []) /\
    (forall k msg io st3,
       processing st2 !! k = Some (inbound, msg) ->
       step (ev_processed k io) st2 = Some st3 ->
       isClientReady st3 = false /\
       match (process_media msg io st2).2 with
       | Rejected _ => dropped st2 st3
       | Resolved mf => stored_as (incoming_message msg mf (now io)) st2 st3
       end).
Proof.
  cbv zeta.
  assert (U : isClientReady (on_disconnected reason st) = false).
  { unfold on_disconnected. by case_match. }
  split; [exact U|]. split; [unfold on_disconnected; by case_match|].
  split; [unfold on_disconnected; case_match; trace_diff; reflexivity|].
  split; [|split; [|split; [unfold on_disconnected; by case_match|]]].
  - intros E. unfold on_disconnected. cbn [isReconnecting set_qrCode emit effect set_trace
      logConnectionState console_log set_console set_account_isReady set_currentAccountInfo
      set_isClientReady].
    rewrite E. cbn [negb]. by apply scheduled_app.
  - intros E. unfold on_disconnected. cbn [isReconnecting set_qrCode emit effect set_trace
      logConnectionState console_log set_console set_account_isReady set_currentAccountInfo
      set_isClientReady].
    rewrite E. cbn [negb]. apply scheduled_app. symmetry. apply app_nil_r.
  - intros evs st2 F R.
    pose proof (run_keeps_unready evs _ _ F U R) as U2.
    split; [exact U2|]. split; [|split].
    + intros msg. unfold on_message_entry. by rewrite U2.
    + intros msg io.
      assert (X : on_message msg io st2 =
                  console_log "Received message but client not ready, ignoring" st2).
      { unfold on_message. by rewrite U2. }
      rewrite X. split; [reflexivity|]. split; [reflexivity|].
      by apply new_effects_same.
    + intros k msg io st3 L S.
      destruct (processed_regardless k msg io st2 st3 L S) as (Rd & _ & _ & P).
      split; [by rewrite Rd | exact P].
Qed.

(** C7 does not hold as stated, on two counts.  The disconnect below fires
    while the reconnect started by an earlier one awaits [client.destroy()],
    and the handler sets no timer.  And the inbound image below passes the
    tests of the [message] handler just before a disconnect: when its
    download and upload complete, the session being disconnected, it is
    stored under its sender and broadcast. *)
Lemma disconnect_neither_reschedules_nor_stops_a_message :
  run (H := sample_imports) to_reconnecting (boot ∅) = Some st_reconnecting /\
  isReconnecting st_reconnecting = true /\
  scheduled st_reconnecting (on_disconnected "logout" st_reconnecting) = [] /\
  timers (on_disconnected "logout" st_reconnecting) = [] /\
  run (H := sample_imports) to_cut_off (boot ∅) = Some st_cut_off /\
  isClientReady st_cut_off = false /\
  processing st_cut_off = [(inbound, sample_inbound true)] /\
  chats st_cut_off !! "A@c.us" = None /\
  step (H := sample_imports)
    (ev_processed 0 (sample_io (Resolved (Some sample_media)) (Resolved "https://x/y.png")))
    st_cut_off = Some st_stored_late /\
  isClientReady st_stored_late = false /\
  (λ c, ChatMessage.body <$> Chat.messages c) <$> chats st_stored_late !! "A@c.us"
    = Some ["hi"] /\
  omap (λ e, match e with
             | whatsapp_message m => Some (ChatMessage.body m, ChatMessage.mediaUrl m)
             | _ => None
             end) (emits_of (new_effects st_cut_off st_stored_late))
    = [("hi", Some "https://x/y.png")].
Proof. vm_compute. repeat split. Qed.

Lemma disconnect_stops_ingestion_witness :
  scheduled st_ready (on_disconnected "logout" st_ready) =
    [(1000, cb_safeReconnect "Disconnected: logout")] /\
  untouched (on_disconnected "logout" st_ready)
    (on_message (H := sample_imports) (sample_inbound false)
       (sample_io (Resolved None) (Resolved "")) (on_disconnected "logout" st_ready)).
Proof.
  destruct (disconnect_stops_ingestion (H := sample_imports) "logout" st_ready)
    as (_ & _ & _ & T & _ & _ & I).
  split; [apply T; vm_compute; reflexivity|].
  destruct (I [] (on_disconnected "logout" st_ready)) as (_ & _ & M & _);
    [constructor | reflexivity |].
  apply M.
Defined.

(** ** The cap on reconnect attempts *)

Lemma count_if_zero_delete {A : Type} (P : A -> bool) (l : list A) (k : nat) (x : A) :
  count_if P l = 0%nat -> l !! k = Some x -> P x = false /\ count_if P (delete k l) = 0%nat.
Proof.
  revert k. induction l as [|y l IH]; intros [|k] Z E; try discriminate.
  - injection E as ->. cbn in Z. destruct (P x); [discriminate|]. by split.
  - cbn in E, Z. destruct (P y) eqn:Py; [discriminate|].
    destruct (IH k Z E) as [Px D]. split; [exact Px|].
    cbn [delete list_delete count_if]. by rewrite Py.
Qed.

Lemma safeReconnect_attempt_over (st : Server) :
  MAX_RECONNECT_ATTEMPTS <= reconnectAttempts st ->
  safeReconnect_attempt st =
    safeReconnect_finally
      (emit (connection_failed "Максимальное количество попыток переподключения достигнуто")
         (logConnectionState "MAX_RECONNECT_ATTEMPTS_REACHED" no_details
            (set_reconnectAttempts (reconnectAttempts st + 1) st))).
Proof.
  intros L. unfold safeReconnect_attempt. cbn [reconnectAttempts set_reconnectAttempts].
  destruct (Z.ltb_spec MAX_RECONNECT_ATTEMPTS (reconnectAttempts st + 1)); [reflexivity|lia].
Qed.

Lemma safeReconnect_attempt_under (st : Server) :
  reconnectAttempts st < MAX_RECONNECT_ATTEMPTS ->
  safeReconnect_attempt st =
    await reconnect_awaits_delay
      (setTimeout cb_resolve RECONNECT_DELAY
         (set_reconnectAttempts (reconnectAttempts st + 1) st)).
Proof.
  intros L. unfold safeReconnect_attempt. cbn [reconnectAttempts set_reconnectAttempts].
  destruct (Z.ltb_spec MAX_RECONNECT_ATTEMPTS (reconnectAttempts st + 1)); [lia|reflexivity].
Qed.

Lemma fire_exhausted (cb : Callback) (st st' : Server) :
  exhausted st -> fire cb st = Some st' -> stays_exhausted st st'.
Proof.
  unfold stays_exhausted, exhausted, initializations_announced.
  intros [C Z] F. destruct cb as [reason| |]; cbn [fire] in F; simplify_option_eq.
  - unfold safeReconnect.
    destruct (isReconnecting st || isInitializing st); [by repeat split|].
    destruct (client st) eqn:Ec; cbn [client set_isReconnecting set_isClientReady
      set_account_isReady set_currentAccountInfo logConnectionState emit effect
      set_trace console_log set_console].
    + rewrite Ec. by repeat split.
    + rewrite Ec. rewrite safeReconnect_attempt_over by (cbn; lia).
      cbn. repeat split; [lia | exact Z].
  - unfold restartWhatsAppClient, restart_create.
    repeat case_match; cbn; by repeat split.
  - match goal with E : take_task _ _ = Some _ |- _ => rename E into T end.
    rewrite (count_if_take is_attempt_task _ _ _ T) in Z. discriminate Z.
Qed.

Lemma settle_exhausted (t : Task) (r cleanup : Outcome unit) (st st' : Server) :
  exhausted st -> is_attempt_task t = false ->
  settle t r cleanup st = Some st' -> stays_exhausted st st'.
Proof.
  unfold stays_exhausted, exhausted, initializations_announced.
  intros [C Z] A F.
  destruct t as [| |[|] n| |]; try discriminate A; cbn [settle] in F; simplify_option_eq.
  - unfold safeReconnect_destroyed.
    destruct r; rewrite safeReconnect_attempt_over by (cbn; lia);
      cbn; (repeat split; [lia | exact Z]).
  - unfold initialize_settled in F.
    destruct r as [[]|e]; [|destruct (n <? maxInitAttempts)]; injection F as <-;
      unfold initialize_returned, initialize_try;
      repeat case_match; cbn; by repeat split.
  - unfold restart_destroyed, restart_create, restart_catch.
    repeat case_match; cbn; by repeat split.
  - unfold restart_initialized, restart_catch. repeat case_match; cbn; by repeat split.
Qed.

Lemma step_exhausted `{Imports} (ev : Event) (st st' : Server) :
  resets_counter ev = false -> exhausted st ->
  step ev st = Some st' -> stays_exhausted st st'.
Proof.
  intros N X S. destruct (is_manager_event ev) eqn:K.
  - destruct ev; try discriminate K.
    + apply step_timer_inv in S as (_ & d & cb & _ & F).
      exact (fire_exhausted cb (set_timers (delete n (timers st)) st) st' X F).
    + apply step_settled_inv in S as (_ & t & L & F).
      destruct X as [C Z].
      destruct (count_if_zero_delete _ _ _ _ Z L) as [A D].
      exact (settle_exhausted t r cleanup (set_inflight (delete k (inflight st)) st) st'
               (conj C D) A F).
  - assert (Q : is_ready_event ev = false) by (by destruct ev).
    destruct (calm_handlers ev st st' K Q S) as [_ A].
    destruct (passive_handlers ev st st' K S) as [Ei _ _ _ Ea _].
    destruct X as [C Z]. unfold stays_exhausted, exhausted.
    rewrite (A N), Ei. by repeat split.
Qed.

Lemma run_exhausted `{Imports} (evs : list Event) (st st' : Server) :
  Forall (λ ev, resets_counter ev = false) evs -> exhausted st ->
  run evs st = Some st' -> stays_exhausted st st'.
Proof.
  revert st. induction evs as [|ev evs IH]; intros st F X R; cbn in R.
  - injection R as <-. by split.
  - apply Forall_cons in F as [N F].
    destruct (step ev st) as [st1|] eqn:S; [|discriminate].
    destruct (step_exhausted ev st st1 N X S) as [X1 A1].
    destruct (IH st1 F X1 R) as [X2 A2]. split; [exact X2 | by rewrite A2].
Qed.

(** C3, as the code has it.  [safeReconnect] counts the attempt and compares
    with [>]: while fewer than 5 attempts were counted before, the attempt
    goes on to its wait and nothing is announced; once 5 were counted, the
    request broadcasts MAX_RECONNECT_ATTEMPTS_REACHED and [connection-failed],
    sets no timer, starts nothing and gives up the reconnect flag.  From then
    on, until a [qr] or [ready] event sets the counter back, no run of the
    event loop announces another initialization and the counter stays above
    the cap. *)
Theorem reconnect_cap `{Imports} (st : Server) :
  (reconnectAttempts st < MAX_RECONNECT_ATTEMPTS ->
   let st' := safeReconnect_attempt st in
   reconnectAttempts st' = reconnectAttempts st + 1 /\
   count_if is_exhaustion_notice (new_effects st st') = 0%nat /\
   scheduled st st' = [(RECONNECT_DELAY, cb_resolve)] /\
   inflight st' = reconnect_awaits_delay :: inflight st) /\
  (MAX_RECONNECT_ATTEMPTS <= reconnectAttempts st ->
   let st' := safeReconnect_attempt st in
   reconnectAttempts st' = reconnectAttempts st + 1 /\
   emits_of (new_effects st st') =
     [connection_failed "Максимальное количество попыток переподключения достигнуто";
      connection_state "MAX_RECONNECT_ATTEMPTS_REACHED" no_details (isClientReady st)
        (reconnectAttempts st + 1)] /\
   calls_of (new_effects st st') = [] /\
   scheduled st st' = [] /\
   inflight st' = inflight st /\
   isReconnecting st' = false /\
   (count_if is_attempt_task (inflight st) = 0%nat ->
    forall evs st'',
      Forall (λ ev, resets_counter ev = false) evs ->
      run evs st' = Some st'' ->
      initializations_announced st'' = initializations_announced st' /\
      MAX_RECONNECT_ATTEMPTS < reconnectAttempts st'')).
Proof.
  split; intros L st'; subst st'.
  - rewrite safeReconnect_attempt_under by exact L.
    split; [reflexivity|]. split; [by rewrite new_effects_same|].
    split; [by apply scheduled_app | reflexivity].
  - rewrite safeReconnect_attempt_over by exact L.
    split; [reflexivity|]. split; [trace_diff; reflexivity|].
    split; [trace_diff; reflexivity|].
    split; [apply scheduled_app; symmetry; apply app_nil_r|].
    split; [reflexivity|]. split; [reflexivity|].
    intros Z evs st'' F R.
    assert (X : exhausted
      (safeReconnect_finally
         (emit (connection_failed "Максимальное количество попыток переподключения достигнуто")
            (logConnectionState "MAX_RECONNECT_ATTEMPTS_REACHED" no_details
               (set_reconnectAttempts (reconnectAttempts st + 1) st))))).
    { split; [cbn; lia | exact Z]. }
    destruct (run_exhausted evs _ _ F X R) as [[C _] A]. by split.
Qed.

(** C3 does not hold as stated: in this run the counter reaches 5, and the
    fifth attempt goes on to its wait, creates its client and ends in
    [ready]; neither of the two exhaustion broadcasts is ever sent. *)
Lemma fifth_attempt_goes_through :
  run (H := sample_imports) to_fifth_attempt (boot ∅) = Some (state_after to_fifth_attempt) /\
  reconnectAttempts (state_after to_fifth_attempt) = MAX_RECONNECT_ATTEMPTS /\
  timers (state_after to_fifth_attempt) = [(RECONNECT_DELAY, cb_resolve)] /\
  inflight (state_after to_fifth_attempt) = [reconnect_awaits_delay] /\
  run (H := sample_imports) to_recovered (boot ∅) = Some (state_after to_recovered) /\
  isClientReady (state_after to_recovered) = true /\
  initializations_announced (state_after to_recovered) = 6%nat /\
  count_if is_exhaustion_notice (trace (state_after to_recovered)) = 0%nat.
Proof. vm_compute. repeat split. Qed.

(** Five attempts counted: the sixth request destroys the client once more,
    announces the exhaustion and stops. *)
Lemma sixth_request_gives_up :
  run (H := sample_imports) to_sixth_request (boot ∅) = Some (state_after to_sixth_request) /\
  reconnectAttempts (state_after to_sixth_request) = 6 /\
  emits_of (take 2 (trace (state_after to_sixth_request))) =
    [connection_failed "Максимальное количество попыток переподключения достигнуто";
     connection_state "MAX_RECONNECT_ATTEMPTS_REACHED" no_details false 6] /\
  initializations_announced (state_after to_sixth_request) = 6%nat /\
  isReconnecting (state_after to_sixth_request) = false /\
  timers (state_after to_sixth_request) = [] /\
  inflight (state_after to_sixth_request) = [].
Proof. vm_compute. repeat split. Qed.

Lemma reconnect_cap_witness :
  (let st' := safeReconnect_attempt (fresh ∅) in
   reconnectAttempts st' = reconnectAttempts (fresh ∅) + 1 /\
   count_if is_exhaustion_notice (new_effects (fresh ∅) st') = 0%nat /\
   scheduled (fresh ∅) st' = [(RECONNECT_DELAY, cb_resolve)] /\
   inflight st' = reconnect_awaits_delay :: inflight (fresh ∅)) /\
  isReconnecting (safeReconnect_attempt (set_reconnectAttempts 5 (fresh ∅))) = false.
Proof.
  split.
  - apply (proj1 (reconnect_cap (H := sample_imports) (fresh ∅))). vm_compute. reflexivity.
  - apply (proj2 (reconnect_cap (H := sample_imports) (set_reconnectAttempts 5 (fresh ∅)))).
    vm_compute. discriminate.
Defined.

(** ** Delays *)




















(** ** Status against health *)

(** C9. A state is reachable (the run is: start-up succeeds, the driver
    reports its identity and [ready], then a disconnect whose reconnect has
    got to [await client.destroy()]) in which [GET /whatsapp/status] answers
    200 with status 'ready' (and an account whose [isReady] is false) while
    [isClientHealthy()] is false, so that sending a message and fetching an
    avatar are refused as not ready. *)
Theorem status_ready_while_unhealthy `{Imports} :
  exists st,
    reachable st /\
    isClientReady st = false /\
    (exists c i, client st = Some c /\ Client.info c = Some i) /\
    whatsapp_status st = "ready" /\
    new_effects st (get_status st) =
      [res_json 200 (body_status true false "ready" (Some (currentAccountInfo st)))] /\
    isReady (currentAccountInfo st) = false /\
    isClientHealthy st = false /\
    (forall data io,
       new_effects st (send_message data io st) =
         [socket_emit
            (sent_not_ready
               "WhatsApp client is not ready. Please wait for connection to be established."
               "Client is not connected or authenticated" "disconnected")]) /\
    (forall contactId r,
       new_effects st (get_avatar contactId r st) =
         [res_json 503
            (body_not_ready "WhatsApp клиент не готов. Ожидайте подключения."
               "disconnected")]).
Proof.
  destruct (run to_reconnecting (boot ∅)) as [st|] eqn:R; [|by vm_compute in R].
  exists st. split; [by exists ∅, to_reconnecting|].
  vm_compute in R. injection R as <-.
  split; [reflexivity|]. split; [by eexists _, _|].
  split; [reflexivity|]. split; [reflexivity|]. split; [reflexivity|].
  split; [reflexivity|].
  split.
  - intros data io. unfold send_message. cbn [isClientHealthy]. reflexivity.
  - intros contactId r. reflexivity.
Qed.

(** ** The theorems at work on the sample run *)


Lemma direction_routing_witness :
  untouched st_ready
    (on_message (H := sample_imports) sample_stale
       (sample_io (Resolved None) (Resolved "")) st_ready).
Proof.
  apply (proj1 (direction_routing (H := sample_imports) sample_stale
                  (sample_io (Resolved None) (Resolved "")) st_ready)).
  vm_compute. intros [_ E]. discriminate E.
Defined.

Lemma inbound_record_flags_witness :
  ChatMessage.fromMe
    (incoming_message (sample_inbound false) no_media "2024-01-01T00:00:05.000Z") = false /\
  ChatMessage.ack
    (incoming_message (sample_inbound false) no_media "2024-01-01T00:00:05.000Z") = Some 3.
Proof.
  apply (proj1 (inbound_record_flags (H := sample_imports) (sample_inbound false)
                  (sample_io (Resolved None) (Resolved "")) st_ready)).
  vm_compute. constructor 2. constructor 1.
Defined.

Lemma media_failure_drops_message_witness :
  exists e,
    (processIncomingMessage (H := sample_imports) (sample_inbound true)
       (sample_io (Resolved (Some sample_media)) (Rejected "upload failed")) st_ready).2
    = Rejected e /\
    (processOutgoingMessage (H := sample_imports) (sample_inbound true)
       (sample_io (Resolved (Some sample_media)) (Rejected "upload failed")) st_ready).2
    = Rejected e.
Proof.
  refine (proj1 (proj1 (media_failure_drops_message (H := sample_imports)
                          (sample_inbound true)
                          (sample_io (Resolved (Some sample_media)) (Rejected "upload failed"))
                          st_ready eq_refl) _)).
  right. exists sample_media, "upload failed". split; reflexivity.
Defined.

Lemma ack_event_leaves_store_witness :
  exists st',
    run (H := sample_imports)
      [ev_message_ack (sample_echo 0) 3; ev_message_ack (sample_echo 0) 1] st_ready
    = Some st' /\
    chats st' = chats st_ready /\ exited st' = false.
Proof.
  apply (proj2 (ack_event_leaves_store (H := sample_imports) st_ready)).
  - repeat constructor.
  - vm_compute. reflexivity.
Defined.

(** * Further properties of the code *)

(** ** Strings *)

Lemma prefix_same (n : string) : String.prefix n n = true.
Proof.
  induction n as [|c n IH]; [reflexivity|].
  cbn. destruct (ascii_dec c c); [exact IH | congruence].
Qed.

Lemma includes_app_r (s n : string) : includes (s +:+ n) n = true.
Proof.
  induction s as [|c s IH].
  - change ("" +:+ n) with n. destruct n; [reflexivity|].
    cbn [includes]. by rewrite prefix_same.
  - change (String c s +:+ n) with (String c (s +:+ n)).
    cbn [includes]. rewrite IH. apply orb_true_r.
Qed.

Lemma all_digits_only_digits (s : string) : all_digits (only_digits s) = true.
Proof.
  induction s as [|c s IH]; [reflexivity|].
  cbn. destruct (is_digit c) eqn:D; [cbn; rewrite D|]; exact IH.
Qed.

Lemma only_digits_fixed (s : string) : all_digits s = true -> only_digits s = s.
Proof.
  induction s as [|c s IH]; [reflexivity|].
  cbn. destruct (is_digit c); [|discriminate].
  cbn. intros D. by rewrite IH.
Qed.

Lemma formattedNumber_includes (p : string) :
  includes (formattedNumber p) "@c.us" = true.
Proof.
  unfold formattedNumber. destruct (includes p "@c.us") eqn:I; [exact I|].
  apply includes_app_r.
Qed.

(** X1. Whenever the [send_message] handler calls [client.sendMessage], the
    address is [formattedNumber] of the requested number and the text is the
    requested text.  That address always contains "@c.us" and formatting it
    again changes nothing: a number that already contains "@c.us" is passed on
    as it is, any other is reduced to its digits and gets "@c.us" appended. *)
Theorem send_goes_to_formatted_number `{Imports} (data : SendData.t) (io : SendIO)
    (st : Server) (target message : string) (media : bool) :
  client_sendMessage target message media
    ∈ calls_of (new_effects st (send_message data io st)) ->
  target = formattedNumber (SendData.phoneNumber data) /\
  message = SendData.message data /\
  includes target "@c.us" = true /\
  formattedNumber target = target /\
  if includes (SendData.phoneNumber data) "@c.us"
  then target = SendData.phoneNumber data
  else target = only_digits (SendData.phoneNumber data) +:+ "@c.us" /\
       all_digits (only_digits (SendData.phoneNumber data)) = true.
Proof.
  intros M.
  assert (E : target = formattedNumber (SendData.phoneNumber data) /\
              message = SendData.message data).
  { revert M. unfold send_message. fold (formattedNumber (SendData.phoneNumber data)).
    repeat case_match; simplify_eq; trace_diff; cbn;
      rewrite ?elem_of_cons, ?elem_of_nil; intros M;
      repeat (destruct M as [M|M]); try done; by simplify_eq. }
  destruct E as [-> ->]. split; [reflexivity|]. split; [reflexivity|].
  split; [apply formattedNumber_includes|].
  split.
  - unfold formattedNumber at 1. by rewrite formattedNumber_includes.
  - unfold formattedNumber. destruct (includes _ "@c.us"); [reflexivity|].
    split; [reflexivity | apply all_digits_only_digits].
Qed.

(** ** The list of allowed origins *)

Lemma elem_of_push_new (l : list string) (x y : string) :
  y ∈ push_new l x <-> y ∈ l \/ y = x.
Proof.
  unfold push_new. case_bool_decide as E.
  - split; [by left | intros [M | ->]; done].
  - rewrite elem_of_app, list_elem_of_singleton. reflexivity.
Qed.

Lemma push_new_NoDup (l : list string) (x : string) :
  NoDup l -> NoDup (push_new l x).
Proof.
  intros N. unfold push_new. case_bool_decide as E; [exact N|].
  apply NoDup_app. split; [exact N|]. split.
  - intros y M1 M2. apply list_elem_of_singleton in M2 as ->. done.
  - apply NoDup_singleton.
Qed.

Lemma push_new_first (l : list string) (x y : string) :
  l !! 0%nat = Some y -> push_new l x !! 0%nat = Some y.
Proof.
  intros L. unfold push_new. case_bool_decide; [exact L|].
  by apply lookup_app_l_Some.
Qed.

Lemma elem_of_foldl_push_new (ds l : list string) (y : string) :
  y ∈ foldl push_new l ds <-> y ∈ l \/ y ∈ ds.
Proof.
  revert l. induction ds as [|d ds IH]; intros l; cbn.
  - rewrite elem_of_nil. tauto.
  - rewrite IH, elem_of_push_new, elem_of_cons. tauto.
Qed.

Lemma foldl_push_new_NoDup (ds l : list string) :
  NoDup l -> NoDup (foldl push_new l ds).
Proof.
  revert l. induction ds as [|d ds IH]; intros l N; cbn; [exact N|].
  apply IH, push_new_NoDup, N.
Qed.

Lemma foldl_push_new_first (ds l : list string) (y : string) :
  l !! 0%nat = Some y -> foldl push_new l ds !! 0%nat = Some y.
Proof.
  revert l. induction ds as [|d ds IH]; intros l L; cbn; [exact L|].
  apply IH, push_new_first, L.
Qed.

Lemma getAllowedOrigins_first (F : string) (A : option (list string)) (p : bool) :
  getAllowedOrigins F A p !! 0%nat = Some F.
Proof.
  assert (B : foldl push_new [F] defaultDomains !! 0%nat = Some F)
    by (by apply foldl_push_new_first).
  assert (C : match A with
              | Some additionalOrigins =>
                  foldl push_new [F] defaultDomains ++ additionalOrigins
              | None => foldl push_new [F] defaultDomains
              end !! 0%nat = Some F)
    by (destruct A; [by apply lookup_app_l_Some | exact B]).
  unfold getAllowedOrigins. destruct p; [|exact C].
  by do 2 apply push_new_first.
Qed.

Lemma elem_of_getAllowedOrigins (FRONTEND_URL : string)
    (ALLOWED_ORIGINS : option (list string)) (production : bool) (o : string) :
  o ∈ getAllowedOrigins FRONTEND_URL ALLOWED_ORIGINS production <->
  o = FRONTEND_URL \/ o ∈ defaultDomains \/ o ∈ default [] ALLOWED_ORIGINS \/
  (production = true /\
   (o = replace_first "https://" "https://www." FRONTEND_URL \/
    o = replace_first "https://www." "https://" FRONTEND_URL)).
Proof.
  unfold getAllowedOrigins.
  destruct production, ALLOWED_ORIGINS as [additionalOrigins|]; cbn [default];
    rewrite ?elem_of_push_new, ?elem_of_app, ?elem_of_foldl_push_new,
      ?list_elem_of_singleton, ?elem_of_nil; intuition (auto; discriminate).
Qed.

(** X19. The list of [getAllowedOrigins] starts with [FRONTEND_URL] and
    holds exactly: [FRONTEND_URL], the five default domains, the entries of
    [ALLOWED_ORIGINS], and in production the two variants of [FRONTEND_URL]
    that the two [replace] calls make.  Without [ALLOWED_ORIGINS] no origin is
    listed twice. *)
Theorem allowed_origins_content (FRONTEND_URL : string)
    (ALLOWED_ORIGINS : option (list string)) (production : bool) :
  let origins := getAllowedOrigins FRONTEND_URL ALLOWED_ORIGINS production in
  origins !! 0%nat = Some FRONTEND_URL /\
  (forall o,
     o ∈ origins <->
     o = FRONTEND_URL \/ o ∈ defaultDomains \/ o ∈ default [] ALLOWED_ORIGINS \/
     (production = true /\
      (o = replace_first "https://" "https://www." FRONTEND_URL \/
       o = replace_first "https://www." "https://" FRONTEND_URL))) /\
  match ALLOWED_ORIGINS with
  | None => NoDup origins
  | Some _ => True
  end.
Proof.
  split; [apply getAllowedOrigins_first|]. split.
  - intros o. apply elem_of_getAllowedOrigins.
  - destruct ALLOWED_ORIGINS; [exact I|]. unfold getAllowedOrigins.
    destruct production;
      repeat apply push_new_NoDup; apply NoDup_singleton.
Qed.

(** X20. In production, when [FRONTEND_URL] already starts with
    "https://www.", the first [replace] puts a second "www." in front: the
    origin "https://www.www.<host>" is allowed, beside "https://<host>". *)
Theorem production_allows_doubled_www (host : string)
    (ALLOWED_ORIGINS : option (list string)) :
  let origins := getAllowedOrigins ("https://www." +:+ host) ALLOWED_ORIGINS true in
  "https://www.www." +:+ host ∈ origins /\ "https://" +:+ host ∈ origins.
Proof.
  cbn zeta.
  split; apply elem_of_getAllowedOrigins;
    right; right; right; (split; [reflexivity|]); [left | right];
    by destruct host.
Qed.

(** X21. The preflight handler answers with the request's origin when the
    list holds it and with [FRONTEND_URL], the first entry, when it does not:
    an origin outside the list is never echoed.  A request without an Origin
    header is tested as the empty string; if the list holds the empty string
    the header gets no value at all. *)
Theorem preflight_origin_is_allowed (FRONTEND_URL : string)
    (ALLOWED_ORIGINS : option (list string)) (production : bool)
    (requestOrigin : option string) :
  let origins := getAllowedOrigins FRONTEND_URL ALLOWED_ORIGINS production in
  options_allow_origin origins requestOrigin =
    match requestOrigin with
    | Some o => Some (if bool_decide (o ∈ origins) then o else FRONTEND_URL)
    | None => if bool_decide ("" ∈ origins) then None else Some FRONTEND_URL
    end.
Proof.
  cbn zeta. unfold options_allow_origin. rewrite getAllowedOrigins_first.
  destruct requestOrigin as [o|]; cbn [default id]; [by case_bool_decide | reflexivity].
Qed.

(** ** The summary of the chats *)

Lemma totalMessages_nonneg (cs : Chats) :
  0 <= map_fold (λ (_ : string) chat total, total + Z.of_nat (length (Chat.messages chat))) 0 cs.
Proof.
  apply (map_fold_weak_ind (λ r _, 0 <= r)); [done|].
  intros k c m r _ IH. lia.
Qed.

(** X18. In the summary of [GET /whatsapp/chats-summary] the number of
    unread chats lies between 0 and the number of chats and the number of
    messages is not negative.  A chat under a new key adds one to the chats,
    the length of its log to the messages, and one to the unread chats exactly
    when its unread count is positive. *)
Theorem chats_summary_counts (chats : Chats) (readStatuses : nat) (st : Server) :
  let s := chats_summary chats readStatuses st in
  0 <= Summary.totalUnreadChats s <= Summary.totalChats s /\
  0 <= Summary.totalMessages s /\
  (forall phoneNumber chat,
     chats !! phoneNumber = None ->
     let s' := chats_summary (<[phoneNumber := chat]> chats) readStatuses st in
     Summary.totalChats s' = Summary.totalChats s + 1 /\
     Summary.totalMessages s' =
       Summary.totalMessages s + Z.of_nat (length (Chat.messages chat)) /\
     Summary.totalUnreadChats s' =
       Summary.totalUnreadChats s + (if bool_decide (0 < Chat.unreadCount chat) then 1 else 0)).
Proof.
  cbn zeta. cbn [chats_summary Summary.totalUnreadChats Summary.totalChats
    Summary.totalMessages].
  split; [|split].
  - split; [lia|]. apply inj_le, map_subseteq_size, map_filter_subseteq.
  - apply totalMessages_nonneg.
  - intros pn c N. split; [|split].
    + rewrite map_size_insert_None by exact N. lia.
    + rewrite map_fold_insert_L; [lia | intros; lia | exact N].
    + case_bool_decide as U.
      * rewrite map_filter_insert_True by exact U.
        rewrite map_size_insert_None; [lia|].
        apply map_lookup_filter_None. by left.
      * rewrite map_filter_insert_False by exact U.
        rewrite delete_id by exact N. lia.
Qed.

(** ** The WhatsApp page *)

(** X22. The two switches of the WhatsApp page agree.  The bar is green,
    and says connected, exactly for the status 'ready'; it is red exactly when
    it says not connected, and that is so for every status other than
    'ready', 'qr_pending' and 'restarting', known or not. *)
Theorem status_text_and_colour_agree (whatsappStatus : string) :
  (getStatusColor whatsappStatus = "bg-green-500" <-> whatsappStatus = "ready") /\
  (getStatusText whatsappStatus = "WhatsApp подключен" <-> whatsappStatus = "ready") /\
  (getStatusColor whatsappStatus = "bg-red-500" <->
   getStatusText whatsappStatus = "WhatsApp не подключен") /\
  (getStatusColor whatsappStatus = "bg-red-500" <->
   whatsappStatus <> "ready" /\ whatsappStatus <> "qr_pending" /\
   whatsappStatus <> "restarting").
Proof.
  unfold getStatusColor, getStatusText.
  destruct (String.eqb_spec whatsappStatus "ready") as [->|N1];
    [intuition congruence|].
  destruct (String.eqb_spec whatsappStatus "qr_pending") as [->|N2];
    [intuition congruence|].
  destruct (String.eqb_spec whatsappStatus "restarting") as [->|N3];
    intuition congruence.
Qed.

(** X23. [handleLogout] calls [logoutWhatsApp] exactly when the user is an
    admin and confirmed the dialog, and asks for the confirmation exactly
    when the user is an admin.  Whenever it set [isLoggingOut] it ends by
    clearing it, the loading toast is always dismissed, and a success toast
    is shown only when [logoutWhatsApp] resolved to true. *)
Theorem logout_only_for_confirming_admin (isAdmin confirmLogout : bool)
    (r : Outcome bool) :
  let actions := handleLogout isAdmin confirmLogout r in
  (logoutWhatsApp ∈ actions <-> isAdmin = true /\ confirmLogout = true) /\
  (window_confirm ∈ actions <-> isAdmin = true) /\
  (setIsLoggingOut true ∈ actions <-> last actions = Some (setIsLoggingOut false)) /\
  (toast_loading "Отключение от WhatsApp..." ∈ actions <-> toast_dismiss ∈ actions) /\
  (forall text, toast_success text ∈ actions -> r = Resolved true).
Proof.
  unfold handleLogout.
  repeat match goal with
  | |- context [toast_error ?s] => lazymatch s with String _ _ => generalize s; intro end
  | |- context [toast_loading ?s] => lazymatch s with String _ _ => generalize s; intro end
  | |- context [toast_success ?s] => lazymatch s with String _ _ => generalize s; intro end
  end.
  destruct isAdmin, confirmLogout, r as [[]|e]; cbn;
    split_and!;
    try lazymatch goal with |- forall _ : string, _ => intros text end;
    rewrite ?elem_of_cons, ?elem_of_nil;
    intuition (try discriminate; auto 10).
Qed.

(** ** The account record *)

Lemma or_else_nonempty (x : option string) (d : string) : d <> "" -> or_else x d <> "".
Proof. intros N. unfold or_else. destruct x as [s|]; [|exact N]. by case_decide. Qed.

Ltac coherent_handler C :=
  repeat case_match; simplify_eq;
  first [exact C | unfold account_coherent; cbn; intros D; discriminate D].

Lemma updateAccountInfo_coherent (pic : Outcome (option string)) (ts : string) (st : Server) :
  account_coherent st -> account_coherent (updateAccountInfo pic ts st).
Proof.
  intros C. unfold updateAccountInfo.
  destruct (client st) as [c|]; [|exact C].
  destruct (Client.info c) as [info|]; [|exact C].
  destruct (ClientInfo.wid info) as [wid|]; [|exact C].
  assert (G : (exists user, Some (Wid.user wid +:+ "@c.us") = Some (user +:+ "@c.us")) /\
              (exists n, Some (or_else (ClientInfo.pushname info) "Пользователь") = Some n /\ n <> "") /\
              is_Some (Some ts)).
  { split; [by eexists|]. split; [|by eexists].
    eexists. split; [reflexivity|]. by apply or_else_nonempty. }
  destruct pic; intros _; exact G.
Qed.

Lemma handlers_keep_account `{Imports} (ev : Event) (st st' : Server) :
  is_manager_event ev = false ->
  account_coherent st -> step ev st = Some st' -> account_coherent st'.
Proof.
  intros K C S. unfold step in S. destruct (exited st); [discriminate|].
  destruct ev; try discriminate K; clear K; simplify_option_eq.
  - coherent_handler C.
  - unfold on_qr. coherent_handler C.
  - unfold on_ready. apply updateAccountInfo_coherent, C.
  - unfold on_authenticated. coherent_handler C.
  - unfold on_loading_screen. coherent_handler C.
  - unfold on_change_state. coherent_handler C.
  - unfold on_disconnected. coherent_handler C.
  - unfold on_auth_failure. coherent_handler C.
  - unfold on_message_entry. coherent_handler C.
  - unfold on_message_create_entry. coherent_handler C.
  - processed_case;
      unfold on_processed, processIncomingMessage, processOutgoingMessage, process_media,
        save_and_announce;
    coherent_handler C.
  - unfold on_error. coherent_handler C.
  - unfold on_message_ack. coherent_handler C.
  - unfold send_message. coherent_handler C.
  - unfold get_avatar, not_ready_503. coherent_handler C.
  - unfold post_avatars_batch, not_ready_503. coherent_handler C.
  - unfold post_avatars_refresh, not_ready_503. coherent_handler C.
  - unfold get_status. coherent_handler C.
  - unfold post_logout. coherent_handler C.
  - unfold post_soft_logout. coherent_handler C.
  - unfold post_reset. coherent_handler C.
Qed.

Lemma fire_keeps_account (cb : Callback) (st st' : Server) :
  account_coherent st -> fire cb st = Some st' -> account_coherent st'.
Proof.
  intros C F. destruct cb as [reason| |]; cbn [fire] in F; simplify_option_eq.
  - unfold safeReconnect, safeReconnect_attempt, safeReconnect_finally.
    coherent_handler C.
  - unfold restartWhatsAppClient, restart_create. coherent_handler C.
  - unfold safeReconnect_delayed, initializeWhatsAppClient, initialize_try,
      safeReconnect_finally.
    coherent_handler C.
Qed.

Lemma settle_keeps_account (t : Task) (r cleanup : Outcome unit) (st st' : Server) :
  account_coherent st -> settle t r cleanup st = Some st' -> account_coherent st'.
Proof.
  intros C F. destruct t as [| |owner n| |]; cbn [settle] in F; simplify_option_eq.
  - unfold safeReconnect_destroyed, safeReconnect_attempt, safeReconnect_finally.
    coherent_handler C.
  - unfold initialize_settled in F.
    destruct r as [[]|e]; [|destruct (n <? maxInitAttempts)]; injection F as <-;
      unfold initialize_returned, initialize_try, safeReconnect_catch,
        safeReconnect_finally;
      coherent_handler C.
  - unfold restart_destroyed, restart_create, restart_catch. coherent_handler C.
  - unfold restart_initialized, restart_catch. coherent_handler C.
Qed.

Lemma step_keeps_account `{Imports} (ev : Event) (st st' : Server) :
  account_coherent st -> step ev st = Some st' -> account_coherent st'.
Proof.
  intros C S. destruct (is_manager_event ev) eqn:K.
  - destruct ev; try discriminate K.
    + apply step_timer_inv in S as (_ & d & cb & _ & F).
      exact (fire_keeps_account cb (set_timers (delete n (timers st)) st) st' C F).
    + apply step_settled_inv in S as (_ & t & _ & F).
      exact (settle_keeps_account t r cleanup
               (set_inflight (delete k (inflight st)) st) st' C F).
  - exact (handlers_keep_account ev st st' K C S).
Qed.

Lemma run_keeps_account `{Imports} (evs : list Event) (st st' : Server) :
  account_coherent st -> run evs st = Some st' -> account_coherent st'.
Proof.
  revert st. induction evs as [|ev evs IH]; intros st C R; cbn in R.
  - by injection R as <-.
  - destruct (step ev st) as [st1|] eqn:S; [|discriminate].
    exact (IH st1 (step_keeps_account ev st st1 C S) R).
Qed.

Lemma boot_account (cs : Chats) : account_coherent (boot cs).
Proof. intros D. discriminate D. Qed.

Lemma reachable_account `{Imports} (st : Server) : reachable st -> account_coherent st.
Proof. intros (cs & evs & R). exact (run_keeps_account evs _ _ (boot_account cs) R). Qed.

(** ** The tries of an initialization *)

Lemma take_task_Forall (P : Task -> Prop) (t : Task) (l l' : list Task) :
  take_task t l = Some l' -> Forall P l -> Forall P l'.
Proof.
  revert l'. induction l as [|x l IH]; intros l' E F; [discriminate|].
  apply Forall_cons in F as [Px F]. cbn in E. destruct (decide (x = t)) as [->|N].
  - by injection E as <-.
  - destruct (take_task t l) as [l0|]; [|discriminate].
    injection E as <-. apply Forall_cons. split; [exact Px | by apply IH].
Qed.

Ltac tries_handler C :=
  repeat case_match; simplify_eq; cbn;
  repeat (apply Forall_cons; split; [first [exact I | by vm_compute | cbn; lia]|]);
  exact C.

Lemma fire_tries (cb : Callback) (st st' : Server) :
  Forall try_in_range (inflight st) -> fire cb st = Some st' ->
  Forall try_in_range (inflight st').
Proof.
  intros C F. destruct cb as [reason| |]; cbn [fire] in F; simplify_option_eq.
  - unfold safeReconnect, safeReconnect_attempt, safeReconnect_finally.
    tries_handler C.
  - unfold restartWhatsAppClient, restart_create. tries_handler C.
  - match goal with E : take_task _ _ = Some _ |- _ =>
      pose proof (take_task_Forall _ _ _ _ E C) as C' end.
    unfold safeReconnect_delayed, initializeWhatsAppClient, initialize_try,
      safeReconnect_finally.
    tries_handler C'.
Qed.

Lemma settle_tries (t : Task) (r cleanup : Outcome unit) (st st' : Server) :
  try_in_range t -> Forall try_in_range (inflight st) ->
  settle t r cleanup st = Some st' -> Forall try_in_range (inflight st').
Proof.
  intros T C F. destruct t as [| |owner n| |]; cbn [settle] in F; simplify_option_eq.
  - unfold safeReconnect_destroyed, safeReconnect_attempt, safeReconnect_finally.
    tries_handler C.
  - unfold initialize_settled in F. cbn in T.
    destruct r as [[]|e]; [|destruct (Z.ltb_spec n maxInitAttempts)]; injection F as <-;
      unfold initialize_returned, initialize_try, safeReconnect_catch,
        safeReconnect_finally;
      tries_handler C.
  - unfold restart_destroyed, restart_create, restart_catch. tries_handler C.
  - unfold restart_initialized, restart_catch. tries_handler C.
Qed.

Lemma step_tries `{Imports} (ev : Event) (st st' : Server) :
  Forall try_in_range (inflight st) -> step ev st = Some st' ->
  Forall try_in_range (inflight st').
Proof.
  intros C S. destruct (is_manager_event ev) eqn:K.
  - destruct ev; try discriminate K.
    + apply step_timer_inv in S as (_ & d & cb & _ & F).
      exact (fire_tries cb (set_timers (delete n (timers st)) st) st' C F).
    + apply step_settled_inv in S as (_ & t & L & F).
      refine (settle_tries t r cleanup (set_inflight (delete k (inflight st)) st) st'
                _ _ F).
      * exact (proj1 (Forall_lookup _ _) C k t L).
      * by apply Forall_delete.
  - rewrite (passive_inflight _ _ (passive_handlers ev st st' K S)). exact C.
Qed.

Lemma run_tries `{Imports} (evs : list Event) (st st' : Server) :
  Forall try_in_range (inflight st) -> run evs st = Some st' ->
  Forall try_in_range (inflight st').
Proof.
  revert st. induction evs as [|ev evs IH]; intros st C R; cbn in R.
  - by injection R as <-.
  - destruct (step ev st) as [st1|] eqn:S; [|discriminate].
    exact (IH st1 (step_tries ev st st1 C S) R).
Qed.

Lemma boot_tries (cs : Chats) : Forall try_in_range (inflight (boot cs)).
Proof. apply Forall_cons. split; [by vm_compute | apply Forall_nil_2]. Qed.

(** X9. In every reachable state a suspended [initializeWhatsAppClient] is at
    a try between 1 and 5.  When that try fails before the fifth, one more
    [client.initialize()] follows on a new client after the wait of
    [retry_delay], and no timer is set.  When the fifth fails the function
    gives up: no further call is made, [isInitializing] and the ready flag are
    down, a [safeReconnect] timer of 15 seconds is set, and a second one of
    10 seconds when [safeReconnect] was the caller; when the start-up code
    was the caller the process exits. *)
Theorem initialization_gives_up_after_five `{Imports} (st : Server) (k : nat)
    (owner : Owner) (initAttempts : Z) (e : string) (cleanup : Outcome unit) :
  reachable st -> exited st = false ->
  inflight st !! k = Some (initialize_awaits owner initAttempts) ->
  1 <= initAttempts <= maxInitAttempts /\
  exists st', step (ev_settled k (Rejected e) cleanup) st = Some st' /\
    if initAttempts <? maxInitAttempts then
      inflight st' = initialize_awaits owner (initAttempts + 1) :: delete k (inflight st) /\
      client st' = Some new_Client /\
      calls_of (new_effects st st') =
        client_initialize ::
        match client st with Some _ => [client_destroy] | None => [] end /\
      sleep (retry_delay (initAttempts + 1)) ∈ new_effects st st' /\
      isInitializing st' = isInitializing st /\
      scheduled st st' = []
    else
      inflight st' = delete k (inflight st) /\
      calls_of (new_effects st st') = [] /\
      isInitializing st' = false /\
      isClientReady st' = false /\
      scheduled st st' =
        (15000, cb_safeReconnect "Extreme initialization failed") ::
        match owner with
        | by_reconnect =>
            [(10000,
              cb_safeReconnect
                ("Previous attempt failed: Error: WhatsApp client initialization failed after 5 attempts: "
                 +:+ e))]
        | by_startup => []
        end /\
      exited st' = match owner with by_startup => true | by_reconnect => false end.
Proof.
  intros (cs & evs & R) X L.
  pose proof (run_tries evs _ _ (boot_tries cs) R) as T.
  pose proof (proj1 (Forall_lookup _ _) T k _ L) as B. cbn in B.
  split; [exact B|].
  unfold step. rewrite X, L. cbn [mbind option_bind settle initialize_settled].
  destruct (Z.ltb_spec initAttempts maxInitAttempts) as [Lt|Ge].
  - eexists. split; [reflexivity|].
    assert (G : (1 <? initAttempts + 1) = true) by (apply Z.ltb_lt; lia).
    unfold initialize_try. rewrite G.
    destruct (client st) as [c|] eqn:Ec; cbn [client set_inflight];
      rewrite ?Ec; destruct cleanup; cbn [inflight await set_inflight];
      (split; [reflexivity|]); (split; [reflexivity|]);
      (split; [trace_diff; reflexivity|]);
      (split; [trace_diff; rewrite !elem_of_cons; auto|]);
      (split; [reflexivity|]); apply scheduled_app; symmetry; apply app_nil_r.
  - destruct owner; (eexists; split; [reflexivity|]);
      (split; [reflexivity|]); (split; [trace_diff; reflexivity|]);
      (split; [reflexivity|]); (split; [reflexivity|]);
      (split; [|first [reflexivity | exact X]]).
    + by apply scheduled_app.
    + apply scheduled_app. cbn. by rewrite <- app_assoc.
Qed.

(** ** The attempt counter *)

Lemma attempt_counts (st : Server) :
  reconnectAttempts (safeReconnect_attempt st) = reconnectAttempts st + 1.
Proof. unfold safeReconnect_attempt. by case_match. Qed.

Lemma attempt_budget_attempt (st : Server) :
  attempt_budget (safeReconnect_attempt st) = attempt_budget st.
Proof.
  destruct (Z.lt_ge_cases (reconnectAttempts st) MAX_RECONNECT_ATTEMPTS) as [L|G].
  - rewrite safeReconnect_attempt_under by exact L.
    unfold attempt_budget, attempts_left, initializations_announced in *. cbn.
    unfold MAX_RECONNECT_ATTEMPTS in *. lia.
  - rewrite safeReconnect_attempt_over by exact G.
    unfold attempt_budget, attempts_left, initializations_announced in *. cbn.
    unfold MAX_RECONNECT_ATTEMPTS in *. lia.
Qed.

Ltac counter_handler :=
  repeat case_match; simplify_eq; rewrite ?attempt_counts; cbn; lia.

Lemma fire_counter (cb : Callback) (st st' : Server) :
  fire cb st = Some st' ->
  reconnectAttempts st <= reconnectAttempts st' <= reconnectAttempts st + 1.
Proof.
  intros F. destruct cb as [reason| |]; cbn [fire] in F; simplify_option_eq.
  - unfold safeReconnect, safeReconnect_finally. counter_handler.
  - unfold restartWhatsAppClient, restart_create. counter_handler.
  - unfold safeReconnect_delayed, initializeWhatsAppClient, initialize_try,
      safeReconnect_finally.
    counter_handler.
Qed.

Lemma settle_counter (t : Task) (r cleanup : Outcome unit) (st st' : Server) :
  settle t r cleanup st = Some st' ->
  reconnectAttempts st <= reconnectAttempts st' <= reconnectAttempts st + 1.
Proof.
  intros F. destruct t as [| |owner n| |]; cbn [settle] in F; simplify_option_eq.
  - unfold safeReconnect_destroyed. counter_handler.
  - unfold initialize_settled in F.
    destruct r as [[]|e]; [|destruct (n <? maxInitAttempts)]; injection F as <-;
      unfold initialize_returned, initialize_try, safeReconnect_catch,
        safeReconnect_finally;
      counter_handler.
  - unfold restart_destroyed, restart_create, restart_catch. counter_handler.
  - unfold restart_initialized, restart_catch. counter_handler.
Qed.

Lemma resets_not_ready (ev : Event) : resets_counter ev = false -> is_ready_event ev = false.
Proof. by destruct ev. Qed.

Lemma step_counter `{Imports} (ev : Event) (st st' : Server) :
  resets_counter ev = false -> step ev st = Some st' ->
  reconnectAttempts st <= reconnectAttempts st' <= reconnectAttempts st + 1.
Proof.
  intros N S. destruct (is_manager_event ev) eqn:K.
  - destruct ev; try discriminate K.
    + apply step_timer_inv in S as (_ & d & cb & _ & F).
      exact (fire_counter cb (set_timers (delete n (timers st)) st) st' F).
    + apply step_settled_inv in S as (_ & t & _ & F).
      exact (settle_counter t r cleanup (set_inflight (delete k (inflight st)) st) st' F).
  - destruct (calm_handlers ev st st' K (resets_not_ready ev N) S) as [_ C].
    rewrite (C N). lia.
Qed.

Lemma step_reset `{Imports} (ev : Event) (st st' : Server) :
  resets_counter ev = true -> step ev st = Some st' ->
  reconnectAttempts st' = 0 \/ reconnectAttempts st' = reconnectAttempts st.
Proof.
  intros N S. unfold step in S. destruct (exited st); [discriminate|].
  destruct ev; try discriminate N; injection S as <-.
  - unfold on_qr. destruct dataUrl; [left | right]; reflexivity.
  - left. unfold on_ready, updateAccountInfo. cbn. by repeat case_match.
Qed.

Lemma step_counter_nonneg `{Imports} (ev : Event) (st st' : Server) :
  0 <= reconnectAttempts st -> step ev st = Some st' -> 0 <= reconnectAttempts st'.
Proof.
  intros P S. destruct (resets_counter ev) eqn:N.
  - destruct (step_reset ev st st' N S) as [-> | ->]; [done | exact P].
  - pose proof (step_counter ev st st' N S). lia.
Qed.

Lemma run_counter_nonneg `{Imports} (evs : list Event) (st st' : Server) :
  0 <= reconnectAttempts st -> run evs st = Some st' -> 0 <= reconnectAttempts st'.
Proof.
  revert st. induction evs as [|ev evs IH]; intros st C R; cbn in R.
  - by injection R as <-.
  - destruct (step ev st) as [st1|] eqn:S; [|discriminate].
    exact (IH st1 (step_counter_nonneg ev st st1 C S) R).
Qed.

Lemma reachable_counter_nonneg `{Imports} (st : Server) :
  reachable st -> 0 <= reconnectAttempts st.
Proof.
  intros (cs & evs & R). refine (run_counter_nonneg evs _ _ _ R). done.
Qed.

(** ** Initializations between two resets of the counter *)

Ltac budget_handler :=
  repeat case_match; simplify_eq; rewrite ?attempt_budget_attempt;
  unfold attempt_budget, attempts_left, initializations_announced; cbn; lia.

Lemma fire_budget (cb : Callback) (st st' : Server) :
  fire cb st = Some st' -> (attempt_budget st' <= attempt_budget st)%nat.
Proof.
  intros F. destruct cb as [reason| |]; cbn [fire] in F; simplify_option_eq.
  - unfold safeReconnect, safeReconnect_finally. budget_handler.
  - unfold restartWhatsAppClient, restart_create. budget_handler.
  - match goal with E : take_task _ _ = Some _ |- _ =>
      pose proof (count_if_take is_delay_task _ _ _ E) as D end.
    cbn in D.
    unfold safeReconnect_delayed, initializeWhatsAppClient, initialize_try,
      safeReconnect_finally.
    repeat case_match; simplify_eq;
      unfold attempt_budget, attempts_left, initializations_announced; cbn; lia.
Qed.

Lemma settle_budget (t : Task) (r cleanup : Outcome unit) (st st' : Server) :
  settle t r cleanup st = Some st' ->
  is_delay_task t = false /\ (attempt_budget st' <= attempt_budget st)%nat.
Proof.
  intros F. destruct t as [| |owner n| |]; cbn [settle] in F; simplify_option_eq;
    (split; [reflexivity|]).
  - unfold safeReconnect_destroyed. budget_handler.
  - unfold initialize_settled in F.
    destruct r as [[]|e]; [|destruct (n <? maxInitAttempts)]; injection F as <-;
      unfold initialize_returned, initialize_try, safeReconnect_catch,
        safeReconnect_finally;
      budget_handler.
  - unfold restart_destroyed, restart_create, restart_catch. budget_handler.
  - unfold restart_initialized, restart_catch. budget_handler.
Qed.

Lemma step_budget `{Imports} (ev : Event) (st st' : Server) :
  resets_counter ev = false -> step ev st = Some st' ->
  (attempt_budget st' <= attempt_budget st)%nat.
Proof.
  intros N S. destruct (is_manager_event ev) eqn:K.
  - destruct ev; try discriminate K.
    + apply step_timer_inv in S as (_ & d & cb & _ & F).
      exact (fire_budget cb (set_timers (delete n (timers st)) st) st' F).
    + apply step_settled_inv in S as (_ & t & L & F).
      apply settle_budget in F as [D F].
      pose proof (count_if_delete is_delay_task _ _ _ L) as E. rewrite D in E.
      unfold attempt_budget, attempts_left, initializations_announced in *.
      cbn in F, E. lia.
  - pose proof (passive_handlers ev st st' K S) as P.
    destruct (calm_handlers ev st st' K (resets_not_ready ev N) S) as [_ C].
    unfold attempt_budget, attempts_left.
    rewrite (passive_inflight _ _ P), (passive_announced _ _ P), (C N). lia.
Qed.

Lemma run_budget `{Imports} (evs : list Event) (st st' : Server) :
  Forall (λ ev, resets_counter ev = false) evs -> run evs st = Some st' ->
  (attempt_budget st' <= attempt_budget st)%nat.
Proof.
  revert st. induction evs as [|ev evs IH]; intros st F R; cbn in R.
  - injection R as <-. lia.
  - apply Forall_cons in F as [N F].
    destruct (step ev st) as [st1|] eqn:S; [|discriminate].
    pose proof (step_budget ev st st1 N S). pose proof (IH st1 F R). lia.
Qed.

Lemma delay_is_reconnect (l : list Task) :
  (count_if is_delay_task l <= count_if is_reconnect_task l)%nat.
Proof.
  induction l as [|t l IH]; [done|]. cbn. destruct t as [| |[]?| |]; cbn; lia.
Qed.

(** X10. Along a run without [qr] and [ready] events, starting in a
    reachable state, the number of initializations announced grows by at most
    the attempts the counter still lets through plus the [safeReconnect]
    calls already waiting to create their client; the first is at most 5, the
    second at most 1.  On such a run the counter never comes back under the
    cap. *)
Theorem initializations_between_resets `{Imports} (st st' : Server) (evs : list Event) :
  reachable st ->
  Forall (λ ev, resets_counter ev = false) evs ->
  run evs st = Some st' ->
  (initializations_announced st' <=
     initializations_announced st + attempts_left st
     + count_if is_delay_task (inflight st))%nat /\
  (attempts_left st <= 5)%nat /\
  (count_if is_delay_task (inflight st) <= 1)%nat /\
  (reconnectAttempts st' < MAX_RECONNECT_ATTEMPTS ->
   reconnectAttempts st < MAX_RECONNECT_ATTEMPTS).
Proof.
  intros Rst F R.
  pose proof (run_budget evs st st' F R) as B.
  pose proof (reachable_counter_nonneg st Rst) as P.
  destruct Rst as (cs & evs0 & R0).
  destruct (run_single_flight evs0 _ _ (boot_single_flight cs) R0) as [Ir _].
  pose proof (delay_is_reconnect (inflight st)) as D.
  unfold reconnects_in_flight in Ir. rewrite Ir in D.
  unfold attempt_budget, attempts_left in *. unfold MAX_RECONNECT_ATTEMPTS in *.
  split; [lia|]. split; [lia|]. split; [destruct (isReconnecting st); lia|].
  clear B D Ir R0. revert st P R.
  induction evs as [|ev evs IH]; intros st P R; cbn in R.
  - injection R as <-. done.
  - apply Forall_cons in F as [N F].
    destruct (step ev st) as [st1|] eqn:S; [|discriminate].
    pose proof (step_counter ev st st1 N S).
    intros L. specialize (IH F st1 ltac:(lia) R L). lia.
Qed.

(** X11. [reconnectAttempts] is never negative in a reachable state.  A
    [ready] event and a [qr] event whose picture could be made set it to 0; a
    timer or a settled promise leaves it or adds one; every other event leaves
    it as it is. *)
Theorem attempt_counter_moves `{Imports} (ev : Event) (st st' : Server) :
  reachable st -> step ev st = Some st' ->
  0 <= reconnectAttempts st /\
  match ev with
  | ev_ready _ _ | ev_qr (Resolved _) => reconnectAttempts st' = 0
  | ev_timer _ | ev_settled _ _ _ =>
      reconnectAttempts st <= reconnectAttempts st' <= reconnectAttempts st + 1
  | _ => reconnectAttempts st' = reconnectAttempts st
  end.
Proof.
  intros Rst S. split; [by apply reachable_counter_nonneg|].
  destruct (is_manager_event ev) eqn:K.
  - destruct ev; try discriminate K; refine (step_counter _ st st' _ S); reflexivity.
  - destruct (resets_counter ev) eqn:N.
    + unfold step in S. destruct (exited st); [discriminate|].
      destruct ev; try discriminate N; injection S as <-.
      * by destruct dataUrl.
      * unfold on_ready, updateAccountInfo. cbn. by repeat case_match.
    + destruct (calm_handlers ev st st' K (resets_not_ready ev N) S) as [_ C].
      specialize (C N). destruct ev; try discriminate; exact C.
Qed.

(** X8. In every reachable state at most one of [initializeWhatsAppClient]
    and [restartWhatsAppClient] is suspended.  While one is, a call of either
    returns at its guard with a line on the console.  While none is,
    [initializeWhatsAppClient] takes the flag, drops the ready flag, creates a
    new client and makes one call of [client.initialize()]. *)
Theorem initialization_is_single_flight `{Imports} (st : Server) :
  reachable st ->
  (initializations_in_flight st <= 1)%nat /\
  ((0 < initializations_in_flight st)%nat ->
   (forall owner,
      initializeWhatsAppClient owner st =
        Returned (console_log "Client initialization already in progress" st)) /\
   restartWhatsAppClient st =
     console_log "Client is already initializing, skipping restart" st) /\
  ((initializations_in_flight st = 0)%nat ->
   forall owner, exists st',
     initializeWhatsAppClient owner st = Pending st' /\
     initializations_in_flight st' = 1%nat /\
     calls_of (new_effects st st') = [client_initialize] /\
     client st' = Some new_Client /\
     isClientReady st' = false).
Proof.
  intros (cs & evs & R).
  destruct (run_single_flight evs _ _ (boot_single_flight cs) R) as [_ Ii].
  rewrite Ii. unfold initializeWhatsAppClient, restartWhatsAppClient.
  destruct (isInitializing st) eqn:E.
  - split; [lia|]. split; [by intros _ | intros D; discriminate D].
  - split; [lia|]. split; [intros D; lia|].
    intros _ owner. eexists. split; [reflexivity|].
    unfold initializations_in_flight, initialize_try in *.
    change (1 <? 0 + 1) with false. cbn iota.
    split; [cbn; by rewrite Ii|].
    split; [trace_diff; reflexivity|]. by split.
Qed.

(** ** A send that fails *)

Lemma wrapped_error_is_connection_error (e : string) :
  is_connection_error ("Failed to send media message: " +:+ e) = is_connection_error e.
Proof. reflexivity. Qed.

Ltac exists_below_top :=
  lazymatch goal with
  | |- exists l, ?t = _ :: l ++ ?b /\ _ =>
      let t' := eval cbn in t in
      let b' := eval cbn in b in
      lazymatch t' with
      | _ :: ?r => let l := prefix_of r b' in exists l
      end
  end.

Lemma send_message_fails `{Imports} (data : SendData.t) (io : SendIO) (st : Server)
    (e shown : string) :
  isClientHealthy st = true ->
  (if truthy (SendData.mediaUrl data)
   then (fetched io = Rejected e \/
         (exists body, fetched io = Resolved body) /\ sent io = Rejected e) /\
        shown = "Failed to send media message: " +:+ e
   else sent io = Rejected e /\ shown = e) ->
  exists l,
    trace (send_message data io st) =
      socket_emit (sent_error (or_else (Some shown) "Unknown error")) :: l ++ trace st /\
    emits_of l = [] /\
    chats (send_message data io st) = chats st /\
    inflight (send_message data io st) = inflight st /\
    if is_connection_error e then
      isClientReady (send_message data io st) = false /\
      timers (send_message data io st) =
        timers st ++
        (if isReconnecting st then []
         else [(1000, cb_safeReconnect "Message sending failed due to connection error")])
    else
      isClientReady (send_message data io st) = isClientReady st /\
      timers (send_message data io st) = timers st ++ [].
Proof.
  intros Hh C. unfold send_message.
  change (isClientHealthy (console_log "Received message data" st))
    with (isClientHealthy st).
  rewrite Hh. cbn [negb].
  fold (formattedNumber (SendData.phoneNumber data)).
  destruct (truthy (SendData.mediaUrl data)).
  - destruct C as [[F | [[body F] S]] ->]; rewrite F; [|rewrite S];
      fold (is_connection_error ("Failed to send media message: " +:+ e));
      rewrite wrapped_error_is_connection_error;
      destruct (is_connection_error e); cbn;
      try destruct (isReconnecting st); cbn;
      exists_below_top; (split; [reflexivity|]); by rewrite ?app_nil_r.
  - destruct C as [S ->]. rewrite S. fold (is_connection_error e).
    destruct (is_connection_error e); cbn;
      try destruct (isReconnecting st); cbn;
      exists_below_top; (split; [reflexivity|]); by rewrite ?app_nil_r.
Qed.

(** X2. A send that fails on a healthy client stores nothing and broadcasts
    nothing: the requesting socket alone gets the error, for a media message
    with "Failed to send media message: " in front.  If the driver's error
    names a lost session ("Evaluation failed", "Session closed" or "Target
    closed"), also inside the wrapped text of a media message, the ready flag
    is cleared and [safeReconnect] is scheduled after one second unless a
    reconnect is in flight; any other error leaves the flag up and sets no
    timer. *)
Theorem send_failure_starts_reconnect `{Imports} (data : SendData.t) (io : SendIO)
    (st : Server) (e shown : string) :
  isClientHealthy st = true ->
  (if truthy (SendData.mediaUrl data)
   then (fetched io = Rejected e \/
         (exists body, fetched io = Resolved body) /\ sent io = Rejected e) /\
        shown = "Failed to send media message: " +:+ e
   else sent io = Rejected e /\ shown = e) ->
  let st' := send_message data io st in
  chats st' = chats st /\
  emits_of (new_effects st st') = [] /\
  head (new_effects st st') =
    Some (socket_emit (sent_error (or_else (Some shown) "Unknown error"))) /\
  inflight st' = inflight st /\
  if is_connection_error e then
    isClientReady st' = false /\
    scheduled st st' =
      if isReconnecting st then []
      else [(1000, cb_safeReconnect "Message sending failed due to connection error")]
  else
    isClientReady st' = true /\ scheduled st st' = [].
Proof.
  intros Hh C st'. subst st'.
  destruct (send_message_fails data io st e shown Hh C) as (l & T & Q & Cs & In & R).
  split; [exact Cs|].
  rewrite (new_effects_app st _ (socket_emit (sent_error (or_else (Some shown) "Unknown error")) :: l))
    by exact T.
  split; [exact Q|]. split; [reflexivity|]. split; [exact In|].
  destruct (is_connection_error e).
  - destruct R as [R Ti]. split; [exact R|]. by apply scheduled_app.
  - destruct R as [R Ti]. split; [|by apply scheduled_app].
    rewrite R. by apply isClientHealthy_true in Hh as [Hh _].
Qed.

(** ** One message, two events *)

(** X4. When the driver raises both [message] and [message_create] for the
    same message, at most one of the two handlers acts on it: the other leaves
    everything but the console untouched and emits nothing. *)
Theorem one_handler_per_message `{Imports} (msg : Message.t) (io io' : MediaIO)
    (st : Server) :
  let st1 := on_message msg io st in
  let st2 := on_message_create msg io' st1 in
  (untouched st st1 /\ new_effects st st1 = []) \/
  (untouched st1 st2 /\ new_effects st1 st2 = []).
Proof.
  cbv zeta.
  assert (U : forall a b, untouched a b -> untouched a b /\ new_effects a b = []).
  { intros a b U. split; [exact U|]. apply new_effects_same, untouched_trace, U. }
  destruct (Message.fromMe msg) eqn:F.
  - left. apply U. unfold on_message. rewrite F.
    destruct (isClientReady st); [apply untouched_refl | apply untouched_console_log].
  - right. apply U. unfold on_message_create. rewrite F.
    destruct (isClientReady _); [apply untouched_refl | apply untouched_console_log].
Qed.

(** X3. A text message sent through [send_message] is handed to
    [addMessage] by the handler, under the driver's serialized id and without
    an acknowledgment level.  The [message_create] event that the driver
    raises for the same message hands it to [addMessage] a second time, under
    the short id: the store is asked to add two records for one message. *)
Theorem sent_message_is_saved_twice `{Imports} (data : SendData.t) (io : SendIO)
    (mio : MediaIO) (st : Server) (m : Message.t) (cs : Chats) (chat : Chat.t) :
  isClientHealthy st = true ->
  truthy (SendData.mediaUrl data) = false ->
  sent io = Resolved m ->
  addMessage (sent_chat_message data io m) (chats st) = (cs, Resolved chat) ->
  Message.fromMe m = true ->
  Message.hasMedia m = false ->
  for_current_account (Message.from m) st = true ->
  let st1 := send_message data io st in
  let st2 := on_message_create m mio st1 in
  chats st1 = cs /\
  emits_of (new_effects st st1) =
    [chat_updated chat; whatsapp_message (sent_chat_message data io m)] /\
  chats st2 = (addMessage (outgoing_message m no_media (now mio)) cs).1 /\
  ChatMessage.id (sent_chat_message data io m) = MessageId._serialized (Message.id m) /\
  ChatMessage.id (outgoing_message m no_media (now mio)) = MessageId.id (Message.id m).
Proof.
  intros Hh T S A F M Cur. cbv zeta.
  assert (E : send_message data io st =
    emit (chat_updated chat)
      (emit (whatsapp_message (sent_chat_message data io m))
         (effect (socket_emit (sent_ok (sent_chat_message data io m) chat))
            (set_chats cs
               (effect (call (client_sendMessage (formattedNumber (SendData.phoneNumber data))
                                (SendData.message data) false))
                  (console_log "Received message data" st)))))).
  { unfold send_message.
    change (isClientHealthy (console_log "Received message data" st))
      with (isClientHealthy st).
    rewrite Hh, T, S. cbn [negb].
    fold (formattedNumber (SendData.phoneNumber data)).
    unfold sent_chat_message in A. rewrite T in A.
    cbn [chats effect set_trace console_log set_console].
    unfold sent_chat_message. rewrite T. by rewrite A. }
  rewrite E. split; [reflexivity|]. split; [trace_diff; reflexivity|].
  split; [|by split].
  unfold on_message_create.
  apply isClientHealthy_true in Hh as [R _].
  cbn [isClientReady emit effect set_trace set_chats console_log set_console].
  rewrite R, F. cbn [negb].
  change (for_current_account (Message.from m) _)
    with (for_current_account (Message.from m) st).
  rewrite Cur. unfold processOutgoingMessage, process_media. rewrite M.
  unfold save_and_announce. cbn [chats console_log set_console emit effect set_trace set_chats].
  by destruct (addMessage _ cs) as [cs' [chat'|e']].
Qed.

(** ** The ready event *)

(** X5. The [ready] handler raises the ready flag, sets the attempt counter
    to 0, drops the QR code, and broadcasts READY before anything else.  If
    the client carries its identity, the account becomes
    [<wid.user>@c.us], the profile picture is asked for once, the health
    check holds, and an inbound text message addressed to that account is
    handed to [addMessage].  If the identity is missing, the account is left
    as it was, the health check fails although the ready flag is up, and,
    the account not being ready, every inbound message is ignored. *)
Theorem ready_opens_ingestion `{Imports} (pic : Outcome (option string))
    (timestamp : string) (st : Server) :
  let st1 := on_ready pic timestamp st in
  isClientReady st1 = true /\
  reconnectAttempts st1 = 0 /\
  qrCode st1 = None /\
  head (reverse (emits_of (new_effects st st1))) =
    Some (connection_state "READY" no_details true 0) /\
  match client st with
  | Some {| Client.info := Some {| ClientInfo.wid := Some wid; ClientInfo.pushname := pushname |} |} =>
      isClientHealthy st1 = true /\
      phoneNumber (currentAccountInfo st1) = Some (Wid.user wid +:+ "@c.us") /\
      isReady (currentAccountInfo st1) = true /\
      calls_of (new_effects st st1) = [client_getProfilePicUrl (Wid._serialized wid)] /\
      forall msg io,
        Message.fromMe msg = false ->
        Message.hasMedia msg = false ->
        Message.to msg = Wid.user wid +:+ "@c.us" ->
        chats (on_message msg io st1) =
          (addMessage (incoming_message msg no_media (now io)) (chats st)).1
  | _ =>
      isClientHealthy st1 = false /\
      currentAccountInfo st1 = currentAccountInfo st /\
      calls_of (new_effects st st1) = [] /\
      (isReady (currentAccountInfo st) = false ->
       forall msg io, untouched st1 (on_message msg io st1))
  end.
Proof.
  cbv zeta. unfold on_ready, updateAccountInfo.
  cbn [client set_isClientReady set_reconnectAttempts logConnectionState emit effect
         set_trace console_log set_console].
  destruct (client st) as [[[[[wid|] pushname]|]]|] eqn:Ec.
  - destruct pic as [url|e]; cbn [Client.info ClientInfo.wid];
      (split; [reflexivity|]); (split; [reflexivity|]); (split; [reflexivity|]);
      (split; [trace_diff; reflexivity|]);
      (split; [unfold isClientHealthy; cbn; by rewrite Ec|]);
      (split; [reflexivity|]); (split; [reflexivity|]);
      (split; [trace_diff; reflexivity|]);
      intros msg io F M T;
      unfold on_message, for_current_account, processIncomingMessage, process_media,
        save_and_announce;
      cbn; rewrite F, M, T; cbn; rewrite bool_decide_eq_true_2 by reflexivity;
      by destruct (addMessage _ (chats st)) as [cs' [chat'|e']].
  - cbn [Client.info ClientInfo.wid].
    repeat (split; [first [reflexivity | trace_diff; reflexivity
                          | unfold isClientHealthy; cbn; by rewrite Ec]|]).
    intros A msg io. unfold on_message, for_current_account. cbn. rewrite A. cbn.
    destruct (Message.fromMe msg); [apply untouched_refl | apply untouched_console_log].
  - cbn [Client.info].
    repeat (split; [first [reflexivity | trace_diff; reflexivity
                          | unfold isClientHealthy; cbn; by rewrite Ec]|]).
    intros A msg io. unfold on_message, for_current_account. cbn. rewrite A. cbn.
    destruct (Message.fromMe msg); [apply untouched_refl | apply untouched_console_log].
  - repeat (split; [first [reflexivity | trace_diff; reflexivity
                          | unfold isClientHealthy; cbn; by rewrite Ec]|]).
    intros A msg io. unfold on_message, for_current_account. cbn. rewrite A. cbn.
    destruct (Message.fromMe msg); [apply untouched_refl | apply untouched_console_log].
Qed.

(** ** The name of a stored file *)

Lemma append_nonempty (a b : string) : b <> "" -> a +:+ b <> "".
Proof. intros N. destruct a; [exact N | discriminate]. Qed.

(** X6. When a message's media is downloaded and uploaded, the media step
    makes exactly these two calls and the record carries the uploaded URL, a
    file name that is never empty, and 'audio/ogg' for a voice note, the
    media's own MIME type otherwise.  Without a file name from the driver the
    name is [<type>_<ms>.<ext>], where the extension is 'ogg' for a voice
    note, else what stands between the first and the second slash of the
    MIME type, and the word 'undefined' when the MIME type has no slash. *)
Theorem stored_media_is_named `{Imports} (msg : Message.t) (io : MediaIO) (st : Server)
    (media : MessageMedia.t) (url : string) :
  Message.hasMedia msg = true ->
  downloaded io = Resolved (Some media) ->
  uploaded io = Resolved url ->
  exists mf,
    (process_media msg io st).2 = Resolved mf /\
    mf_mediaUrl mf = url /\
    mf_fileName mf <> "" /\
    calls_of (new_effects st (process_media msg io st).1) =
      [uploadMediaToSupabase (mf_fileName mf) (mf_mediaType mf);
       msg_downloadMedia (MessageId.id (Message.id msg))] /\
    mf_mediaType mf =
      (if bool_decide (Message.type msg = "ptt") then "audio/ogg"
       else MessageMedia.mimetype media) /\
    (truthy (MessageMedia.filename media) = false ->
     mf_fileName mf =
       Message.type msg +:+ "_" +:+ pretty (now_ms io) +:+ "." +:+
       (if bool_decide (Message.type msg = "ptt") then "ogg"
        else match after_slash (MessageMedia.mimetype media) with
             | Some rest => until_slash rest
             | None => "undefined"
             end)).
Proof.
  intros M D U. unfold process_media. rewrite M, D, U.
  eexists. split; [reflexivity|]. cbn [mf_mediaUrl mf_fileName mf_mediaType fst].
  split; [reflexivity|]. split; [|split; [trace_diff; reflexivity|split; [reflexivity|]]].
  - apply or_else_nonempty. do 1 apply append_nonempty. discriminate.
  - intros T. unfold or_else, truthy in *.
    destruct (MessageMedia.filename media) as [s|].
    + case_bool_decide; [discriminate|]. case_decide; [|contradiction].
      unfold split_slash_1. by destruct (after_slash _).
    + unfold split_slash_1. by destruct (after_slash _).
Qed.

(** ** The account of a reachable state *)

(** X7. In every reachable state an account marked ready is complete: its
    phone number is a driver user id followed by "@c.us", its name is not
    empty, and it has a connection time.  So an address for which
    [for_current_account] holds always contains "@c.us". *)
Theorem ready_account_is_complete `{Imports} (st : Server) :
  reachable st ->
  isReady (currentAccountInfo st) = true ->
  (exists user, phoneNumber (currentAccountInfo st) = Some (user +:+ "@c.us")) /\
  (exists n, name (currentAccountInfo st) = Some n /\ n <> "") /\
  is_Some (connectedAt (currentAccountInfo st)) /\
  forall x, for_current_account x st = true -> includes x "@c.us" = true.
Proof.
  intros R A. destruct (reachable_account st R A) as ([user P] & N & C).
  split; [by exists user|]. split; [exact N|]. split; [exact C|].
  intros x Cur. apply for_current_account_true in Cur as [_ Cur].
  rewrite P in Cur. injection Cur as <-. apply includes_app_r.
Qed.

(** X17. In every reachable state [GET /health] answers 200 with status
    'ok', whatever the state of the WhatsApp client.  Its [whatsapp.ready] is
    the health check and implies [whatsapp.connected]; account details are
    given exactly when [whatsapp.authenticated] is true, and then the phone
    number, the name and the connection time are all there. *)
Theorem health_report `{Imports} (st : Server) :
  reachable st ->
  let w := Health.whatsapp_part (get_health st).2 in
  (get_health st).1 = 200 /\
  Health.status (get_health st).2 = "ok" /\
  Health.ready w = isClientHealthy st /\
  (Health.ready w = true -> Health.connected w = true) /\
  match Health.accountInfo w with
  | Some a =>
      Health.authenticated w = true /\
      (exists user, Health.phoneNumber a = Some (user +:+ "@c.us")) /\
      is_Some (Health.name a) /\ is_Some (Health.connectedAt a)
  | None => Health.authenticated w = false
  end.
Proof.
  intros R. cbn.
  split; [reflexivity|]. split; [reflexivity|]. split; [reflexivity|].
  split; [intros Hh; by apply isClientHealthy_true in Hh as [Hh _]|].
  destruct (isReady (currentAccountInfo st)) eqn:A; [|reflexivity].
  destruct (reachable_account st R A) as (P & (n & N & _) & C).
  cbn. split; [reflexivity|]. split; [exact P|]. split; [by exists n | exact C].
Qed.

(** ** After a logout *)










(** ** Refreshing the avatars *)



(** ** Restart and logout *)

(** X12. A settled promise of [restartWhatsAppClient] never touches the
    ready flag, the account or the attempt counter and never sets a timer.
    When [client.destroy()] or [client.initialize()] rejects, the restart
    ends: [isInitializing] is released, the [client] variable stays as it
    was, no further call is made, and the one broadcast is the [error] event;
    nothing schedules another try.  When [client.destroy()] resolves, a new
    client is created and initialized; when [client.initialize()] resolves,
    the flag is released. *)
Theorem failed_restart_is_not_retried `{Imports} (st st' : Server) (k : nat)
    (t : Task) (r cleanup : Outcome unit) :
  inflight st !! k = Some t ->
  t = restart_awaits_destroy \/ t = restart_awaits_initialize ->
  step (ev_settled k r cleanup) st = Some st' ->
  isClientReady st' = isClientReady st /\
  currentAccountInfo st' = currentAccountInfo st /\
  reconnectAttempts st' = reconnectAttempts st /\
  scheduled st st' = [] /\
  match r with
  | Rejected _ =>
      inflight st' = delete k (inflight st) /\
      isInitializing st' = false /\
      client st' = client st /\
      calls_of (new_effects st st') = [] /\
      emits_of (new_effects st st') = [error_event "Failed to restart WhatsApp client"]
  | Resolved _ =>
      emits_of (new_effects st st') = [] /\
      if decide (t = restart_awaits_destroy) then
        inflight st' = restart_awaits_initialize :: delete k (inflight st) /\
        isInitializing st' = isInitializing st /\
        client st' = Some new_Client /\
        calls_of (new_effects st st') = [client_initialize]
      else
        inflight st' = delete k (inflight st) /\
        isInitializing st' = false /\
        client st' = client st /\
        calls_of (new_effects st st') = []
  end.
Proof.
  intros L T S. apply step_settled_inv in S as (_ & t' & L' & F).
  rewrite L in L'. injection L' as <-.
  destruct T as [-> | ->]; cbn [settle] in F; injection F as <-;
    unfold restart_destroyed, restart_initialized, restart_create, restart_catch;
    destruct r as [[]|e]; cbn [isClientReady currentAccountInfo reconnectAttempts];
    (split; [reflexivity|]); (split; [reflexivity|]); (split; [reflexivity|]);
    (split; [apply scheduled_app; symmetry; apply app_nil_r|]);
    try (split; [trace_diff; reflexivity|]);
    try (rewrite decide_True by reflexivity); try (rewrite decide_False by discriminate);
    repeat (split; [first [reflexivity | trace_diff; reflexivity]|]);
    first [reflexivity | trace_diff; reflexivity].
Qed.

(** X13. [POST /whatsapp/logout] changes nothing but the timers, the trace
    and the console: unlike the soft logout it keeps the account and the
    ready flag.  It calls [client.logout()] when there is a client; if that
    throws it answers 500, broadcasts nothing and sets no timer, otherwise it
    broadcasts [restarting], schedules the restart after two seconds and
    answers 200. *)
Theorem logout_keeps_session_state `{Imports} (r : Outcome unit) (st : Server) :
  let st1 := post_logout r st in
  st1 = set_console (console st1) (set_trace (trace st1) (set_timers (timers st1) st)) /\
  currentAccountInfo st1 = currentAccountInfo st /\
  isClientReady st1 = isClientReady st /\
  calls_of (new_effects st st1) =
    match client st with Some _ => [client_logout] | None => [] end /\
  match client st, r with
  | Some _, Rejected e =>
      scheduled st st1 = [] /\
      emits_of (new_effects st st1) = [] /\
      head (new_effects st st1) =
        Some (res_json 500
                (body_error "Failed to logout WhatsApp client"
                   (or_else (Some e) "Unknown error")))
  | _, _ =>
      scheduled st st1 = [(2000, cb_restartWhatsAppClient)] /\
      emits_of (new_effects st st1) = [restarting "Перезапуск WhatsApp клиента..."] /\
      head (new_effects st st1) =
        Some (res_json 200 (body_success "WhatsApp client logged out and restarting"))
  end.
Proof.
  cbv zeta. unfold post_logout. cbn [client console_log set_console].
  destruct (client st) as [c|] eqn:Ec; [destruct r as [[]|e]|];
    (split; [by destruct st|]); (split; [reflexivity|]); (split; [reflexivity|]);
    (split; [trace_diff; reflexivity|]).
  - split; [by apply scheduled_app|]. split; trace_diff; reflexivity.
  - split; [apply scheduled_app; symmetry; apply app_nil_r|].
    split; trace_diff; reflexivity.
  - split; [by apply scheduled_app|]. split; trace_diff; reflexivity.
Qed.

(** ** The theorems at work on the examples *)

Lemma st_ready_reachable : reachable (H := sample_imports) st_ready.
Proof. exists ∅, to_ready. vm_compute. reflexivity. Defined.

Lemma send_goes_to_formatted_number_witness :
  "77005554433@c.us" = formattedNumber "+7 (700) 555-44-33" /\
  includes "77005554433@c.us" "@c.us" = true.
Proof.
  destruct (send_goes_to_formatted_number (H := sample_imports) sample_send sample_send_io
              st_ready "77005554433@c.us" "hello" false) as (A & _ & B & _).
  - vm_compute. constructor 1.
  - split; [exact A | exact B].
Defined.

Lemma allowed_origins_content_witness :
  "https://2wix.ru" ∈ getAllowedOrigins "https://app.example" None true.
Proof.
  apply (proj2 (proj1 (proj2 (allowed_origins_content "https://app.example" None true))
                  "https://2wix.ru")).
  right. left. vm_compute. constructor 1.
Defined.

Lemma chats_summary_counts_witness :
  Summary.totalChats
    (chats_summary (<["A@c.us" := {| Chat.phoneNumber := "A@c.us"; Chat.messages := [];
                                      Chat.unreadCount := 2; Chat.avatarUrl := None |}]> ∅)
       0 (fresh ∅))
  = Summary.totalChats (chats_summary ∅ 0 (fresh ∅)) + 1.
Proof.
  refine (proj1 (proj2 (proj2 (chats_summary_counts ∅ 0 (fresh ∅))) "A@c.us" _ _)).
  reflexivity.
Defined.

Lemma status_text_and_colour_agree_witness : getStatusColor "ready" = "bg-green-500".
Proof. apply (proj1 (status_text_and_colour_agree "ready")). reflexivity. Defined.

Lemma logout_only_for_confirming_admin_witness :
  logoutWhatsApp ∈ handleLogout true true (Resolved true).
Proof.
  apply (proj1 (logout_only_for_confirming_admin true true (Resolved true))).
  split; reflexivity.
Defined.

Lemma initialization_gives_up_after_five_witness :
  exists st',
    step (H := sample_imports) (ev_settled 0 (Rejected "boom") (Resolved ())) (boot ∅)
      = Some st' /\
    inflight st' = [initialize_awaits by_startup 2].
Proof.
  destruct (initialization_gives_up_after_five (H := sample_imports) (boot ∅) 0
              by_startup 1 "boom" (Resolved ())) as (_ & st' & S & C).
  - exists ∅, []. reflexivity.
  - reflexivity.
  - reflexivity.
  - exists st'. split; [exact S | exact (proj1 C)].
Defined.

Lemma initializations_between_resets_witness :
  (initializations_announced st_reconnecting <=
     initializations_announced st_ready + attempts_left st_ready
     + count_if is_delay_task (inflight st_ready))%nat.
Proof.
  refine (proj1 (initializations_between_resets (H := sample_imports) st_ready
                   st_reconnecting [ev_disconnected "NAVIGATION"; ev_timer 0] _ _ _)).
  - exact st_ready_reachable.
  - repeat constructor.
  - vm_compute. reflexivity.
Defined.

Lemma attempt_counter_moves_witness :
  reconnectAttempts (on_qr (Resolved "data:image/png;base64,AAAA") st_reconnecting) = 0.
Proof.
  refine (proj2 (attempt_counter_moves (H := sample_imports)
                   (ev_qr (Resolved "data:image/png;base64,AAAA")) st_reconnecting
                   (on_qr (Resolved "data:image/png;base64,AAAA") st_reconnecting) _ _)).
  - exists ∅, to_reconnecting. vm_compute. reflexivity.
  - vm_compute. reflexivity.
Defined.

Lemma initialization_is_single_flight_witness :
  (initializations_in_flight (boot ∅) <= 1)%nat /\
  restartWhatsAppClient (boot ∅) =
    console_log "Client is already initializing, skipping restart" (boot ∅).
Proof.
  destruct (initialization_is_single_flight (H := sample_imports) (boot ∅))
    as (A & B & _).
  - exists ∅, []. reflexivity.
  - split; [exact A|]. apply B. vm_compute. lia.
Defined.

Lemma send_failure_starts_reconnect_witness :
  let io := {| fetched := Resolved ""; sent := Rejected "Session closed";
               sent_at := "2024-01-01T00:00:07.000Z" |} in
  isClientReady (send_message (H := sample_imports) sample_send io st_ready) = false.
Proof.
  intros io.
  destruct (send_failure_starts_reconnect (H := sample_imports) sample_send io st_ready
              "Session closed" "Session closed") as (_ & _ & _ & _ & C).
  - vm_compute. reflexivity.
  - split; reflexivity.
  - exact (proj1 C).
Defined.

Lemma sent_message_is_saved_twice_witness :
  let r := sent_chat_message sample_send sample_send_io (sample_echo 0) in
  let cs := (@addMessage sample_imports r (chats st_ready)).1 in
  chats (send_message (H := sample_imports) sample_send sample_send_io st_ready) = cs.
Proof.
  intros r cs.
  refine (proj1 (sent_message_is_saved_twice (H := sample_imports) sample_send
                   sample_send_io (sample_io (Resolved None) (Resolved "")) st_ready
                   (sample_echo 0) cs
                   (match (@addMessage sample_imports r (chats st_ready)).2 with
                    | Resolved chat => chat
                    | Rejected _ =>
                        {| Chat.phoneNumber := ""; Chat.messages := [];
                           Chat.unreadCount := 0; Chat.avatarUrl := None |}
                    end) _ _ _ _ _ _ _));
    vm_compute; reflexivity.
Defined.

Lemma ready_opens_ingestion_witness :
  isClientReady
    (on_ready (Resolved None) "2024-01-01T00:00:00.000Z" (fresh ∅)) = true.
Proof.
  exact (proj1 (ready_opens_ingestion (H := sample_imports) (Resolved None)
                  "2024-01-01T00:00:00.000Z" (fresh ∅))).
Defined.

Lemma stored_media_is_named_witness :
  exists mf,
    (process_media (H := sample_imports) (sample_inbound true)
       (sample_io (Resolved (Some sample_media)) (Resolved "https://x/y.png"))
       (fresh ∅)).2 = Resolved mf /\
    mf_fileName mf <> "".
Proof.
  destruct (stored_media_is_named (H := sample_imports) (sample_inbound true)
              (sample_io (Resolved (Some sample_media)) (Resolved "https://x/y.png"))
              (fresh ∅) sample_media "https://x/y.png") as (mf & A & _ & B & _).
  - reflexivity.
  - reflexivity.
  - reflexivity.
  - exists mf. split; [exact A | exact B].
Defined.

Lemma ready_account_is_complete_witness :
  exists user, phoneNumber (currentAccountInfo st_ready) = Some (user +:+ "@c.us").
Proof.
  refine (proj1 (ready_account_is_complete (H := sample_imports) st_ready _ _)).
  - exact st_ready_reachable.
  - vm_compute. reflexivity.
Defined.

Lemma health_report_witness : (get_health st_ready).1 = 200.
Proof.
  exact (proj1 (health_report (H := sample_imports) st_ready st_ready_reachable)).
Defined.




Lemma failed_restart_is_not_retried_witness :
  exists st',
    step (H := sample_imports) (ev_settled 0 (Rejected "no browser") (Resolved ()))
      (restartWhatsAppClient (fresh ∅)) = Some st' /\
    scheduled (restartWhatsAppClient (fresh ∅)) st' = [] /\
    isInitializing st' = false.
Proof.
  eexists. split; [vm_compute; reflexivity|].
  match goal with |- scheduled _ ?s = [] /\ _ =>
    destruct (failed_restart_is_not_retried (H := sample_imports)
                (restartWhatsAppClient (fresh ∅)) s 0 restart_awaits_initialize
                (Rejected "no browser") (Resolved ()))
      as (_ & _ & _ & A & _ & B & _)
  end.
  - reflexivity.
  - right. reflexivity.
  - vm_compute. reflexivity.
  - split; [exact A | exact B].
Defined.
